(** * usque: configuration loading and the SOCKS front end

  A shallow embedding of [config/config.go], [cmd/root.go] and
  [cmd/socks.go].

  - Go strings are byte strings ([string], one [ascii] per byte).
  - [int], [time.Duration] and [uint16] values are integers ([Z]); the
    range of the Go type is a side condition where it matters.
  - The process-wide variables [AppConfig] and [ConfigLoaded] and the file
    system are fields of an explicit [State].
  - [encoding/json] is modelled on JSON values (the text layer, which is
    the library's scanner and printer, is not modelled): a file holds
    either something the decoder cannot scan or one JSON value.
  - Calls into other packages (x509, the virtual network stack, the SOCKS5
    server) are the fields of a record [Library]; what a command does with
    them is recorded as a list of events. *)

From Stdlib Require Import ZArith NArith List Ascii String Bool Lia.
From stdpp Require Import gmap strings.

#[local] Set Warnings "-register-all".
Import ListNotations.

Local Open Scope string_scope.
Local Open Scope Z_scope.

(* ===================================================================== *)
(** ** UTF-8, as [unicode/utf8] decodes it *)
(* ===================================================================== *)

Module utf8.

Definition between (lo hi : N) (c : ascii) : bool :=
  ((lo <=? N_of_ascii c) && (N_of_ascii c <=? hi))%N.

(** A continuation byte, [locb .. hicb]. *)
Definition cont : ascii -> bool := between 128 191.

(** Size in bytes of the rune encoded at the start of [s], as
    [utf8.DecodeRuneInString] finds it; [0%nat] where Go returns
    [(RuneError, 1)] (or the string is empty).  The second byte's range
    depends on the first ([acceptRanges]). *)
Definition rune_size (s : string) : nat :=
  match s with
  | EmptyString => 0%nat
  | String b0 t =>
    if between 0 127 b0 then 1%nat
    else if between 194 223 b0 then
      match t with
      | String b1 _ => if cont b1 then 2%nat else 0%nat
      | _ => 0%nat
      end
    else if between 224 239 b0 then
      match t with
      | String b1 (String b2 _) =>
        let lo := if between 224 224 b0 then 160%N else 128%N in
        let hi := if between 237 237 b0 then 159%N else 191%N in
        if between lo hi b1 && cont b2 then 3%nat else 0%nat
      | _ => 0%nat
      end
    else if between 240 244 b0 then
      match t with
      | String b1 (String b2 (String b3 _)) =>
        let lo := if between 240 240 b0 then 144%N else 128%N in
        let hi := if between 244 244 b0 then 143%N else 191%N in
        if between lo hi b1 && cont b2 && cont b3 then 4%nat else 0%nat
      | _ => 0%nat
      end
    else 0%nat
  end.

(** U+FFFD, the replacement character, in UTF-8. *)
Definition replacement : string :=
  String (ascii_of_N 239) (String (ascii_of_N 191) (String (ascii_of_N 189) EmptyString)).

(** [skip] counts the bytes of the current rune still to be copied. *)
Fixpoint valid_from (skip : nat) (s : string) : bool :=
  match s with
  | EmptyString => true
  | String b t =>
    match skip with
    | S k => valid_from k t
    | O => match rune_size s with
           | O => false
           | S k => valid_from k t
           end
    end
  end.

(** [utf8.ValidString]. *)
Definition ValidString (s : string) : bool := valid_from 0 s.

Fixpoint coerce_from (skip : nat) (s : string) : string :=
  match s with
  | EmptyString => EmptyString
  | String b t =>
    match skip with
    | S k => String b (coerce_from k t)
    | O => match rune_size s with
           | O => replacement ++ coerce_from 0 t
           | S k => String b (coerce_from k t)
           end
    end
  end.

(** What a Go string becomes when [encoding/json] writes it and reads it
    back: every byte at which no well-formed rune starts is replaced by
    U+FFFD, everything else is kept. *)
Definition coerce (s : string) : string := coerce_from 0 s.

End utf8.

(* ===================================================================== *)
(** ** JSON values *)
(* ===================================================================== *)

Module json.

(** A number literal: an integer literal with its sign ([-0] is a literal
    of its own), or a literal with a fraction or an exponent, of which only
    the text is kept. *)
Inductive number :=
| IntLit (neg : bool) (magnitude : N)
| RealLit (text : string).

Inductive value :=
| Null
| Bool (b : bool)
| Number (n : number)
| Str (s : string)
| Array (items : list value)
| Object (members : list (string * value)).

(** The word [UnmarshalTypeError.Value] starts with. *)
Definition describe (v : value) : string :=
  match v with
  | Null => "null"
  | Bool _ => "bool"
  | Number _ => "number"
  | Str _ => "string"
  | Array _ => "array"
  | Object _ => "object"
  end.

(** [json.UnmarshalTypeError]: the JSON value met, the Go type it was to
    be stored in, and the dotted path of the field. *)
Record UnmarshalTypeError := {
  Value : string;
  Type_ : string;
  Field : string
}.

(** [strconv.FormatInt(z, 10)] as a literal. *)
Definition of_int (z : Z) : number := IntLit (z <? 0) (Z.abs_N z).

(** The value [strconv.ParseInt] reads from an integer literal. *)
Definition int_value (neg : bool) (magnitude : N) : Z :=
  if neg then - Z.of_N magnitude else Z.of_N magnitude.

(** [decodeState.saveError]: the first error is the one reported. *)
Definition saveError (e : UnmarshalTypeError) (saved : option UnmarshalTypeError)
  : option UnmarshalTypeError :=
  match saved with
  | None => Some e
  | Some _ => saved
  end.

Definition mismatch (v : value) (gotype path : string) : UnmarshalTypeError :=
  {| Value := describe v; Type_ := gotype; Field := path |}.

(** *** Decoding into a field of a given kind

    Each decoder takes the JSON value, the field's present content and the
    saved error, and returns the field's new content and the saved error.
    [null] leaves a string, number or boolean as it is; a value of the
    wrong JSON type records an [UnmarshalTypeError] and leaves the field
    as it is; decoding goes on either way. *)

Definition decode_string (path : string) (v : value) (old : string)
           (saved : option UnmarshalTypeError) : string * option UnmarshalTypeError :=
  match v with
  | Null => (old, saved)
  | Str s => (s, saved)
  | _ => (old, saveError (mismatch v "string" path) saved)
  end.

Definition decode_bool (path : string) (v : value) (old : bool)
           (saved : option UnmarshalTypeError) : bool * option UnmarshalTypeError :=
  match v with
  | Null => (old, saved)
  | Bool b => (b, saved)
  | _ => (old, saveError (mismatch v "bool" path) saved)
  end.

Definition fits_int64 (z : Z) : bool := (- 2 ^ 63 <=? z) && (z <=? 2 ^ 63 - 1).
Definition fits_uint16 (z : Z) : bool := (0 <=? z) && (z <=? 65535).

(** A signed 64-bit field ([int], [time.Duration]): [strconv.ParseInt]
    with base 10 and 64 bits; a literal with a fraction or exponent, or
    out of range, is a type error. *)
Definition decode_int64 (gotype path : string) (v : value) (old : Z)
           (saved : option UnmarshalTypeError) : Z * option UnmarshalTypeError :=
  match v with
  | Null => (old, saved)
  | Number (IntLit neg m) =>
    if fits_int64 (int_value neg m) then (int_value neg m, saved)
    else (old, saveError (mismatch v gotype path) saved)
  | _ => (old, saveError (mismatch v gotype path) saved)
  end.

(** A [uint16] field: [strconv.ParseUint] takes no sign at all, then
    [OverflowUint]. *)
Definition decode_uint16 (path : string) (v : value) (old : Z)
           (saved : option UnmarshalTypeError) : Z * option UnmarshalTypeError :=
  match v with
  | Null => (old, saved)
  | Number (IntLit false m) =>
    if fits_uint16 (Z.of_N m) then (Z.of_N m, saved)
    else (old, saveError (mismatch v "uint16" path) saved)
  | _ => (old, saveError (mismatch v "uint16" path) saved)
  end.

(** The elements of a JSON array decoded into the slots of a [[]string]:
    slot [i] starts from the slice's element [i] when it has one and from
    the empty string otherwise (what the spare capacity of the slice holds
    is not modelled), and is decoded like a string field. *)
Fixpoint decode_strings (path : string) (items : list value) (old : list string)
         (saved : option UnmarshalTypeError) : list string * option UnmarshalTypeError :=
  match items with
  | [] => ([], saved)
  | v :: items' =>
    let '(s, saved1) := decode_string path v (hd "" old) saved in
    let '(l, saved2) := decode_strings path items' (tl old) saved1 in
    (s :: l, saved2)
  end.

(** A [[]string] field.  [None] is the nil slice, which [null] sets and
    which differs from the empty slice [Some []] that [[]] sets. *)
Definition decode_string_slice (path : string) (v : value) (old : option (list string))
           (saved : option UnmarshalTypeError)
  : option (list string) * option UnmarshalTypeError :=
  match v with
  | Null => (None, saved)
  | Array items =>
    let '(l, saved') := decode_strings path items (default [] old) saved in
    (Some l, saved')
  | _ => (old, saveError (mismatch v "[]string" path) saved)
  end.

(** *** Field names

    A key selects the field whose name it equals, and failing that the
    field whose name it equals after folding.  Folding maps every rune to
    the least rune of its simple case-folding orbit: on names made of ASCII
    letters, digits and [_] that is upper-casing, plus the two non-ASCII
    runes whose orbit has an ASCII letter, U+017F (long s) and U+212A
    (Kelvin sign). *)

Definition upper (c : ascii) : ascii :=
  if utf8.between 97 122 c then ascii_of_N (N_of_ascii c - 32) else c.

Fixpoint foldName (s : string) : string :=
  match s with
  | EmptyString => EmptyString
  | String b0 t =>
    match t with
    | String b1 t1 =>
      if utf8.between 197 197 b0 && utf8.between 191 191 b1
      then String "S" (foldName t1)
      else
        match t1 with
        | String b2 t2 =>
          if utf8.between 226 226 b0 && utf8.between 132 132 b1 && utf8.between 170 170 b2
          then String "K" (foldName t2)
          else String (upper b0) (foldName t)
        | EmptyString => String (upper b0) (foldName t)
        end
    | EmptyString => String (upper b0) EmptyString
    end
  end.

Section fields.
Context {F : Type}.

(** [fields] lists a struct's fields with their JSON names, in
    declaration order. *)
Fixpoint byExactName (fields : list (string * F)) (key : string) : option F :=
  match fields with
  | [] => None
  | (name, f) :: rest => if String.eqb name key then Some f else byExactName rest key
  end.

Fixpoint byFoldedName (fields : list (string * F)) (key : string) : option F :=
  match fields with
  | [] => None
  | (name, f) :: rest =>
    if String.eqb (foldName name) (foldName key) then Some f else byFoldedName rest key
  end.

Definition lookup_field (fields : list (string * F)) (key : string) : option F :=
  match byExactName fields key with
  | Some f => Some f
  | None => byFoldedName fields key
  end.
End fields.

End json.

(* ===================================================================== *)
(** ** Package [config] *)
(* ===================================================================== *)

Module config.

Record ProxyServerConfig := mkProxyServerConfig {
  BindAddress : string;
  Port : string;
  Username : string;
  Password : string
}.

Record TunnelConfig := mkTunnelConfig {
  ConnectPort : Z;
  DNS : option (list string);
  DNSTimeout : Z;
  UseIPv6 : bool;
  NoTunnelIPv4 : bool;
  NoTunnelIPv6 : bool;
  SNIAddress : string;
  KeepalivePeriod : Z;
  MTU : Z;
  InitialPacketSize : Z;
  ReconnectDelay : Z;
  ConnectionTimeout : Z;
  IdleTimeout : Z
}.

Record Config := mkConfig {
  PrivateKey : string;
  EndpointV4 : string;
  EndpointV6 : string;
  EndpointPubKey : string;
  License : string;
  ID : string;
  AccessToken : string;
  IPv4 : string;
  IPv6 : string;
  Socks : ProxyServerConfig;
  HTTP : ProxyServerConfig;
  Tunnel : TunnelConfig
}.

(** The zero values, [ProxyServerConfig{}], [TunnelConfig{}], [Config{}]. *)
Definition zeroProxy : ProxyServerConfig := mkProxyServerConfig "" "" "" "".
Definition zeroTunnel : TunnelConfig :=
  mkTunnelConfig 0 None 0 false false false "" 0 0 0 0 0 0.
Definition zeroConfig : Config :=
  mkConfig "" "" "" "" "" "" "" "" "" zeroProxy zeroProxy zeroTunnel.

(** *** The struct tags *)

Inductive ProxyField := FBindAddress | FPort | FUsername | FPassword.

Definition ProxyFields : list (string * ProxyField) :=
  [ ("bind_address", FBindAddress); ("port", FPort);
    ("username", FUsername); ("password", FPassword) ].

Inductive TunnelField :=
| FConnectPort | FDNS | FDNSTimeout | FUseIPv6 | FNoTunnelIPv4 | FNoTunnelIPv6
| FSNIAddress | FKeepalivePeriod | FMTU | FInitialPacketSize | FReconnectDelay
| FConnectionTimeout | FIdleTimeout.

Definition TunnelFields : list (string * TunnelField) :=
  [ ("connect_port", FConnectPort); ("dns", FDNS); ("dns_timeout", FDNSTimeout);
    ("use_ipv6", FUseIPv6); ("no_tunnel_ipv4", FNoTunnelIPv4);
    ("no_tunnel_ipv6", FNoTunnelIPv6); ("sni_address", FSNIAddress);
    ("keepalive_period", FKeepalivePeriod); ("mtu", FMTU);
    ("initial_packet_size", FInitialPacketSize); ("reconnect_delay", FReconnectDelay);
    ("connection_timeout", FConnectionTimeout); ("idle_timeout", FIdleTimeout) ].

Inductive ConfigField :=
| FPrivateKey | FEndpointV4 | FEndpointV6 | FEndpointPubKey | FLicense | FID
| FAccessToken | FIPv4 | FIPv6 | FSocks | FHTTP | FTunnel.

Definition ConfigFields : list (string * ConfigField) :=
  [ ("private_key", FPrivateKey); ("endpoint_v4", FEndpointV4);
    ("endpoint_v6", FEndpointV6); ("endpoint_pub_key", FEndpointPubKey);
    ("license", FLicense); ("id", FID); ("access_token", FAccessToken);
    ("ipv4", FIPv4); ("ipv6", FIPv6); ("socks", FSocks); ("http", FHTTP);
    ("tunnel", FTunnel) ].

(** The five tunnel fields of type [time.Duration]. *)
Definition duration_fields : list TunnelField :=
  [FDNSTimeout; FKeepalivePeriod; FReconnectDelay; FConnectionTimeout; FIdleTimeout].

(** *** Decoding ([json.Decoder.Decode] into a struct)

    The members of a JSON object are taken in the order they are written;
    a member whose key names no field is skipped; a later member for the
    same field overwrites an earlier one. *)

Import json.

Definition store_ProxyField (path : string) (f : ProxyField) (v : value)
           (p : ProxyServerConfig) (saved : option UnmarshalTypeError)
  : ProxyServerConfig * option UnmarshalTypeError :=
  match f with
  | FBindAddress =>
    let '(x, e) := decode_string (path ++ ".bind_address") v (BindAddress p) saved in
    (mkProxyServerConfig x (Port p) (Username p) (Password p), e)
  | FPort =>
    let '(x, e) := decode_string (path ++ ".port") v (Port p) saved in
    (mkProxyServerConfig (BindAddress p) x (Username p) (Password p), e)
  | FUsername =>
    let '(x, e) := decode_string (path ++ ".username") v (Username p) saved in
    (mkProxyServerConfig (BindAddress p) (Port p) x (Password p), e)
  | FPassword =>
    let '(x, e) := decode_string (path ++ ".password") v (Password p) saved in
    (mkProxyServerConfig (BindAddress p) (Port p) (Username p) x, e)
  end.

Fixpoint decode_ProxyMembers (path : string) (members : list (string * value))
         (p : ProxyServerConfig) (saved : option UnmarshalTypeError)
  : ProxyServerConfig * option UnmarshalTypeError :=
  match members with
  | [] => (p, saved)
  | (key, v) :: rest =>
    match lookup_field ProxyFields key with
    | Some f =>
      let '(p', saved') := store_ProxyField path f v p saved in
      decode_ProxyMembers path rest p' saved'
    | None => decode_ProxyMembers path rest p saved
    end
  end.

Definition decode_ProxyServerConfig (path : string) (v : value)
           (p : ProxyServerConfig) (saved : option UnmarshalTypeError)
  : ProxyServerConfig * option UnmarshalTypeError :=
  match v with
  | Null => (p, saved)
  | Object members => decode_ProxyMembers path members p saved
  | _ => (p, saveError (mismatch v "config.ProxyServerConfig" path) saved)
  end.

Definition store_TunnelField (f : TunnelField) (v : value)
           (t : TunnelConfig) (saved : option UnmarshalTypeError)
  : TunnelConfig * option UnmarshalTypeError :=
  let '(mkTunnelConfig cp dns dt u6 n4 n6 sni kp mtu ips rd ct it) := t in
  match f with
  | FConnectPort =>
    let '(x, e) := decode_int64 "int" "tunnel.connect_port" v cp saved in
    (mkTunnelConfig x dns dt u6 n4 n6 sni kp mtu ips rd ct it, e)
  | FDNS =>
    let '(x, e) := decode_string_slice "tunnel.dns" v dns saved in
    (mkTunnelConfig cp x dt u6 n4 n6 sni kp mtu ips rd ct it, e)
  | FDNSTimeout =>
    let '(x, e) := decode_int64 "time.Duration" "tunnel.dns_timeout" v dt saved in
    (mkTunnelConfig cp dns x u6 n4 n6 sni kp mtu ips rd ct it, e)
  | FUseIPv6 =>
    let '(x, e) := decode_bool "tunnel.use_ipv6" v u6 saved in
    (mkTunnelConfig cp dns dt x n4 n6 sni kp mtu ips rd ct it, e)
  | FNoTunnelIPv4 =>
    let '(x, e) := decode_bool "tunnel.no_tunnel_ipv4" v n4 saved in
    (mkTunnelConfig cp dns dt u6 x n6 sni kp mtu ips rd ct it, e)
  | FNoTunnelIPv6 =>
    let '(x, e) := decode_bool "tunnel.no_tunnel_ipv6" v n6 saved in
    (mkTunnelConfig cp dns dt u6 n4 x sni kp mtu ips rd ct it, e)
  | FSNIAddress =>
    let '(x, e) := decode_string "tunnel.sni_address" v sni saved in
    (mkTunnelConfig cp dns dt u6 n4 n6 x kp mtu ips rd ct it, e)
  | FKeepalivePeriod =>
    let '(x, e) := decode_int64 "time.Duration" "tunnel.keepalive_period" v kp saved in
    (mkTunnelConfig cp dns dt u6 n4 n6 sni x mtu ips rd ct it, e)
  | FMTU =>
    let '(x, e) := decode_int64 "int" "tunnel.mtu" v mtu saved in
    (mkTunnelConfig cp dns dt u6 n4 n6 sni kp x ips rd ct it, e)
  | FInitialPacketSize =>
    let '(x, e) := decode_uint16 "tunnel.initial_packet_size" v ips saved in
    (mkTunnelConfig cp dns dt u6 n4 n6 sni kp mtu x rd ct it, e)
  | FReconnectDelay =>
    let '(x, e) := decode_int64 "time.Duration" "tunnel.reconnect_delay" v rd saved in
    (mkTunnelConfig cp dns dt u6 n4 n6 sni kp mtu ips x ct it, e)
  | FConnectionTimeout =>
    let '(x, e) := decode_int64 "time.Duration" "tunnel.connection_timeout" v ct saved in
    (mkTunnelConfig cp dns dt u6 n4 n6 sni kp mtu ips rd x it, e)
  | FIdleTimeout =>
    let '(x, e) := decode_int64 "time.Duration" "tunnel.idle_timeout" v it saved in
    (mkTunnelConfig cp dns dt u6 n4 n6 sni kp mtu ips rd ct x, e)
  end.

Fixpoint decode_TunnelMembers (members : list (string * value))
         (t : TunnelConfig) (saved : option UnmarshalTypeError)
  : TunnelConfig * option UnmarshalTypeError :=
  match members with
  | [] => (t, saved)
  | (key, v) :: rest =>
    match lookup_field TunnelFields key with
    | Some f =>
      let '(t', saved') := store_TunnelField f v t saved in
      decode_TunnelMembers rest t' saved'
    | None => decode_TunnelMembers rest t saved
    end
  end.

Definition decode_TunnelConfig (v : value)
           (t : TunnelConfig) (saved : option UnmarshalTypeError)
  : TunnelConfig * option UnmarshalTypeError :=
  match v with
  | Null => (t, saved)
  | Object members => decode_TunnelMembers members t saved
  | _ => (t, saveError (mismatch v "config.TunnelConfig" "tunnel") saved)
  end.

Definition store_ConfigField (f : ConfigField) (v : value)
           (c : Config) (saved : option UnmarshalTypeError)
  : Config * option UnmarshalTypeError :=
  let '(mkConfig pk e4 e6 epk lic id tok i4 i6 so ht tu) := c in
  match f with
  | FPrivateKey =>
    let '(x, e) := decode_string "private_key" v pk saved in
    (mkConfig x e4 e6 epk lic id tok i4 i6 so ht tu, e)
  | FEndpointV4 =>
    let '(x, e) := decode_string "endpoint_v4" v e4 saved in
    (mkConfig pk x e6 epk lic id tok i4 i6 so ht tu, e)
  | FEndpointV6 =>
    let '(x, e) := decode_string "endpoint_v6" v e6 saved in
    (mkConfig pk e4 x epk lic id tok i4 i6 so ht tu, e)
  | FEndpointPubKey =>
    let '(x, e) := decode_string "endpoint_pub_key" v epk saved in
    (mkConfig pk e4 e6 x lic id tok i4 i6 so ht tu, e)
  | FLicense =>
    let '(x, e) := decode_string "license" v lic saved in
    (mkConfig pk e4 e6 epk x id tok i4 i6 so ht tu, e)
  | FID =>
    let '(x, e) := decode_string "id" v id saved in
    (mkConfig pk e4 e6 epk lic x tok i4 i6 so ht tu, e)
  | FAccessToken =>
    let '(x, e) := decode_string "access_token" v tok saved in
    (mkConfig pk e4 e6 epk lic id x i4 i6 so ht tu, e)
  | FIPv4 =>
    let '(x, e) := decode_string "ipv4" v i4 saved in
    (mkConfig pk e4 e6 epk lic id tok x i6 so ht tu, e)
  | FIPv6 =>
    let '(x, e) := decode_string "ipv6" v i6 saved in
    (mkConfig pk e4 e6 epk lic id tok i4 x so ht tu, e)
  | FSocks =>
    let '(x, e) := decode_ProxyServerConfig "socks" v so saved in
    (mkConfig pk e4 e6 epk lic id tok i4 i6 x ht tu, e)
  | FHTTP =>
    let '(x, e) := decode_ProxyServerConfig "http" v ht saved in
    (mkConfig pk e4 e6 epk lic id tok i4 i6 so x tu, e)
  | FTunnel =>
    let '(x, e) := decode_TunnelConfig v tu saved in
    (mkConfig pk e4 e6 epk lic id tok i4 i6 so ht x, e)
  end.

Fixpoint decode_ConfigMembers (members : list (string * value))
         (c : Config) (saved : option UnmarshalTypeError)
  : Config * option UnmarshalTypeError :=
  match members with
  | [] => (c, saved)
  | (key, v) :: rest =>
    match lookup_field ConfigFields key with
    | Some f =>
      let '(c', saved') := store_ConfigField f v c saved in
      decode_ConfigMembers rest c' saved'
    | None => decode_ConfigMembers rest c saved
    end
  end.

(** [json.Unmarshal]'s work on [&AppConfig]: the struct as it is left, and
    the saved error, if any. *)
Definition unmarshal_Config (v : value) (c : Config)
  : Config * option UnmarshalTypeError :=
  match v with
  | Null => (c, None)
  | Object members => decode_ConfigMembers members c None
  | _ => (c, Some (mismatch v "config.Config" ""))
  end.

(** *** Encoding ([json.Encoder.Encode] of a struct)

    Every field is written, in declaration order, under its tag; a string is
    written with its ill-formed bytes replaced ([utf8.coerce]); a nil slice
    is written as [null]. *)

Definition encode_string (s : string) : value := Str (utf8.coerce s).
Definition encode_int (z : Z) : value := Number (of_int z).
Definition encode_bool (b : bool) : value := Bool b.

Definition encode_string_slice (l : option (list string)) : value :=
  match l with
  | None => Null
  | Some l => Array (map encode_string l)
  end.

Definition encode_ProxyServerConfig (p : ProxyServerConfig) : value :=
  Object [ ("bind_address", encode_string (BindAddress p));
           ("port", encode_string (Port p));
           ("username", encode_string (Username p));
           ("password", encode_string (Password p)) ].

Definition encode_TunnelConfig (t : TunnelConfig) : value :=
  Object [ ("connect_port", encode_int (ConnectPort t));
           ("dns", encode_string_slice (DNS t));
           ("dns_timeout", encode_int (DNSTimeout t));
           ("use_ipv6", encode_bool (UseIPv6 t));
           ("no_tunnel_ipv4", encode_bool (NoTunnelIPv4 t));
           ("no_tunnel_ipv6", encode_bool (NoTunnelIPv6 t));
           ("sni_address", encode_string (SNIAddress t));
           ("keepalive_period", encode_int (KeepalivePeriod t));
           ("mtu", encode_int (MTU t));
           ("initial_packet_size", encode_int (InitialPacketSize t));
           ("reconnect_delay", encode_int (ReconnectDelay t));
           ("connection_timeout", encode_int (ConnectionTimeout t));
           ("idle_timeout", encode_int (IdleTimeout t)) ].

Definition encode_Config (c : Config) : value :=
  Object [ ("private_key", encode_string (PrivateKey c));
           ("endpoint_v4", encode_string (EndpointV4 c));
           ("endpoint_v6", encode_string (EndpointV6 c));
           ("endpoint_pub_key", encode_string (EndpointPubKey c));
           ("license", encode_string (License c));
           ("id", encode_string (ID c));
           ("access_token", encode_string (AccessToken c));
           ("ipv4", encode_string (IPv4 c));
           ("ipv6", encode_string (IPv6 c));
           ("socks", encode_ProxyServerConfig (Socks c));
           ("http", encode_ProxyServerConfig (HTTP c));
           ("tunnel", encode_TunnelConfig (Tunnel c)) ].

(** *** The process state *)

(** What [json.Decoder] finds at the start of a file: no complete JSON value
    (an empty file, a syntax error), or a first value. *)
Inductive contents :=
| NoValue
| FirstValue (v : value).

(** The files that can be opened, with their contents, and the paths at
    which [os.Create] succeeds. *)
Record FileSystem := mkFileSystem {
  files : gmap string contents;
  creatable : string -> bool
}.

Definition os_Open (path : string) (fs : FileSystem) : option contents :=
  files fs !! path.

(** [os.Create] leaves an empty file at [path]. *)
Definition os_Create (path : string) (fs : FileSystem) : option FileSystem :=
  if creatable fs path
  then Some (mkFileSystem (<[path := NoValue]> (files fs)) (creatable fs))
  else None.

Definition write (path : string) (c : contents) (fs : FileSystem) : FileSystem :=
  mkFileSystem (<[path := c]> (files fs)) (creatable fs).

(** [var AppConfig Config], [var ConfigLoaded bool], and the disk. *)
Record State := mkState {
  AppConfig : Config;
  ConfigLoaded : bool;
  disk : FileSystem
}.

Inductive DecodeError :=
| SyntaxOrEOF
| TypeMismatch (e : UnmarshalTypeError).

(** The errors the package builds with [fmt.Errorf], by their message. *)
Inductive error :=
| failed_to_open_config_file
| failed_to_decode_config_file (cause : DecodeError)
| failed_to_create_config_file
| failed_to_decode_private_key
| failed_to_parse_private_key
| failed_to_decode_endpoint_public_key
| failed_to_parse_public_key
| failed_to_assert_public_key_as_ECDSA.

(** [decoder.Decode(&AppConfig)]. *)
Definition Decode (file : contents) (c : Config) : Config * option DecodeError :=
  match file with
  | NoValue => (c, Some SyntaxOrEOF)
  | FirstValue v =>
    match unmarshal_Config v c with
    | (c', Some e) => (c', Some (TypeMismatch e))
    | (c', None) => (c', None)
    end
  end.

(** [LoadConfig]: the returned error ([None] is [nil]) and the state left. *)
Definition LoadConfig (configPath : string) (st : State) : option error * State :=
  match os_Open configPath (disk st) with
  | None => (Some failed_to_open_config_file, st)
  | Some file =>
    match Decode file (AppConfig st) with
    | (c, Some e) =>
      (Some (failed_to_decode_config_file e), mkState c (ConfigLoaded st) (disk st))
    | (c, None) =>
      (None, mkState c true (disk st))
    end
  end.

(** [SaveConfig], a method on a [Config] pointer.  The receiver has no
    name in the source.
    [Encode] has no failing case on a [Config] (every field has a JSON form),
    so the source's third [return] is never taken. *)
Definition SaveConfig (receiver : Config) (configPath : string) (st : State)
  : option error * State :=
  match os_Create configPath (disk st) with
  | None => (Some failed_to_create_config_file, st)
  | Some fs =>
    (None, mkState (AppConfig st) (ConfigLoaded st)
                   (write configPath (FirstValue (encode_Config (AppConfig st))) fs))
  end.

(** *** Valid configurations

    A configuration is valid when every number is in the range of its Go
    type and every string is well-formed UTF-8, as every string is that
    [encoding/json] has read. *)

Definition valid_ProxyServerConfig (p : ProxyServerConfig) : bool :=
  utf8.ValidString (BindAddress p) && utf8.ValidString (Port p)
  && utf8.ValidString (Username p) && utf8.ValidString (Password p).

Definition valid_TunnelConfig (t : TunnelConfig) : bool :=
  fits_int64 (ConnectPort t)
  && forallb utf8.ValidString (default [] (DNS t))
  && fits_int64 (DNSTimeout t)
  && utf8.ValidString (SNIAddress t)
  && fits_int64 (KeepalivePeriod t)
  && fits_int64 (MTU t)
  && fits_uint16 (InitialPacketSize t)
  && fits_int64 (ReconnectDelay t)
  && fits_int64 (ConnectionTimeout t)
  && fits_int64 (IdleTimeout t).

Definition valid_Config (c : Config) : bool :=
  utf8.ValidString (PrivateKey c) && utf8.ValidString (EndpointV4 c)
  && utf8.ValidString (EndpointV6 c) && utf8.ValidString (EndpointPubKey c)
  && utf8.ValidString (License c) && utf8.ValidString (ID c)
  && utf8.ValidString (AccessToken c) && utf8.ValidString (IPv4 c)
  && utf8.ValidString (IPv6 c)
  && valid_ProxyServerConfig (Socks c) && valid_ProxyServerConfig (HTTP c)
  && valid_TunnelConfig (Tunnel c).

(** The tunnel's duration fields, by name. *)
Definition duration_of (f : TunnelField) (t : TunnelConfig) : Z :=
  match f with
  | FDNSTimeout => DNSTimeout t
  | FKeepalivePeriod => KeepalivePeriod t
  | FReconnectDelay => ReconnectDelay t
  | FConnectionTimeout => ConnectionTimeout t
  | FIdleTimeout => IdleTimeout t
  | _ => 0
  end.

Definition tag_of (f : TunnelField) : string :=
  match f with
  | FConnectPort => "connect_port" | FDNS => "dns" | FDNSTimeout => "dns_timeout"
  | FUseIPv6 => "use_ipv6" | FNoTunnelIPv4 => "no_tunnel_ipv4"
  | FNoTunnelIPv6 => "no_tunnel_ipv6" | FSNIAddress => "sni_address"
  | FKeepalivePeriod => "keepalive_period" | FMTU => "mtu"
  | FInitialPacketSize => "initial_packet_size" | FReconnectDelay => "reconnect_delay"
  | FConnectionTimeout => "connection_timeout" | FIdleTimeout => "idle_timeout"
  end.

(** A configuration file that sets one tunnel field and nothing else. *)
Definition tunnel_file (f : TunnelField) (v : value) : contents :=
  FirstValue (Object [("tunnel", Object [(tag_of f, v)])]).

(** The file of [TestLoadConfigDurationStrings]. *)
Definition duration_strings_file : contents :=
  FirstValue (Object [("tunnel", Object [("dns_timeout", Str "3s");
                                         ("idle_timeout", Str "1m")])]).

Definition newline : string := String (ascii_of_N 10) EmptyString.

(** The error the decoder reports for that file. *)
Definition dns_timeout_mismatch : UnmarshalTypeError :=
  {| Value := "string"; Type_ := "time.Duration"; Field := "tunnel.dns_timeout" |}.

(** The configuration of [TestSaveAndLoadConfig]. *)
Definition test_Config : Config :=
  mkConfig "cHJpdmF0ZWtleQ==" "127.0.0.1" "::1"
           ("-----BEGIN PUBLIC KEY-----" ++ newline ++ "MFkwE..." ++ newline
            ++ "-----END PUBLIC KEY-----" ++ newline)
           "license" "device-id" "token" "172.16.0.2" "2606::1"
           (mkProxyServerConfig "0.0.0.0" "1080" "user" "pass")
           (mkProxyServerConfig "0.0.0.0" "8000" "huser" "hpass")
           (mkTunnelConfig 443 (Some ["1.1.1.1"]) 2000000000 true false true
                           "example.com" 30000000000 1280 1242 1000000000
                           20000000000 300000000000).

(** A disk with one file, on which every path can be created. *)
Definition one_file (path : string) (c : contents) : FileSystem :=
  mkFileSystem {[ path := c ]} (fun _ => true).

(** *** Key material *)

Inductive result (A : Type) :=
| Ok (a : A)
| Err (e : error).
Arguments Ok {A} a.
Arguments Err {A} e.

(** What [x509.ParsePKIXPublicKey] returns on success: a key of some
    algorithm, of which the source accepts ECDSA only. *)
Inductive PKIXPublicKey (ecdsa_PublicKey : Type) :=
| ECDSA (k : ecdsa_PublicKey)
| OtherAlgorithm.
Arguments ECDSA {ecdsa_PublicKey} k.
Arguments OtherAlgorithm {ecdsa_PublicKey}.

Section keys.

Variables ecdsa_PrivateKey ecdsa_PublicKey : Type.

(** [base64.StdEncoding.DecodeString]; [None] is an error. *)
Variable base64_DecodeString : string -> option string.
(** [x509.ParseECPrivateKey]. *)
Variable x509_ParseECPrivateKey : string -> option ecdsa_PrivateKey.
(** [pem.Decode]: the bytes of the first PEM block, [None] for a nil block. *)
Variable pem_Decode : string -> option string.
(** [x509.ParsePKIXPublicKey]. *)
Variable x509_ParsePKIXPublicKey : string -> option (PKIXPublicKey ecdsa_PublicKey).

Definition GetEcPrivateKey (receiver : Config) (st : State) : result ecdsa_PrivateKey :=
  match base64_DecodeString (PrivateKey (AppConfig st)) with
  | None => Err failed_to_decode_private_key
  | Some privKeyB64 =>
    match x509_ParseECPrivateKey privKeyB64 with
    | None => Err failed_to_parse_private_key
    | Some privKey => Ok privKey
    end
  end.

Definition GetEcEndpointPublicKey (receiver : Config) (st : State) : result ecdsa_PublicKey :=
  match pem_Decode (EndpointPubKey (AppConfig st)) with
  | None => Err failed_to_decode_endpoint_public_key
  | Some endpointPubKeyB64 =>
    match x509_ParsePKIXPublicKey endpointPubKeyB64 with
    | None => Err failed_to_parse_public_key
    | Some (ECDSA ecPubKey) => Ok ecPubKey
    | Some OtherAlgorithm => Err failed_to_assert_public_key_as_ECDSA
    end
  end.

End keys.

(** *** Reading a configuration field by field *)

(** The numbers of a tunnel section are in the ranges of their Go types. *)
Definition in_range_TunnelConfig (t : TunnelConfig) : bool :=
  fits_int64 (ConnectPort t) && fits_int64 (DNSTimeout t)
  && fits_int64 (KeepalivePeriod t) && fits_int64 (MTU t)
  && fits_uint16 (InitialPacketSize t) && fits_int64 (ReconnectDelay t)
  && fits_int64 (ConnectionTimeout t) && fits_int64 (IdleTimeout t).

Definition in_range_Config (c : Config) : bool := in_range_TunnelConfig (Tunnel c).

(** What a configuration becomes when [encoding/json] writes it and reads it
    back: the strings with their ill-formed bytes replaced. *)
Definition reread_ProxyServerConfig (p : ProxyServerConfig) : ProxyServerConfig :=
  mkProxyServerConfig (utf8.coerce (BindAddress p)) (utf8.coerce (Port p))
                      (utf8.coerce (Username p)) (utf8.coerce (Password p)).

Definition reread_TunnelConfig (t : TunnelConfig) : TunnelConfig :=
  mkTunnelConfig (ConnectPort t) (option_map (map utf8.coerce) (DNS t)) (DNSTimeout t)
                 (UseIPv6 t) (NoTunnelIPv4 t) (NoTunnelIPv6 t)
                 (utf8.coerce (SNIAddress t)) (KeepalivePeriod t) (MTU t)
                 (InitialPacketSize t) (ReconnectDelay t) (ConnectionTimeout t)
                 (IdleTimeout t).

Definition reread_Config (c : Config) : Config :=
  mkConfig (utf8.coerce (PrivateKey c)) (utf8.coerce (EndpointV4 c))
           (utf8.coerce (EndpointV6 c)) (utf8.coerce (EndpointPubKey c))
           (utf8.coerce (License c)) (utf8.coerce (ID c))
           (utf8.coerce (AccessToken c)) (utf8.coerce (IPv4 c))
           (utf8.coerce (IPv6 c))
           (reread_ProxyServerConfig (Socks c)) (reread_ProxyServerConfig (HTTP c))
           (reread_TunnelConfig (Tunnel c)).

(** The content of a top-level field. *)
Inductive FieldValue :=
| StringField (s : string)
| ProxyServerConfigField (p : ProxyServerConfig)
| TunnelConfigField (t : TunnelConfig).

Definition ConfigField_value (f : ConfigField) (c : Config) : FieldValue :=
  match f with
  | FPrivateKey => StringField (PrivateKey c)
  | FEndpointV4 => StringField (EndpointV4 c)
  | FEndpointV6 => StringField (EndpointV6 c)
  | FEndpointPubKey => StringField (EndpointPubKey c)
  | FLicense => StringField (License c)
  | FID => StringField (ID c)
  | FAccessToken => StringField (AccessToken c)
  | FIPv4 => StringField (IPv4 c)
  | FIPv6 => StringField (IPv6 c)
  | FSocks => ProxyServerConfigField (Socks c)
  | FHTTP => ProxyServerConfigField (HTTP c)
  | FTunnel => TunnelConfigField (Tunnel c)
  end.

(** The top-level fields of type [string]. *)
Definition string_fields : list ConfigField :=
  [FPrivateKey; FEndpointV4; FEndpointV6; FEndpointPubKey; FLicense; FID;
   FAccessToken; FIPv4; FIPv6].

(** No member of a JSON object is for the field [f]. *)
Definition not_named (f : ConfigField) (members : list (string * value)) : Prop :=
  forall key v, In (key, v) members -> lookup_field ConfigFields key <> Some f.

(** A configuration with a byte that starts no rune in its license. *)
Definition ill_formed_Config : Config :=
  mkConfig "cHJpdmF0ZWtleQ==" "127.0.0.1" "::1" "" (String (ascii_of_N 255) "x") "" ""
           "172.16.0.2" "2606::1" zeroProxy zeroProxy zeroTunnel.

End config.

(* ===================================================================== *)
(** ** Command-line flags, as [spf13/pflag] keeps them *)
(* ===================================================================== *)

Module pflag.

(** A flag's value, by the type it was registered with. *)
Inductive Value :=
| StringValue (s : string)
| IntValue (z : Z)
| BoolValue (b : bool)
| DurationValue (ns : Z)
| Uint16Value (z : Z)
| StringArrayValue (l : list string).

Record Flag := mkFlag {
  value : Value;
  changed : bool
}.

(** A flag set maps the names of the registered flags to their state. *)
Abbreviation FlagSet := (gmap string Flag).

(** The typed getters: an error ([None]) when no flag has that name or the
    flag was registered with another type. *)
Definition GetString (f : FlagSet) (name : string) : option string :=
  match f !! name with
  | Some (mkFlag (StringValue s) _) => Some s
  | _ => None
  end.

Definition GetInt (f : FlagSet) (name : string) : option Z :=
  match f !! name with
  | Some (mkFlag (IntValue z) _) => Some z
  | _ => None
  end.

Definition GetBool (f : FlagSet) (name : string) : option bool :=
  match f !! name with
  | Some (mkFlag (BoolValue b) _) => Some b
  | _ => None
  end.

Definition GetDuration (f : FlagSet) (name : string) : option Z :=
  match f !! name with
  | Some (mkFlag (DurationValue d) _) => Some d
  | _ => None
  end.

Definition GetUint16 (f : FlagSet) (name : string) : option Z :=
  match f !! name with
  | Some (mkFlag (Uint16Value z) _) => Some z
  | _ => None
  end.

Definition GetStringArray (f : FlagSet) (name : string) : option (list string) :=
  match f !! name with
  | Some (mkFlag (StringArrayValue l) _) => Some l
  | _ => None
  end.

(** [FlagSet.Changed]: false for a name that is not registered. *)
Definition Changed (f : FlagSet) (name : string) : bool :=
  match f !! name with
  | Some fl => changed fl
  | None => false
  end.

(** [FlagSet.Set] with its error dropped, as the callers here drop it.  On a
    string flag the text becomes the value and the flag counts as changed.
    The commands call [Set] on string flags only; on a flag of another type
    (where pflag would parse the text) and on an unknown name the set is
    left as it is, which no typed getter for strings can tell apart. *)
Definition Set_ (f : FlagSet) (name text : string) : FlagSet :=
  match f !! name with
  | Some (mkFlag (StringValue _) _) => <[name := mkFlag (StringValue text) true]> f
  | _ => f
  end.

(** Registering a flag with its default. *)
Definition define (name : string) (v : Value) (f : FlagSet) : FlagSet :=
  <[name := mkFlag v false]> f.

(** The type a flag was registered with. *)
Inductive Kind := KString | KInt | KBool | KDuration | KUint16 | KStringArray.

Definition kind_of (v : Value) : Kind :=
  match v with
  | StringValue _ => KString
  | IntValue _ => KInt
  | BoolValue _ => KBool
  | DurationValue _ => KDuration
  | Uint16Value _ => KUint16
  | StringArrayValue _ => KStringArray
  end.

Definition flag_kind (f : FlagSet) (name : string) : option Kind :=
  match f !! name with
  | Some fl => Some (kind_of (value fl))
  | None => None
  end.

(** [g] has the flags registered in [f], each with the type it has there;
    values and changed marks are free.  This is what parsing a command line
    makes of the flags a command registers. *)
Definition same_flags (f g : FlagSet) : Prop :=
  forall name, flag_kind g name = flag_kind f name.

End pflag.

(* ===================================================================== *)
(** ** Package [cmd] *)
(* ===================================================================== *)

Module cmd.

Import config pflag.
Local Open Scope list_scope.

(** The packages the commands call into.  Each function returns [None]
    where the Go function returns a non-nil error (for [net.ParseIP], a nil
    address). *)
Record Library := mkLibrary {
  ecdsa_PrivateKey : Type;
  ecdsa_PublicKey : Type;
  Certificate : Type;
  TlsConfig : Type;
  IP : Type;
  Addr : Type;
  TunDevice : Type;
  TunNet : Type;
  base64_DecodeString : string -> option string;
  x509_ParseECPrivateKey : string -> option ecdsa_PrivateKey;
  pem_Decode : string -> option string;
  x509_ParsePKIXPublicKey : string -> option (PKIXPublicKey ecdsa_PublicKey);
  (** [&privKey.PublicKey] *)
  PublicKey : ecdsa_PrivateKey -> ecdsa_PublicKey;
  (** [internal.GenerateCert] *)
  GenerateCert : ecdsa_PrivateKey -> ecdsa_PublicKey -> option Certificate;
  (** [api.PrepareTlsConfig] *)
  PrepareTlsConfig :
    ecdsa_PrivateKey -> ecdsa_PublicKey -> Certificate -> string -> option TlsConfig;
  net_ParseIP : string -> option IP;
  netip_ParseAddr : string -> option Addr;
  (** [netstack.CreateNetTUN] *)
  CreateNetTUN : list Addr -> list Addr -> Z -> option (TunDevice * TunNet);
  (** [server.ListenAndServe network addr]: [true] when it returns (always
      with an error), [false] when it goes on serving. *)
  ListenAndServe_returns : string -> string -> bool;
  (** [internal.ConnectSNI] *)
  ConnectSNI : string
}.

(** [net.JoinHostPort]. *)
Fixpoint has_colon (s : string) : bool :=
  match s with
  | EmptyString => false
  | String c t => Ascii.eqb c ":" || has_colon t
  end.

Definition JoinHostPort (host port : string) : string :=
  (if has_colon host then "[" ++ host ++ "]:" ++ port else host ++ ":" ++ port)%string.

Section commands.

Variable L : Library.

(** [net.UDPAddr]. *)
Record UDPAddr := mkUDPAddr {
  UDPAddr_IP : option (IP L);
  UDPAddr_Port : Z
}.

(** [internal.TunnelDNSResolver]; [TunNet = None] is the nil pointer. *)
Record TunnelDNSResolver := mkTunnelDNSResolver {
  resolver_TunNet : option (TunNet L);
  resolver_DNSAddrs : list (Addr L);
  resolver_Timeout : Z
}.

(** The [socks5.Option]s the command passes to [socks5.NewServer]. *)
Inductive ServerOption :=
| WithLogger
| WithDial (tunNet : TunNet L)
| WithResolver (resolver : TunnelDNSResolver)
| WithBufferPool (size : Z)
| WithBufferPoolTCP (size : Z)
| WithBufferPoolUDP (size : Z)
| WithTimeout (timeout : Z)
| WithAuthMethods (username password : string).

(** What a run of the command does that can be seen from outside it, in
    order.  A message is recorded by the fixed text of its format. *)
Inductive Event :=
| CmdPrint (msg : string)
| LogPrint (msg : string)
| CallGenerateCert
| CallPrepareTlsConfig (sni : string)
| CallCreateNetTUN (localAddresses dnsAddrs : list (Addr L)) (mtu : Z)
| GoMaintainTunnel (tlsConfig : TlsConfig L) (keepalivePeriod initialPacketSize : Z)
                   (endpoint : UDPAddr) (tunDev : TunDevice L) (mtu reconnectDelay : Z)
| CallNewServer (opts : list ServerOption)
| CallListenAndServe (network addr : string)
| CallClose (tunDev : TunDevice L).

Definition config_not_loaded : string := "Config not loaded. Please register first.".
Definition mtu_warning : string :=
  "Warning: MTU is not the default 1280. This is not supported. Packet loss and other issues may occur.".

(** The [for] loop over [dnsServers]: the addresses in order, or [None] at
    the first one that does not parse. *)
Fixpoint parse_dns (dnsServers : list string) : option (list (Addr L)) :=
  match dnsServers with
  | [] => Some []
  | dns :: rest =>
    match netip_ParseAddr L dns with
    | None => None
    | Some addr =>
      match parse_dns rest with
      | None => None
      | Some addrs => Some (addr :: addrs)
      end
    end
  end.

(** [if config.ConfigLoaded && !cmd.Flags().Changed(name) && configured != ""
    { cmd.Flags().Set(name, configured) }], the statement by which the
    configured user name and password reach the flags. *)
Definition flag_from_config (st : State) (flags : FlagSet) (name configured : string)
  : FlagSet :=
  if ConfigLoaded st && negb (Changed flags name) && negb (String.eqb configured "")
  then Set_ flags name configured else flags.

(** [x, err := e; if err != nil { cmd.Printf(msg, err); return }]. *)
Notation "'get' x <- e 'or' msg ;; k" :=
  (match e with
   | Some x => k
   | None => [CmdPrint msg]
   end)
  (at level 10, x name, e at level 99, msg at level 0, k at level 200,
   only parsing).

Notation "'key' x <- e 'or' msg ;; k" :=
  (match e with
   | Ok x => k
   | Err _ => [CmdPrint msg]
   end)
  (at level 10, x name, e at level 99, msg at level 0, k at level 200,
   only parsing).

Notation "'do' ev ;; k" := (ev :: k)
  (at level 10, ev at level 99, k at level 200, only parsing).

(** The [opts] slice of [socksCmd.Run], from its first three elements to
    the last [append]. *)
Definition server_options (tunNet : TunNet L) (resolver : TunnelDNSResolver)
           (tcpBuf udpBuf timeout : Z) (username password : string)
  : list ServerOption :=
  let opts := [WithLogger; WithDial tunNet; WithResolver resolver] in
  let opts :=
    if (0 <? tcpBuf) && (0 <? udpBuf) && (tcpBuf =? udpBuf)
    then opts ++ [WithBufferPool tcpBuf]
    else
      let opts := if 0 <? tcpBuf then opts ++ [WithBufferPoolTCP tcpBuf] else opts in
      if 0 <? udpBuf then opts ++ [WithBufferPoolUDP udpBuf] else opts in
  let opts := if 0 <? timeout then opts ++ [WithTimeout timeout] else opts in
  if negb (String.eqb username "") && negb (String.eqb password "")
  then opts ++ [WithAuthMethods username password] else opts.

(** [socksCmd.Run].  [socksTCPBuf], [socksUDPBuf] and [socksTimeout] are
    [config.AppConfig.Socks.TCPBuf], [.UDPBuf] and [.Timeout.Duration],
    fields this command reads and [ProxyServerConfig] as declared in
    [config.go] does not have. *)
Definition socksCmd_Run (flags : FlagSet) (st : State)
           (socksTCPBuf socksUDPBuf socksTimeout : Z) : list Event :=
  let cfg := AppConfig st in
  if negb (ConfigLoaded st) then [CmdPrint config_not_loaded] else
  get sni <- GetString flags "sni-address" or "Failed to get SNI address" ;;
  key privKey <- GetEcPrivateKey _ (base64_DecodeString L) (x509_ParseECPrivateKey L) cfg st
      or "Failed to get private key" ;;
  key peerPubKey <- GetEcEndpointPublicKey _ (pem_Decode L) (x509_ParsePKIXPublicKey L) cfg st
      or "Failed to get public key" ;;
  do CallGenerateCert ;;
  get cert <- GenerateCert L privKey (PublicKey L privKey) or "Failed to generate cert" ;;
  do CallPrepareTlsConfig sni ;;
  get tlsConfig <- PrepareTlsConfig L privKey peerPubKey cert sni
      or "Failed to prepare TLS config" ;;
  get keepalivePeriod <- GetDuration flags "keepalive-period"
      or "Failed to get keepalive period" ;;
  get initialPacketSize <- GetUint16 flags "initial-packet-size"
      or "Failed to get initial packet size" ;;
  get bindAddress0 <- GetString flags "bind" or "Failed to get bind address" ;;
  let bindAddress :=
    if ConfigLoaded st && negb (Changed flags "bind")
       && negb (String.eqb (BindAddress (Socks cfg)) "")
    then BindAddress (Socks cfg) else bindAddress0 in
  get port0 <- GetString flags "port" or "Failed to get port" ;;
  let port :=
    if ConfigLoaded st && negb (Changed flags "port")
       && negb (String.eqb (Port (Socks cfg)) "")
    then Port (Socks cfg) else port0 in
  let flags := flag_from_config st flags "username" (Username (Socks cfg)) in
  let flags := flag_from_config st flags "password" (Password (Socks cfg)) in
  get connectPort <- GetInt flags "connect-port" or "Failed to get connect port" ;;
  let endpoint :=
    match GetBool flags "ipv6" with
    | Some false => mkUDPAddr (net_ParseIP L (EndpointV4 cfg)) connectPort
    | _ => mkUDPAddr (net_ParseIP L (EndpointV6 cfg)) connectPort
    end in
  get tunnelIPv4 <- GetBool flags "no-tunnel-ipv4" or "Failed to get no tunnel IPv4" ;;
  get tunnelIPv6 <- GetBool flags "no-tunnel-ipv6" or "Failed to get no tunnel IPv6" ;;
  let localAddresses : list (Addr L) := [] in
  get localAddresses <-
      (if negb tunnelIPv4
       then match netip_ParseAddr L (IPv4 cfg) with
            | Some v4 => Some (localAddresses ++ [v4])
            | None => None
            end
       else Some localAddresses)
      or "Failed to parse IPv4 address" ;;
  get localAddresses <-
      (if negb tunnelIPv6
       then match netip_ParseAddr L (IPv6 cfg) with
            | Some v6 => Some (localAddresses ++ [v6])
            | None => None
            end
       else Some localAddresses)
      or "Failed to parse IPv6 address" ;;
  get dnsServers <- GetStringArray flags "dns" or "Failed to get DNS servers" ;;
  get dnsAddrs <- parse_dns dnsServers or "Failed to parse DNS server" ;;
  get dnsTimeout <- GetDuration flags "dns-timeout" or "Failed to get DNS timeout" ;;
  get localDNS <- GetBool flags "local-dns" or "Failed to get local-dns flag" ;;
  get mtu <- GetInt flags "mtu" or "Failed to get MTU" ;;
  (if negb (mtu =? 1280) then cons (LogPrint mtu_warning) else id)
  (let username :=
     match GetString flags "username" with
     | Some u => if negb (String.eqb u "") then u else ""
     | None => ""
     end in
   let password :=
     match GetString flags "password" with
     | Some p => if negb (String.eqb p "") then p else ""
     | None => ""
     end in
   get reconnectDelay <- GetDuration flags "reconnect-delay"
       or "Failed to get reconnect delay" ;;
   get tcpBuf0 <- GetInt flags "tcp-buf" or "Failed to get tcp-buf" ;;
   get udpBuf0 <- GetInt flags "udp-buf" or "Failed to get udp-buf" ;;
   get timeout0 <- GetDuration flags "timeout" or "Failed to get timeout" ;;
   let tcpBuf :=
     if ConfigLoaded st && negb (Changed flags "tcp-buf") && negb (socksTCPBuf =? 0)
     then socksTCPBuf else tcpBuf0 in
   let udpBuf :=
     if ConfigLoaded st && negb (Changed flags "udp-buf") && negb (socksUDPBuf =? 0)
     then socksUDPBuf else udpBuf0 in
   let timeout :=
     if ConfigLoaded st && negb (Changed flags "timeout") && negb (socksTimeout =? 0)
     then socksTimeout else timeout0 in
   do CallCreateNetTUN localAddresses dnsAddrs mtu ;;
   get tun <- CreateNetTUN L localAddresses dnsAddrs mtu
       or "Failed to create virtual TUN device" ;;
   let '(tunDev, tunNet) := tun in
   do GoMaintainTunnel tlsConfig keepalivePeriod initialPacketSize endpoint tunDev
                       mtu reconnectDelay ;;
   let resolver :=
     if localDNS
     then mkTunnelDNSResolver None dnsAddrs dnsTimeout
     else mkTunnelDNSResolver (Some tunNet) dnsAddrs dnsTimeout in
   let opts := server_options tunNet resolver tcpBuf udpBuf timeout username password in
   do CallNewServer opts ;;
   do LogPrint ("SOCKS proxy listening on " ++ bindAddress ++ ":" ++ port)%string ;;
   do CallListenAndServe "tcp" (JoinHostPort bindAddress port) ;;
   if ListenAndServe_returns L "tcp" (JoinHostPort bindAddress port)
   then [CmdPrint "Failed to start SOCKS proxy"; CallClose tunDev]
   else []).

(** [init] of [socks.go]: the flags of [socksCmd] with their defaults,
    durations in nanoseconds. *)
Definition socksCmd_flags : FlagSet :=
  define "timeout" (DurationValue 0)
  (define "udp-buf" (IntValue 0)
  (define "tcp-buf" (IntValue 0)
  (define "local-dns" (BoolValue false)
  (define "reconnect-delay" (DurationValue 1000000000)
  (define "initial-packet-size" (Uint16Value 1242)
  (define "mtu" (IntValue 1280)
  (define "keepalive-period" (DurationValue 30000000000)
  (define "sni-address" (StringValue (ConnectSNI L))
  (define "no-tunnel-ipv6" (BoolValue false)
  (define "no-tunnel-ipv4" (BoolValue false)
  (define "ipv6" (BoolValue false)
  (define "dns-timeout" (DurationValue 2000000000)
  (define "dns" (StringArrayValue ["9.9.9.9"; "149.112.112.112"; "2620:fe::fe"; "2620:fe::9"])
  (define "connect-port" (IntValue 443)
  (define "password" (StringValue "")
  (define "username" (StringValue "")
  (define "port" (StringValue "1080")
  (define "bind" (StringValue "0.0.0.0") ∅)))))))))))))))))).

(** [init] of [root.go]. *)
Definition rootCmd_flags : FlagSet :=
  define "config" (StringValue "config.json") ∅.

(** What [rootCmd.PersistentPreRun] logs. *)
Inductive PreRunLog :=
| Fatalf_failed_to_get_config_path
| Printf_config_file_not_found (err : config.error)
| Printf_you_may_only_use_the_register_command.

(** [rootCmd.PersistentPreRun]: the log, and the state the command then
    runs in; [None] where [log.Fatalf] ends the process. *)
Definition rootCmd_PersistentPreRun (flags : FlagSet) (st : State)
  : list PreRunLog * option State :=
  match GetString flags "config" with
  | None => ([Fatalf_failed_to_get_config_path], None)
  | Some configPath =>
    if negb (String.eqb configPath "")
    then
      match LoadConfig configPath st with
      | (Some err, st') =>
        ([Printf_config_file_not_found err; Printf_you_may_only_use_the_register_command],
         Some st')
      | (None, st') => ([], Some st')
      end
    else ([], Some st)
  end.

(** What [rootCmd.Run] does: a message, or goroutines started and then
    waited for.  The goroutine for the SOCKS proxy is recorded with the
    events of its [socksCmd.Run]; [httpProxyCmd] is outside these files. *)
Inductive RootEvent :=
| RootPrint (msg : string)
| Go_socksCmd_Run (events : list Event)
| Go_httpProxyCmd_Run
| Wait.

(** [rootCmd.Run].  [socksEnabled] and [httpEnabled] are
    [config.AppConfig.Socks.Enabled] and [config.AppConfig.HTTP.Enabled],
    read here and not declared in [config.go]; the SOCKS command runs on its
    own flags, which nothing has parsed. *)
Definition rootCmd_Run (st : State) (socksEnabled httpEnabled : bool)
           (socksTCPBuf socksUDPBuf socksTimeout : Z) : list RootEvent :=
  if negb (ConfigLoaded st) then [RootPrint config_not_loaded] else
  let started := false in
  let '(socks, started) :=
    if socksEnabled
    then ([Go_socksCmd_Run (socksCmd_Run socksCmd_flags st socksTCPBuf socksUDPBuf socksTimeout)],
          true)
    else ([], started) in
  let '(http, started) :=
    if httpEnabled then ([Go_httpProxyCmd_Run], true) else ([], started) in
  if negb started
  then socks ++ http ++ [RootPrint "No services enabled in config"]
  else socks ++ http ++ [Wait].

(** *** Reading a run *)

Definition is_CreateNetTUN (e : Event) : bool :=
  match e with CallCreateNetTUN _ _ _ => true | _ => false end.

Definition is_MaintainTunnel (e : Event) : bool :=
  match e with GoMaintainTunnel _ _ _ _ _ _ _ => true | _ => false end.

Definition is_ListenAndServe (e : Event) : bool :=
  match e with CallListenAndServe _ _ => true | _ => false end.

Definition is_NewServer (e : Event) : bool :=
  match e with CallNewServer _ => true | _ => false end.

Definition is_GenerateCert (e : Event) : bool :=
  match e with CallGenerateCert => true | _ => false end.

Definition is_PrepareTlsConfig (e : Event) : bool :=
  match e with CallPrepareTlsConfig _ => true | _ => false end.

Definition is_mtu_warning (e : Event) : bool :=
  match e with LogPrint msg => String.eqb msg mtu_warning | _ => false end.

Definition is_auth (o : ServerOption) : bool :=
  match o with WithAuthMethods _ _ => true | _ => false end.

(** The user name and password the command ends up with: the flag's value
    when the flag can be read, the empty string otherwise, after the
    configuration has been written into the unchanged flags. *)
Definition effective (flags : FlagSet) (st : State) (name : string)
           (configured : string) : string :=
  match GetString (flag_from_config st flags name configured) name with
  | Some u => u
  | None => ""
  end.

(** *** The virtual stack and the SOCKS5 server, which are other packages *)

(** Modelled from the spec: [netstack.CreateNetTUN] is not in these files.
    Section 4.2 says of the construction of the stack that it "fails if the
    address list is empty or MTU is nonsensical (< 576 or > 65535)". *)
Definition NewStack_fails (localAddrs : list (Addr L)) (mtu : Z) : bool :=
  match localAddrs with
  | [] => true
  | _ :: _ => (mtu <? 576) || (65535 <? mtu)
  end.

(** The library's [CreateNetTUN] fails where the spec says construction
    fails. *)
Definition honours_NewStack : Prop :=
  forall localAddrs dnsAddrs mtu,
    NewStack_fails localAddrs mtu = true ->
    CreateNetTUN L localAddrs dnsAddrs mtu = None.

(** *** Key material and inner addresses *)

(** The stored private key is base64 of DER that [x509.ParseECPrivateKey]
    accepts. *)
Definition valid_private_key (s : string) : bool :=
  match base64_DecodeString L s with
  | Some der =>
    match x509_ParseECPrivateKey L der with
    | Some _ => true
    | None => false
    end
  | None => false
  end.

(** The stored endpoint key is a PEM block holding a PKIX key that is an
    ECDSA key. *)
Definition valid_endpoint_public_key (s : string) : bool :=
  match pem_Decode L s with
  | Some der =>
    match x509_ParsePKIXPublicKey L der with
    | Some (ECDSA _) => true
    | _ => false
    end
  | None => false
  end.

(** The state with other inner addresses in [AppConfig]. *)
Definition with_inner_addresses (st : State) (ipv4 ipv6 : string) : State :=
  let c := AppConfig st in
  mkState (mkConfig (PrivateKey c) (EndpointV4 c) (EndpointV6 c) (EndpointPubKey c)
                    (License c) (ID c) (AccessToken c) ipv4 ipv6
                    (Socks c) (HTTP c) (Tunnel c))
          (ConfigLoaded st) (disk st).

(** The state with another tunnel section in [AppConfig]. *)
Definition with_Tunnel (st : State) (t : TunnelConfig) : State :=
  let c := AppConfig st in
  mkState (mkConfig (PrivateKey c) (EndpointV4 c) (EndpointV6 c) (EndpointPubKey c)
                    (License c) (ID c) (AccessToken c) (IPv4 c) (IPv6 c)
                    (Socks c) (HTTP c) t)
          (ConfigLoaded st) (disk st).

(** Events that generate the certificate, build the TLS configuration,
    construct the stack, start the tunnel or start the proxy. *)
Definition starts_something (e : Event) : bool :=
  is_GenerateCert e || is_PrepareTlsConfig e || is_CreateNetTUN e
  || is_MaintainTunnel e || is_NewServer e || is_ListenAndServe e.

Definition starts_tunnel_or_proxy (e : Event) : bool :=
  is_MaintainTunnel e || is_NewServer e || is_ListenAndServe e.

(** The messages with which the command returns before it has read the
    MTU, in the order of the source. *)
Definition messages_before_mtu_check : list string :=
  [ config_not_loaded; "Failed to get SNI address"; "Failed to get private key";
    "Failed to get public key"; "Failed to generate cert";
    "Failed to prepare TLS config"; "Failed to get keepalive period";
    "Failed to get initial packet size"; "Failed to get bind address";
    "Failed to get port"; "Failed to get connect port";
    "Failed to get no tunnel IPv4"; "Failed to get no tunnel IPv6";
    "Failed to parse IPv4 address"; "Failed to parse IPv6 address";
    "Failed to get DNS servers"; "Failed to parse DNS server";
    "Failed to get DNS timeout"; "Failed to get local-dns flag";
    "Failed to get MTU" ].

(** The run has ended with one of them. *)
Definition stops_before_mtu_check (run : list Event) : bool :=
  existsb (fun e => match e with
                    | CmdPrint msg => existsb (String.eqb msg) messages_before_mtu_check
                    | _ => false
                    end) run.

(** A SOCKS5 client's connection: whether it offers the username/password
    method, the credentials it presents, and the address it asks for. *)
Record Client := mkClient {
  offers_userpass : bool;
  client_username : string;
  client_password : string;
  target : string
}.

Inductive ServeEvent :=
| Rejected
| Dial (network addr : string).

(** The credentials a server built from [opts] checks, if any. *)
Fixpoint credentials (opts : list ServerOption) : option (string * string) :=
  match opts with
  | [] => None
  | WithAuthMethods u p :: rest =>
    match credentials rest with
    | Some c => Some c
    | None => Some (u, p)
    end
  | _ :: rest => credentials rest
  end.

(** Modelled from the spec: the SOCKS5 server is not in these files.
    Section 6 describes "a SOCKS5 TCP listener (with optional
    username/password auth)" and "a dial hook that routes all CONNECT
    targets through the tunnel"; section 8, scenario 6, says that with
    [username=u], [password=p] "a client presenting bad credentials is
    rejected at the SOCKS5 layer before any tunnel dial is attempted".  So a
    connection is authenticated first, and the dial hook is called for it
    only afterwards. *)
Definition ServeConn (opts : list ServerOption) (c : Client) : list ServeEvent :=
  match credentials opts with
  | None => [Dial "tcp" (target c)]
  | Some (u, p) =>
    if offers_userpass c && String.eqb (client_username c) u
       && String.eqb (client_password c) p
    then [Dial "tcp" (target c)]
    else [Rejected]
  end.

Definition is_Dial (e : ServeEvent) : bool :=
  match e with Dial _ _ => true | Rejected => false end.

(** *** What the command ends up using *)

(** The order of preference for a setting that has a flag and a field of the
    configuration: the flag when the command line gave it, else the
    configured value when there is one, else the flag's default. *)
Definition preferred (flags : FlagSet) (name : string) (configured flagValue : string)
  : string :=
  if Changed flags name then flagValue
  else if String.eqb configured "" then flagValue
       else configured.

Definition preferred_size (flags : FlagSet) (name : string) (configured flagValue : Z)
  : Z :=
  if Changed flags name then flagValue
  else if configured =? 0 then flagValue
       else configured.

(** The addresses one inner address family adds to the stack: none when the
    family is switched off, the parsed address otherwise; [None] when the
    address does not parse. *)
Definition inner_address (off : bool) (address : string) : option (list (Addr L)) :=
  if off then Some []
  else match netip_ParseAddr L address with
       | Some a => Some [a]
       | None => None
       end.

(** The endpoint the command dials, as [socksCmd.Run] builds it. *)
Definition endpoint_of (flags : FlagSet) (st : State) (connectPort : Z) : UDPAddr :=
  match GetBool flags "ipv6" with
  | Some false => mkUDPAddr (net_ParseIP L (EndpointV4 (AppConfig st))) connectPort
  | _ => mkUDPAddr (net_ParseIP L (EndpointV6 (AppConfig st))) connectPort
  end.

(** The messages with which the command returns when it cannot read a
    flag. *)
Definition flag_messages : list string :=
  [ "Failed to get SNI address"; "Failed to get keepalive period";
    "Failed to get initial packet size"; "Failed to get bind address";
    "Failed to get port"; "Failed to get connect port";
    "Failed to get no tunnel IPv4"; "Failed to get no tunnel IPv6";
    "Failed to get DNS servers"; "Failed to get DNS timeout";
    "Failed to get local-dns flag"; "Failed to get MTU";
    "Failed to get reconnect delay"; "Failed to get tcp-buf";
    "Failed to get udp-buf"; "Failed to get timeout" ].

Definition is_flag_message (e : Event) : bool :=
  match e with
  | CmdPrint msg => existsb (String.eqb msg) flag_messages
  | _ => false
  end.


Definition is_Go_socksCmd_Run (e : RootEvent) : bool :=
  match e with Go_socksCmd_Run _ => true | _ => false end.

End commands.

Arguments CmdPrint {L} msg.
Arguments LogPrint {L} msg.
Arguments CallGenerateCert {L}.
Arguments CallPrepareTlsConfig {L} sni.
Arguments CallCreateNetTUN {L} localAddresses dnsAddrs mtu.
Arguments GoMaintainTunnel {L} tlsConfig keepalivePeriod initialPacketSize endpoint
          tunDev mtu reconnectDelay.
Arguments CallNewServer {L} opts.
Arguments CallListenAndServe {L} network addr.
Arguments CallClose {L} tunDev.
Arguments WithLogger {L}.
Arguments WithDial {L} tunNet.
Arguments WithResolver {L} resolver.
Arguments WithBufferPool {L} size.
Arguments WithBufferPoolTCP {L} size.
Arguments WithBufferPoolUDP {L} size.
Arguments WithTimeout {L} timeout.
Arguments WithAuthMethods {L} username password.
Arguments RootPrint {L} msg.
Arguments Go_socksCmd_Run {L} events.
Arguments Go_httpProxyCmd_Run {L}.
Arguments Wait {L}.

(** *** A library and a state to run the commands on

    Keys and addresses are strings, and the empty string is the one that
    does not parse; the server goes on serving.  With [strict], the stack is
    constructed as the spec describes it; without, for every address list
    and MTU. *)
Definition nonempty (s : string) : option string :=
  if String.eqb s "" then None else Some s.

Definition demo_Library (strict : bool) : Library :=
  {| ecdsa_PrivateKey := string;
     ecdsa_PublicKey := string;
     Certificate := unit;
     TlsConfig := string;
     IP := string;
     Addr := string;
     TunDevice := unit;
     TunNet := unit;
     base64_DecodeString := nonempty;
     x509_ParseECPrivateKey := nonempty;
     pem_Decode := nonempty;
     x509_ParsePKIXPublicKey := fun der => Some (ECDSA der);
     PublicKey := fun k => k;
     GenerateCert := fun _ _ => Some tt;
     PrepareTlsConfig := fun _ _ _ sni => Some sni;
     net_ParseIP := nonempty;
     netip_ParseAddr := nonempty;
     CreateNetTUN := fun localAddrs _ mtu =>
       if strict && match localAddrs with
                    | [] => true
                    | _ :: _ => (mtu <? 576) || (65535 <? mtu)
                    end
       then None else Some (tt, tt);
     ListenAndServe_returns := fun _ _ => false;
     ConnectSNI := "sni.example" |}.

(** A loaded configuration with user name and password for the proxy. *)
Definition demo_State : State :=
  mkState test_Config true (one_file "config.json" NoValue).

(** The flags of [socksCmd] after a command line has set one of them. *)
Definition given (name : string) (v : Value) (f : FlagSet) : FlagSet :=
  <[name := mkFlag v true]> f.

End cmd.

(* ===================================================================== *)
(** ** Facts about UTF-8 and JSON values *)
(* ===================================================================== *)

Module utf8_facts.
Import utf8.

Lemma coerce_from_valid : forall s k, valid_from k s = true -> coerce_from k s = s.
Proof.
  induction s as [|b t IH]; intros k H.
  - reflexivity.
  - destruct k as [|k].
    + cbn [valid_from coerce_from] in *.
      destruct (rune_size (String b t)) as [|k]; [discriminate|].
      f_equal. now apply IH.
    + cbn [valid_from coerce_from] in *. f_equal. now apply IH.
Qed.

(** A well-formed string is written and read back unchanged. *)
Lemma coerce_valid : forall s, ValidString s = true -> coerce s = s.
Proof. intros s H. now apply coerce_from_valid. Qed.

Lemma map_coerce_valid :
  forall l, forallb ValidString l = true -> map coerce l = l.
Proof.
  induction l as [|s l IH]; simpl; intros H; [reflexivity|].
  apply andb_prop in H as [Hs Hl]. now rewrite coerce_valid, IH.
Qed.

(** An ill-formed byte does not survive: [0xff] comes back as U+FFFD. *)
Example coerce_0xff : coerce (String (ascii_of_N 255) "") = replacement.
Proof. reflexivity. Qed.

End utf8_facts.

Module json_facts.
Import json.

Lemma int_value_of_int : forall z, int_value (z <? 0) (Z.abs_N z) = z.
Proof.
  intros z. unfold int_value. rewrite N2Z.inj_abs_N.
  destruct (Z.ltb_spec z 0); lia.
Qed.

Lemma decode_string_Str path s old saved :
  decode_string path (Str s) old saved = (s, saved).
Proof. reflexivity. Qed.

Lemma decode_bool_Bool path b old saved :
  decode_bool path (Bool b) old saved = (b, saved).
Proof. reflexivity. Qed.

Lemma decode_int64_of_int ty path z old saved :
  fits_int64 z = true ->
  decode_int64 ty path (Number (of_int z)) old saved = (z, saved).
Proof.
  intros H. unfold decode_int64, of_int. rewrite int_value_of_int. now rewrite H.
Qed.

Lemma decode_uint16_of_int path z old saved :
  fits_uint16 z = true ->
  decode_uint16 path (Number (of_int z)) old saved = (z, saved).
Proof.
  intros H. unfold fits_uint16 in H. apply andb_prop in H as [H0 H1].
  apply Z.leb_le in H0. apply Z.leb_le in H1.
  unfold decode_uint16, of_int.
  replace (z <? 0) with false by (symmetry; apply Z.ltb_ge; lia).
  rewrite N2Z.inj_abs_N, Z.abs_eq by lia.
  unfold fits_uint16.
  replace (0 <=? z) with true by (symmetry; apply Z.leb_le; lia).
  replace (z <=? 65535) with true by (symmetry; apply Z.leb_le; lia).
  reflexivity.
Qed.

(** A string does not decode into a signed 64-bit field, whatever it says. *)
Lemma decode_int64_Str ty path s old saved :
  decode_int64 ty path (Str s) old saved
  = (old, saveError (mismatch (Str s) ty path) saved).
Proof. reflexivity. Qed.

Lemma decode_strings_Str path l :
  forall old saved,
    decode_strings path (map Str l) old saved = (l, saved).
Proof.
  induction l as [|s l IH]; intros old saved; simpl; [reflexivity|].
  now rewrite IH.
Qed.

End json_facts.

(* ===================================================================== *)
(** ** Package [config]: loading and saving *)
(* ===================================================================== *)

Module config_facts.
Import json config json_facts utf8_facts.

Lemma valid_and (a b : bool) : a && b = true -> a = true /\ b = true.
Proof. apply andb_prop. Qed.

Ltac split_valid H :=
  repeat match type of H with
         | _ && _ = true =>
           let H' := fresh "V" in apply valid_and in H as [H H']
         end.

(** Evaluates the look-up of a literal key among a struct's fields. *)
Ltac find_fields fields :=
  repeat match goal with
         | |- context [lookup_field fields ?k] =>
           let r := eval vm_compute in (lookup_field fields k) in
           change (lookup_field fields k) with r
         end.

(** What is written for a field is read back into it. *)
Lemma decode_encode_string path s old saved :
  utf8.ValidString s = true ->
  decode_string path (encode_string s) old saved = (s, saved).
Proof. intros H. unfold encode_string. now rewrite coerce_valid. Qed.

Lemma decode_encode_string_slice path l old saved :
  forallb utf8.ValidString (default [] l) = true ->
  decode_string_slice path (encode_string_slice l) old saved = (l, saved).
Proof.
  intros H. destruct l as [l|]; simpl in *; [|reflexivity].
  unfold encode_string. rewrite <- (map_map utf8.coerce Str).
  rewrite map_coerce_valid by assumption.
  now rewrite decode_strings_Str.
Qed.

Ltac read_back :=
  first [ rewrite decode_int64_of_int by assumption
        | rewrite decode_uint16_of_int by assumption
        | rewrite decode_encode_string_slice by assumption
        | rewrite decode_encode_string by assumption
        | rewrite decode_bool_Bool ].

Lemma decode_encode_ProxyServerConfig path p old saved :
  valid_ProxyServerConfig p = true ->
  decode_ProxyServerConfig path (encode_ProxyServerConfig p) old saved = (p, saved).
Proof.
  intros H. unfold valid_ProxyServerConfig in H. split_valid H.
  destruct p as [b po u pw]; simpl in *.
  unfold encode_string. now rewrite !coerce_valid by assumption.
Qed.

Lemma decode_encode_TunnelConfig t old saved :
  valid_TunnelConfig t = true ->
  decode_TunnelConfig (encode_TunnelConfig t) old saved = (t, saved).
Proof.
  intros H. unfold valid_TunnelConfig in H. split_valid H.
  destruct t, old; cbn [ConnectPort DNS DNSTimeout UseIPv6 NoTunnelIPv4 NoTunnelIPv6
                        SNIAddress KeepalivePeriod MTU InitialPacketSize ReconnectDelay
                        ConnectionTimeout IdleTimeout] in *.
  unfold decode_TunnelConfig, encode_TunnelConfig, encode_bool, encode_int.
  repeat (cbn [decode_TunnelMembers]; find_fields TunnelFields;
          cbn [store_TunnelField]; read_back).
  reflexivity.
Qed.

Lemma unmarshal_encode_Config c old :
  valid_Config c = true ->
  unmarshal_Config (encode_Config c) old = (c, None).
Proof.
  intros H. unfold valid_Config in H. split_valid H.
  destruct c, old; cbn [PrivateKey EndpointV4 EndpointV6 EndpointPubKey License ID
                        AccessToken IPv4 IPv6 Socks HTTP Tunnel] in *.
  unfold unmarshal_Config, encode_Config.
  repeat (cbn [decode_ConfigMembers]; find_fields ConfigFields;
          cbn [store_ConfigField];
          first [ rewrite decode_encode_string by assumption
                | rewrite decode_encode_ProxyServerConfig by assumption
                | rewrite decode_encode_TunnelConfig by assumption ]).
  reflexivity.
Qed.

Lemma os_Open_write path c fs : os_Open path (write path c fs) = Some c.
Proof. unfold os_Open, write. simpl. apply lookup_insert_eq. Qed.

Lemma SaveConfig_ok receiver path st st1 :
  SaveConfig receiver path st = (None, st1) ->
  AppConfig st1 = AppConfig st
  /\ ConfigLoaded st1 = ConfigLoaded st
  /\ os_Open path (disk st1) = Some (FirstValue (encode_Config (AppConfig st))).
Proof.
  unfold SaveConfig. destruct (os_Create path (disk st)) as [fs|]; [|discriminate].
  intros [= <-]. simpl. repeat split. apply os_Open_write.
Qed.

(** The configuration of the repository's own round-trip test is valid. *)
Example test_Config_valid : valid_Config test_Config = true.
Proof. vm_compute. reflexivity. Qed.

(** C2.  Saving the configuration held in [AppConfig] and loading the file
    again gives back that configuration: if [AppConfig] is valid and
    [SaveConfig] returns no error, then [LoadConfig] on the same path returns
    no error and leaves [AppConfig] equal to the configuration saved, with
    [ConfigLoaded] set, whatever [AppConfig] and [ConfigLoaded] were changed
    to in between (the repository's test clears both). *)
Theorem SaveConfig_LoadConfig_roundtrip :
  forall (receiver : Config) (path : string) (st st1 : State)
         (between : Config) (loaded : bool),
    valid_Config (AppConfig st) = true ->
    SaveConfig receiver path st = (None, st1) ->
    LoadConfig path st1 = (None, mkState (AppConfig st) true (disk st1))
    /\ LoadConfig path (mkState between loaded (disk st1))
       = (None, mkState (AppConfig st) true (disk st1)).
Proof.
  intros receiver path st st1 between loaded Hvalid Hsave.
  apply SaveConfig_ok in Hsave as (Hcfg & _ & Hfile).
  split; unfold LoadConfig; cbn [disk AppConfig ConfigLoaded]; rewrite Hfile;
    unfold Decode; now rewrite unmarshal_encode_Config.
Qed.

Lemma SaveConfig_LoadConfig_roundtrip_witness :
  let st := mkState test_Config false (one_file "other.json" NoValue) in
  let st1 := snd (SaveConfig zeroConfig "config.json" st) in
  valid_Config (AppConfig st) = true
  /\ SaveConfig zeroConfig "config.json" st = (None, st1)
  /\ LoadConfig "config.json" st1 = (None, mkState test_Config true (disk st1))
  /\ LoadConfig "config.json" (mkState zeroConfig false (disk st1))
     = (None, mkState test_Config true (disk st1)).
Proof.
  intros st st1.
  assert (Hv : valid_Config (AppConfig st) = true) by (vm_compute; reflexivity).
  assert (Hs : SaveConfig zeroConfig "config.json" st = (None, st1)) by reflexivity.
  split; [exact Hv|]. split; [exact Hs|].
  exact (SaveConfig_LoadConfig_roundtrip zeroConfig "config.json" st st1
           zeroConfig false Hv Hs).
Defined.

(** A string that is not well-formed UTF-8 is not read back as it was: the
    hypothesis of validity is needed. *)
Example ill_formed_string_not_read_back :
  let c := mkConfig (String (ascii_of_N 255) "") "" "" "" "" "" "" "" ""
                    zeroProxy zeroProxy zeroTunnel in
  PrivateKey (fst (unmarshal_Config (encode_Config c) zeroConfig)) = utf8.replacement.
Proof. vm_compute. reflexivity. Qed.

(** *** The decoder on small inputs *)

(** Keys are matched without regard to case, and so are the long s and the
    Kelvin sign; a key that names no field is skipped. *)
Example key_upper_case : lookup_field TunnelFields "MTU" = Some FMTU.
Proof. reflexivity. Qed.

Example key_long_s :
  lookup_field TunnelFields
    ("dn" ++ String (ascii_of_N 197) (String (ascii_of_N 191) EmptyString))
  = Some FDNS.
Proof. reflexivity. Qed.

Example key_unknown :
  unmarshal_Config (Object [("enabled", Bool true)]) test_Config = (test_Config, None).
Proof. reflexivity. Qed.

(** A file that holds [null] loads, and changes nothing but [ConfigLoaded]. *)
Example LoadConfig_null :
  LoadConfig "config.json"
             (mkState test_Config false (one_file "config.json" (FirstValue Null)))
  = (None, mkState test_Config true (one_file "config.json" (FirstValue Null))).
Proof. reflexivity. Qed.

(** A number with a fraction is no [int], and a negative one no [uint16]. *)
Example mtu_with_fraction :
  snd (unmarshal_Config (Object [("tunnel", Object [("mtu", Number (RealLit "1280.0"))])])
                        zeroConfig)
  = Some (mismatch (Number (RealLit "1280.0")) "int" "tunnel.mtu").
Proof. reflexivity. Qed.

Example packet_size_negative :
  snd (unmarshal_Config
         (Object [("tunnel", Object [("initial_packet_size", Number (IntLit true 1))])])
         zeroConfig)
  = Some (mismatch (Number (IntLit true 1)) "uint16" "tunnel.initial_packet_size").
Proof. reflexivity. Qed.

(** Decoding goes on after a type error, and the first error is reported:
    the fields after the bad one are set, and [LoadConfig] still fails. *)
Example decoding_goes_on :
  unmarshal_Config (Object [("id", Number (IntLit false 7)); ("license", Str "abc")])
                   zeroConfig
  = (mkConfig "" "" "" "" "abc" "" "" "" "" zeroProxy zeroProxy zeroTunnel,
     Some (mismatch (Number (IntLit false 7)) "string" "id")).
Proof. reflexivity. Qed.

(** *** Durations *)

(** A duration written as a string is a type error for every duration field,
    and the field keeps its value. *)
Lemma duration_string_rejected :
  forall f s t saved,
    In f duration_fields ->
    exists e,
      store_TunnelField f (Str s) t saved = (t, saveError e saved)
      /\ Value e = "string" /\ Type_ e = "time.Duration".
Proof.
  intros f s t saved Hf. destruct t.
  simpl in Hf. destruct Hf as [<-|[<-|[<-|[<-|[<-|[]]]]]];
    cbn [store_TunnelField]; rewrite decode_int64_Str;
    eexists; (split; [reflexivity|split; reflexivity]).
Qed.

(** A duration written as an integer of nanoseconds is stored. *)
Lemma duration_integer_accepted :
  forall f z t saved,
    In f duration_fields ->
    fits_int64 z = true ->
    exists t',
      store_TunnelField f (Number (of_int z)) t saved = (t', saved)
      /\ duration_of f t' = z.
Proof.
  intros f z t saved Hf Hz. destruct t.
  simpl in Hf. destruct Hf as [<-|[<-|[<-|[<-|[<-|[]]]]]];
    cbn [store_TunnelField]; rewrite decode_int64_of_int by assumption;
    eexists; (split; [reflexivity|reflexivity]).
Qed.

(** C1.  [LoadConfig] on the file of [TestLoadConfigDurationStrings], from
    the state the test sets up: the string ["3s"] for [dns_timeout] is a type
    error, [LoadConfig] returns the decoding error, [DNSTimeout] and
    [IdleTimeout] stay [0] and [ConfigLoaded] stays false; the same durations
    as integers of nanoseconds load to 3000000000 and 60000000000. *)
Theorem LoadConfig_duration_strings :
  let st := mkState zeroConfig false (one_file "dur.json" duration_strings_file) in
  let ns := FirstValue (Object [("tunnel",
              Object [("dns_timeout", Number (IntLit false 3000000000));
                      ("idle_timeout", Number (IntLit false 60000000000))])]) in
  let st' := mkState zeroConfig false (one_file "dur.json" ns) in
  LoadConfig "dur.json" st
  = (Some (failed_to_decode_config_file (TypeMismatch dns_timeout_mismatch)), st)
  /\ fst (LoadConfig "dur.json" st') = None
  /\ DNSTimeout (Tunnel (AppConfig (snd (LoadConfig "dur.json" st')))) = 3000000000
  /\ IdleTimeout (Tunnel (AppConfig (snd (LoadConfig "dur.json" st')))) = 60000000000.
Proof. repeat split. Qed.

(** *** The receiver *)

(** C9.  [SaveConfig], [GetEcPrivateKey] and [GetEcEndpointPublicKey] do not
    look at their receiver: whatever it is, [SaveConfig] writes the encoding
    of the global [AppConfig], and the two getters parse the global
    [AppConfig]'s [PrivateKey] and [EndpointPubKey]. *)
Theorem receiver_ignored :
  forall (priv pub : Type)
         (b64 : string -> option string) (parse_ec : string -> option priv)
         (pem : string -> option string)
         (parse_pkix : string -> option (PKIXPublicKey pub))
         (receiver : Config) (path : string) (st : State),
    SaveConfig receiver path st = SaveConfig (AppConfig st) path st
    /\ (forall st1, SaveConfig receiver path st = (None, st1) ->
          os_Open path (disk st1) = Some (FirstValue (encode_Config (AppConfig st))))
    /\ GetEcPrivateKey priv b64 parse_ec receiver st
       = match b64 (PrivateKey (AppConfig st)) with
         | None => Err failed_to_decode_private_key
         | Some der =>
           match parse_ec der with
           | None => Err failed_to_parse_private_key
           | Some k => Ok k
           end
         end
    /\ GetEcEndpointPublicKey pub pem parse_pkix receiver st
       = match pem (EndpointPubKey (AppConfig st)) with
         | None => Err failed_to_decode_endpoint_public_key
         | Some der =>
           match parse_pkix der with
           | None => Err failed_to_parse_public_key
           | Some (ECDSA k) => Ok k
           | Some OtherAlgorithm => Err failed_to_assert_public_key_as_ECDSA
           end
         end.
Proof.
  intros. repeat split.
  intros st1 H. now apply SaveConfig_ok in H as (_ & _ & H).
Qed.

(** A receiver other than [AppConfig]: the file holds [AppConfig], not the
    receiver. *)
Lemma receiver_ignored_witness :
  let st := mkState test_Config true (one_file "other.json" NoValue) in
  let st1 := snd (SaveConfig zeroConfig "config.json" st) in
  os_Open "config.json" (disk st1) = Some (FirstValue (encode_Config test_Config))
  /\ os_Open "config.json" (disk st1) <> Some (FirstValue (encode_Config zeroConfig)).
Proof.
  intros st st1. split.
  - exact (proj1 (proj2 (receiver_ignored unit unit (fun _ => None) (fun _ => None)
                           (fun _ => None) (fun _ => None)
                           zeroConfig "config.json" st)) st1 eq_refl).
  - vm_compute. discriminate.
Defined.

End config_facts.

(* ===================================================================== *)
(** ** Flags *)
(* ===================================================================== *)

Module pflag_facts.
Import pflag.

Lemma lookup_Set_ne (f : FlagSet) (n text name : string) :
  n <> name -> Set_ f n text !! name = f !! name.
Proof.
  intros Hne. unfold Set_.
  destruct (f !! n) as [[[] ?]|]; try reflexivity.
  now apply lookup_insert_ne.
Qed.

Lemma lookup_Set_eq (f : FlagSet) (n text : string) :
  Set_ f n text !! n
  = match f !! n with
    | Some (mkFlag (StringValue _) _) => Some (mkFlag (StringValue text) true)
    | other => other
    end.
Proof.
  unfold Set_.
  destruct (f !! n) as [[[] ?]|] eqn:E; rewrite ?E; try reflexivity.
  apply lookup_insert_eq.
Qed.

(** [Set] on one name leaves the other flags as they are. *)
Lemma GetString_Set_ne f n text name :
  n <> name -> GetString (Set_ f n text) name = GetString f name.
Proof. intros H. unfold GetString. now rewrite lookup_Set_ne. Qed.

Lemma Changed_Set_ne f n text name :
  n <> name -> Changed (Set_ f n text) name = Changed f name.
Proof. intros H. unfold Changed. now rewrite lookup_Set_ne. Qed.

(** [Set] never changes what a getter of another type returns. *)
Ltac other_type f n name :=
  destruct (decide (n = name)) as [->|Hne];
  [ rewrite lookup_Set_eq; destruct (f !! name) as [[[] ?]|]; reflexivity
  | now rewrite lookup_Set_ne ].

Lemma GetInt_Set f n text name : GetInt (Set_ f n text) name = GetInt f name.
Proof. unfold GetInt. other_type f n name. Qed.

Lemma GetBool_Set f n text name : GetBool (Set_ f n text) name = GetBool f name.
Proof. unfold GetBool. other_type f n name. Qed.

Lemma GetDuration_Set f n text name :
  GetDuration (Set_ f n text) name = GetDuration f name.
Proof. unfold GetDuration. other_type f n name. Qed.

Lemma GetUint16_Set f n text name :
  GetUint16 (Set_ f n text) name = GetUint16 f name.
Proof. unfold GetUint16. other_type f n name. Qed.

Lemma GetStringArray_Set f n text name :
  GetStringArray (Set_ f n text) name = GetStringArray f name.
Proof. unfold GetStringArray. other_type f n name. Qed.

End pflag_facts.

(* ===================================================================== *)
(** ** Package [cmd]: the SOCKS command *)
(* ===================================================================== *)

Module cmd_facts.
Import config pflag cmd pflag_facts.
Local Open Scope list_scope.

(** Writing the configured user name or password into the flags changes no
    flag of another type, and no other string flag. *)
Lemma GetInt_from_config st f n c name :
  GetInt (flag_from_config st f n c) name = GetInt f name.
Proof. unfold flag_from_config. destruct (_ && _); [apply GetInt_Set|reflexivity]. Qed.

Lemma GetBool_from_config st f n c name :
  GetBool (flag_from_config st f n c) name = GetBool f name.
Proof. unfold flag_from_config. destruct (_ && _); [apply GetBool_Set|reflexivity]. Qed.

Lemma GetDuration_from_config st f n c name :
  GetDuration (flag_from_config st f n c) name = GetDuration f name.
Proof.
  unfold flag_from_config. destruct (_ && _); [apply GetDuration_Set|reflexivity].
Qed.

Lemma GetStringArray_from_config st f n c name :
  GetStringArray (flag_from_config st f n c) name = GetStringArray f name.
Proof.
  unfold flag_from_config. destruct (_ && _); [apply GetStringArray_Set|reflexivity].
Qed.

Lemma GetString_from_config_ne st f n c name :
  n <> name -> GetString (flag_from_config st f n c) name = GetString f name.
Proof.
  intros H. unfold flag_from_config.
  destruct (_ && _); [now apply GetString_Set_ne|reflexivity].
Qed.

Lemma Changed_from_config_ne st f n c name :
  n <> name -> Changed (flag_from_config st f n c) name = Changed f name.
Proof.
  intros H. unfold flag_from_config.
  destruct (_ && _); [now apply Changed_Set_ne|reflexivity].
Qed.

(** The password is written into the flags after the user name, and reads
    as if it had been written alone. *)
Lemma GetString_from_config_twice st f n1 c1 n2 c2 :
  n1 <> n2 ->
  GetString (flag_from_config st (flag_from_config st f n1 c1) n2 c2) n2
  = GetString (flag_from_config st f n2 c2) n2.
Proof.
  intros Hne. unfold flag_from_config at 1 3.
  rewrite Changed_from_config_ne by assumption.
  destruct (_ && _).
  - unfold GetString. rewrite !lookup_Set_eq.
    assert (E : flag_from_config st f n1 c1 !! n2 = f !! n2).
    { unfold flag_from_config. destruct (_ && _); [|reflexivity].
      now apply lookup_Set_ne. }
    now rewrite E.
  - now apply GetString_from_config_ne.
Qed.

Ltac flags_back_in H :=
  repeat first
    [ rewrite GetInt_from_config in H
    | rewrite GetBool_from_config in H
    | rewrite GetDuration_from_config in H
    | rewrite GetStringArray_from_config in H
    | rewrite (GetString_from_config_twice _ _ "username" _ "password") in H
        by discriminate
    | rewrite (GetString_from_config_ne _ _ "password" _ "username") in H
        by discriminate
    | rewrite Changed_from_config_ne in H by discriminate ].

Ltac flags_back :=
  repeat first
    [ rewrite GetInt_from_config
    | rewrite GetBool_from_config
    | rewrite GetDuration_from_config
    | rewrite GetStringArray_from_config
    | rewrite (GetString_from_config_twice _ _ "username" _ "password")
        by discriminate
    | rewrite (GetString_from_config_ne _ _ "password" _ "username")
        by discriminate
    | rewrite Changed_from_config_ne by discriminate ].

(** One step through [socksCmd.Run] for a hypothesis [H] that says an event
    is in the run: case on the call the run is waiting for, and drop the
    case in which the run has ended without the event. *)
Ltac run_step H :=
  match type of H with
  | In _ (if negb ?b then _ else _) =>
    let E := fresh "E" in destruct b eqn:E; cbn [negb] in H
  | In _ (match ?x with _ => _ end) =>
    let E := fresh "E" in destruct x eqn:E
  | In _ (_ :: _) => destruct H as [H|H]; [try discriminate H|]
  | In _ [] => destruct H
  | In _ ((if ?b then _ else _) _) =>
    let E := fresh "E" in destruct b eqn:E; cbn [negb id] in H
  | In _ (id _) => unfold id in H
  end.

Ltac run_inversion H :=
  unfold socksCmd_Run in H; cbv zeta in H; flags_back_in H; repeat run_step H.

(** The same for a statement about the whole run: [H] names the run, or what
    is left of it, and the walk follows the run call by call, to every place
    where it can end. *)
Ltac walk H :=
  lazymatch type of H with
  | _ = (if negb ?b then cons _ else id) _ =>
    let E := fresh "E" in destruct b eqn:E; cbn [negb] in H; unfold id in H; walk H
  | _ = (if negb ?b then _ else _) =>
    let E := fresh "E" in destruct b eqn:E; cbn [negb] in H; walk H
  | _ = match ?x with _ => _ end =>
    let E := fresh "E" in destruct x eqn:E; walk H
  | _ = _ :: ?rest =>
    let t := fresh "rest" in
    let H' := fresh "Hrest" in
    remember rest as t eqn:H'; walk H'
  | _ => idtac
  end.

Ltac walk_run run :=
  let H := fresh "Hrun" in
  remember run as r eqn:H;
  unfold socksCmd_Run in H; cbv zeta in H; flags_back_in H;
  walk H; subst.

Section facts.

Variable L : Library.

(** The options of the server: one resolver, and authentication exactly
    when user name and password are both non-empty. *)
Lemma server_options_resolver tunNet r tcpBuf udpBuf timeout u p :
  In (WithResolver r) (server_options L tunNet r tcpBuf udpBuf timeout u p)
  /\ forall r',
      In (WithResolver r') (server_options L tunNet r tcpBuf udpBuf timeout u p) ->
      r' = r.
Proof.
  unfold server_options.
  repeat match goal with
         | |- context [if ?x then _ else _] => destruct x
         end;
    (split; [simpl; auto|]);
    intros r' H; simpl in H;
    repeat (destruct H as [H|H]; try discriminate; try (now injection H));
    destruct H.
Qed.

Lemma server_options_auth tunNet r tcpBuf udpBuf timeout u p :
  existsb (is_auth L) (server_options L tunNet r tcpBuf udpBuf timeout u p)
  = negb (String.eqb u "") && negb (String.eqb p "").
Proof.
  unfold server_options.
  repeat match goal with
         | |- context [if ?x then _ else _] => destruct x
         end; reflexivity.
Qed.

Lemma server_options_credentials tunNet r tcpBuf udpBuf timeout u p :
  credentials L (server_options L tunNet r tcpBuf udpBuf timeout u p)
  = if negb (String.eqb u "") && negb (String.eqb p "") then Some (u, p) else None.
Proof.
  unfold server_options.
  repeat match goal with
         | |- context [if ?x then _ else _] => destruct x
         end; reflexivity.
Qed.

(** C8.  Whenever the command builds the SOCKS5 server, the resolver it
    passes is built from the DNS servers and the time-out given by the flags
    [dns] and [dns-timeout], and it holds no virtual-stack network when
    [local-dns] is set and the network of the stack just constructed when it
    is not; the server gets no other resolver. *)
Theorem resolver_construction :
  forall flags st a b c opts,
    In (CallNewServer opts) (socksCmd_Run L flags st a b c) ->
    exists localDNS dnsServers dnsAddrs dnsTimeout localAddresses mtu tunDev tunNet,
      GetBool flags "local-dns" = Some localDNS
      /\ GetStringArray flags "dns" = Some dnsServers
      /\ parse_dns L dnsServers = Some dnsAddrs
      /\ GetDuration flags "dns-timeout" = Some dnsTimeout
      /\ CreateNetTUN L localAddresses dnsAddrs mtu = Some (tunDev, tunNet)
      /\ In (WithResolver
               (mkTunnelDNSResolver L (if localDNS then None else Some tunNet)
                                    dnsAddrs dnsTimeout)) opts
      /\ (forall r, In (WithResolver r) opts ->
            resolver_TunNet L r = (if localDNS then None else Some tunNet)
            /\ resolver_DNSAddrs L r = dnsAddrs
            /\ resolver_Timeout L r = dnsTimeout).
Proof.
  intros flags st a b c opts H. run_inversion H.
  all: injection H as <-.
  all: match goal with
       | Eld : GetBool _ "local-dns" = Some ?ld,
         Edns : GetStringArray _ "dns" = Some ?ds,
         Ep : parse_dns _ ?ds = Some ?da,
         Et : GetDuration _ "dns-timeout" = Some ?dt,
         Ec : CreateNetTUN _ ?la ?da ?m = Some (?dev, ?net) |- _ =>
         exists ld, ds, da, dt, la, m, dev, net; destruct ld
       end.
  all: repeat (split; [first [assumption|reflexivity]|]).
  all: match goal with
       | |- context [server_options L ?n ?r ?t ?u ?to ?us ?pw] =>
         destruct (server_options_resolver n r t u to us pw) as [Hin Honly]
       end.
  all: split; [exact Hin|].
  all: intros r Hr; apply Honly in Hr; subst r; repeat split; reflexivity.
Qed.

(** C3.  Whenever the command starts the tunnel, the endpoint it passes has
    the port given by the flag [connect-port]; its address is parsed from
    [EndpointV4] when the flag [ipv6] reads false, and from [EndpointV6]
    when the flag reads true or cannot be read. *)
Theorem endpoint_selection :
  forall flags st a b c tlsConfig keepalive packetSize endpoint tunDev mtu delay,
    In (GoMaintainTunnel tlsConfig keepalive packetSize endpoint tunDev mtu delay)
       (socksCmd_Run L flags st a b c) ->
    exists connectPort,
      GetInt flags "connect-port" = Some connectPort
      /\ UDPAddr_Port L endpoint = connectPort
      /\ (GetBool flags "ipv6" = Some false ->
          UDPAddr_IP L endpoint = net_ParseIP L (EndpointV4 (AppConfig st)))
      /\ (GetBool flags "ipv6" = Some true \/ GetBool flags "ipv6" = None ->
          UDPAddr_IP L endpoint = net_ParseIP L (EndpointV6 (AppConfig st))).
Proof.
  intros flags st a b c tlsConfig keepalive packetSize endpoint tunDev mtu delay H.
  run_inversion H.
  all: injection H as <- <- <- <- <- <- <-.
  all: eexists; split; [reflexivity|].
  all: destruct (GetBool flags "ipv6") as [[|]|]; simpl;
       (split; [reflexivity|]); split; intros Hf;
       first [reflexivity | discriminate Hf | destruct Hf; discriminate].
Qed.

(** The command does not read the tunnel section of the configuration: the
    endpoint's address family comes from the flag alone. *)
Lemma Run_ignores_Tunnel :
  forall flags st a b c t,
    socksCmd_Run L flags (with_Tunnel st t) a b c = socksCmd_Run L flags st a b c.
Proof. reflexivity. Qed.

Lemma nonempty_or_empty (g : option string) :
  match g with
  | Some u => if negb (String.eqb u "") then u else ""
  | None => ""
  end
  = match g with
    | Some u => u
    | None => ""
    end.
Proof.
  destruct g as [u|]; [|reflexivity].
  destruct (String.eqb_spec u ""); subst; reflexivity.
Qed.

Lemma nonempty_iff (u : string) : negb (String.eqb u "") = true <-> u <> "".
Proof.
  destruct (String.eqb_spec u ""); simpl; split; intros H; congruence.
Qed.

(** A server with these options authenticates exactly when both strings are
    non-empty, and then turns away every client that presents another user
    name or another password before it dials. *)
Lemma server_options_authenticate tunNet r tcpBuf udpBuf timeout u p :
  let opts := server_options L tunNet r tcpBuf udpBuf timeout u p in
  (existsb (is_auth L) opts = true <-> u <> "" /\ p <> "")
  /\ (u <> "" -> p <> "" ->
      credentials L opts = Some (u, p)
      /\ forall cl : Client,
          client_username cl <> u \/ client_password cl <> p ->
          ServeConn L opts cl = [Rejected]
          /\ existsb is_Dial (ServeConn L opts cl) = false).
Proof.
  intros opts. subst opts. split.
  - rewrite server_options_auth, andb_true_iff, !nonempty_iff. reflexivity.
  - intros Hu Hp.
    assert (E : credentials L (server_options L tunNet r tcpBuf udpBuf timeout u p)
                = Some (u, p)).
    { rewrite server_options_credentials.
      apply nonempty_iff in Hu. apply nonempty_iff in Hp. now rewrite Hu, Hp. }
    split; [exact E|].
    intros cl Hbad. unfold ServeConn. rewrite E.
    assert (F : offers_userpass cl && String.eqb (client_username cl) u
                && String.eqb (client_password cl) p = false).
    { destruct Hbad as [Hbad|Hbad];
        apply String.eqb_neq in Hbad; rewrite Hbad;
        destruct (offers_userpass cl); simpl; try reflexivity.
      now rewrite andb_false_r. }
    rewrite F. split; reflexivity.
Qed.

(** C7.  Whenever the command builds the SOCKS5 server, the options contain
    username/password authentication if and only if the effective user name
    and the effective password are both non-empty; and then the server checks
    exactly these two, so that a client presenting another user name or
    password is rejected and nothing is dialled for it. *)
Theorem authentication_configured :
  forall flags st a b c opts,
    In (CallNewServer opts) (socksCmd_Run L flags st a b c) ->
    let u := effective flags st "username" (Username (Socks (AppConfig st))) in
    let p := effective flags st "password" (Password (Socks (AppConfig st))) in
    (existsb (is_auth L) opts = true <-> u <> "" /\ p <> "")
    /\ (u <> "" -> p <> "" ->
        credentials L opts = Some (u, p)
        /\ forall cl : Client,
            client_username cl <> u \/ client_password cl <> p ->
            ServeConn L opts cl = [Rejected]
            /\ existsb is_Dial (ServeConn L opts cl) = false).
Proof.
  intros flags st a b c opts H. run_inversion H.
  all: injection H as <-.
  all: rewrite !nonempty_or_empty.
  all: apply server_options_authenticate.
Qed.

(** C6.  Let [m] be the MTU the flags give.  If [m] is 1280 the run logs no
    MTU warning.  If [m] is not 1280: a run that does not end at an earlier
    step logs the warning; a run that has logged the warning goes on to
    construct the stack with MTU [m], nothing but the reading of four more
    flags being in between; and a run that constructs the virtual stack
    constructs it with MTU [m] and has logged the warning. *)
Theorem mtu_warning_only :
  forall flags st a b c m,
    GetInt flags "mtu" = Some m ->
    let run := socksCmd_Run L flags st a b c in
    (m = 1280 -> forallb (fun e => negb (is_mtu_warning L e)) run = true)
    /\ (m <> 1280 -> stops_before_mtu_check L run = false ->
        In (LogPrint mtu_warning) run)
    /\ (m <> 1280 ->
        In (LogPrint mtu_warning) run ->
        GetDuration flags "reconnect-delay" <> None ->
        GetInt flags "tcp-buf" <> None ->
        GetInt flags "udp-buf" <> None ->
        GetDuration flags "timeout" <> None ->
        exists localAddresses dnsAddrs,
          In (CallCreateNetTUN localAddresses dnsAddrs m) run)
    /\ (forall localAddresses dnsAddrs m',
          In (CallCreateNetTUN localAddresses dnsAddrs m') run ->
          m' = m /\ (m <> 1280 -> In (LogPrint mtu_warning) run)).
Proof.
  intros flags st a b c m Hm run. subst run.
  walk_run (socksCmd_Run L flags st a b c).
  all: try (injection Hm as <-).
  all: try discriminate Hm.
  all: repeat match goal with
              | E : (_ =? 1280) = true |- _ => apply Z.eqb_eq in E
              | E : (_ =? 1280) = false |- _ => apply Z.eqb_neq in E
              end.
  all: split; [intros Heq; first [contradiction | reflexivity]|split].
  all: try (intros Hne Hs;
            first [contradiction | discriminate Hs | simpl; auto 10]).
  all: split.
  all: try (intros la da m' Hin; simpl in Hin;
            repeat (destruct Hin as [Hin|Hin]; try discriminate Hin);
            try contradiction;
            injection Hin as <- <- <-;
            (split; [reflexivity|]);
            intros Hne; first [contradiction | simpl; auto]).
  all: intros Hne Hin Hd Ht Hu Hto.
  all: try contradiction.
  all: simpl in Hin;
       repeat (destruct Hin as [Hin|Hin]; try discriminate Hin);
       try contradiction.
  all: do 2 eexists; simpl; eauto 10.
Qed.

(** C4.  Let the library construct the stack as the spec describes.  With
    both [no-tunnel-ipv4] and [no-tunnel-ipv6] set, the run is the same
    whatever the inner addresses of the configuration are (neither is
    parsed); if the run gets to the construction of the stack, the address
    list it passes is empty, the construction fails and the run reports it;
    and no run starts the tunnel, builds the server or listens. *)
Theorem both_families_disabled :
  forall flags st a b c,
    honours_NewStack L ->
    GetBool flags "no-tunnel-ipv4" = Some true ->
    GetBool flags "no-tunnel-ipv6" = Some true ->
    let run := socksCmd_Run L flags st a b c in
    (forall ipv4 ipv6,
        socksCmd_Run L flags (with_inner_addresses st ipv4 ipv6) a b c = run)
    /\ (forall localAddresses dnsAddrs mtu,
          In (CallCreateNetTUN localAddresses dnsAddrs mtu) run ->
          localAddresses = []
          /\ CreateNetTUN L localAddresses dnsAddrs mtu = None
          /\ In (CmdPrint "Failed to create virtual TUN device") run)
    /\ forallb (fun e => negb (starts_tunnel_or_proxy L e)) run = true.
Proof.
  intros flags st a b c Hspec H4 H6 run. subst run. split.
  - intros ipv4 ipv6. unfold socksCmd_Run. cbv zeta. flags_back.
    rewrite H4, H6. cbn [negb].
    destruct st as [[] loaded d].
    unfold with_inner_addresses, flag_from_config, GetEcPrivateKey, GetEcEndpointPublicKey.
    cbn [AppConfig ConfigLoaded disk PrivateKey EndpointV4 EndpointV6 EndpointPubKey
         License ID AccessToken IPv4 IPv6 Socks HTTP Tunnel].
    reflexivity.
  - remember (socksCmd_Run L flags st a b c) as run eqn:Hrun.
    unfold socksCmd_Run in Hrun. cbv zeta in Hrun. flags_back_in Hrun.
    rewrite H4, H6 in Hrun. cbn [negb] in Hrun.
    walk Hrun; subst.
    all: try match goal with
             | E : CreateNetTUN L [] ?da ?m = Some _ |- _ =>
               rewrite (Hspec [] da m eq_refl) in E; discriminate E
             end.
    all: split; [|reflexivity].
    all: intros la da m Hin; simpl in Hin;
         repeat (destruct Hin as [Hin|Hin]; try discriminate Hin);
         try contradiction.
    all: injection Hin as <- <- <-.
    all: split; [reflexivity|split; [assumption|simpl; auto 10]].
Qed.

Lemma GetEcPrivateKey_Ok receiver st k :
  GetEcPrivateKey _ (base64_DecodeString L) (x509_ParseECPrivateKey L) receiver st = Ok k ->
  valid_private_key L (PrivateKey (AppConfig st)) = true.
Proof.
  unfold GetEcPrivateKey, valid_private_key.
  destruct (base64_DecodeString L _) as [der|]; [|discriminate].
  destruct (x509_ParseECPrivateKey L der); [reflexivity|discriminate].
Qed.

Lemma GetEcEndpointPublicKey_Ok receiver st k :
  GetEcEndpointPublicKey _ (pem_Decode L) (x509_ParsePKIXPublicKey L) receiver st = Ok k ->
  valid_endpoint_public_key L (EndpointPubKey (AppConfig st)) = true.
Proof.
  unfold GetEcEndpointPublicKey, valid_endpoint_public_key.
  destruct (pem_Decode L _) as [der|]; [|discriminate].
  destruct (x509_ParsePKIXPublicKey L der) as [[k'|]|]; [reflexivity|discriminate..].
Qed.

(** C5.  If the stored private key or the stored endpoint public key is
    malformed, the getter for it returns an error, whatever its receiver;
    and the run of the command is a single message: no certificate is
    generated, no TLS configuration built, no stack constructed, no tunnel or
    proxy started. *)
Theorem malformed_key_material :
  forall receiver flags st a b c,
    valid_private_key L (PrivateKey (AppConfig st)) = false
    \/ valid_endpoint_public_key L (EndpointPubKey (AppConfig st)) = false ->
    let run := socksCmd_Run L flags st a b c in
    (valid_private_key L (PrivateKey (AppConfig st)) = false ->
     exists e, GetEcPrivateKey _ (base64_DecodeString L) (x509_ParseECPrivateKey L)
                               receiver st = Err e)
    /\ (valid_endpoint_public_key L (EndpointPubKey (AppConfig st)) = false ->
        exists e, GetEcEndpointPublicKey _ (pem_Decode L) (x509_ParsePKIXPublicKey L)
                                         receiver st = Err e)
    /\ forallb (fun e => negb (starts_something L e)) run = true
    /\ exists msg, run = [CmdPrint msg].
Proof.
  intros receiver flags st a b c Hbad run. subst run.
  split; [|split].
  - intros H.
    destruct (GetEcPrivateKey _ _ _ receiver st) as [k|e] eqn:E; [|now exists e].
    apply GetEcPrivateKey_Ok in E. congruence.
  - intros H.
    destruct (GetEcEndpointPublicKey _ _ _ receiver st) as [k|e] eqn:E; [|now exists e].
    apply GetEcEndpointPublicKey_Ok in E. congruence.
  - unfold socksCmd_Run. cbv zeta.
    destruct (ConfigLoaded st); cbn [negb]; [|split; [reflexivity|eauto]].
    destruct (GetString flags "sni-address"); [|split; [reflexivity|eauto]].
    destruct (GetEcPrivateKey _ _ _ (AppConfig st) st) as [k|e] eqn:E1;
      [|split; [reflexivity|eauto]].
    destruct (GetEcEndpointPublicKey _ _ _ (AppConfig st) st) as [k'|e] eqn:E2;
      [|split; [reflexivity|eauto]].
    apply GetEcPrivateKey_Ok in E1. apply GetEcEndpointPublicKey_Ok in E2.
    destruct Hbad; congruence.
Qed.

(** C10.  [LoadConfig] sets [ConfigLoaded] when it returns [nil] and leaves
    it as it was when it returns an error, which it does when the file cannot
    be opened and when its JSON cannot be decoded; and with [ConfigLoaded]
    false, [socksCmd.Run] and [rootCmd.Run] print that the configuration is
    not loaded and do nothing else. *)
Theorem ConfigLoaded_tracks_LoadConfig :
  forall path st flags a b c socksEnabled httpEnabled,
    let r := LoadConfig path st in
    (fst r = None -> ConfigLoaded (snd r) = true)
    /\ (fst r <> None -> ConfigLoaded (snd r) = ConfigLoaded st)
    /\ (os_Open path (disk st) = None -> fst r = Some failed_to_open_config_file)
    /\ (forall file e,
          os_Open path (disk st) = Some file ->
          snd (Decode file (AppConfig st)) = Some e ->
          fst r = Some (failed_to_decode_config_file e))
    /\ (fst r = None ->
        exists file, os_Open path (disk st) = Some file
                     /\ snd (Decode file (AppConfig st)) = None)
    /\ (forall st', ConfigLoaded st' = false ->
          socksCmd_Run L flags st' a b c = [CmdPrint config_not_loaded]
          /\ rootCmd_Run L st' socksEnabled httpEnabled a b c
             = [RootPrint config_not_loaded]).
Proof.
  intros path st flags a b c socksEnabled httpEnabled r. subst r.
  assert (Hruns : forall st', ConfigLoaded st' = false ->
            socksCmd_Run L flags st' a b c = [CmdPrint config_not_loaded]
            /\ rootCmd_Run L st' socksEnabled httpEnabled a b c
               = [RootPrint config_not_loaded]).
  { intros st' H. unfold socksCmd_Run, rootCmd_Run. rewrite H. split; reflexivity. }
  unfold LoadConfig.
  destruct (os_Open path (disk st)) as [file|].
  - destruct (Decode file (AppConfig st)) as [cfg [e|]] eqn:D; cbn [fst snd ConfigLoaded].
    + split; [discriminate|]. split; [reflexivity|]. split; [discriminate|].
      split; [|split; [discriminate|exact Hruns]].
      intros file' e' [= <-] H. rewrite D in H. simpl in H. congruence.
    + split; [reflexivity|]. split; [congruence|]. split; [discriminate|].
      split; [|split; [|exact Hruns]].
      * intros file' e' [= <-] H. rewrite D in H. discriminate H.
      * intros _. exists file. rewrite D. split; reflexivity.
  - cbn [fst snd]. split; [discriminate|]. split; [reflexivity|].
    split; [reflexivity|]. split; [discriminate|]. split; [discriminate|exact Hruns].
Qed.

End facts.
End cmd_facts.

(* ===================================================================== *)
(** ** The commands on a concrete library *)
(* ===================================================================== *)

Module runs.
Import config pflag cmd cmd_facts.
Local Open Scope list_scope.

(** Finds an event in a run that has been computed. *)
Ltac in_run := vm_compute; repeat first [left; reflexivity | right].

(** With the default flags and the test configuration the command gets as
    far as serving, and dials the IPv4 endpoint. *)
Lemma endpoint_selection_witness :
  let L := demo_Library false in
  let endpoint := mkUDPAddr L (Some "127.0.0.1") 443 in
  In (GoMaintainTunnel (L := L) "sni.example" 30000000000 1242 endpoint tt 1280 1000000000)
     (socksCmd_Run L (socksCmd_flags L) demo_State 0 0 0)
  /\ UDPAddr_IP L endpoint = net_ParseIP L (EndpointV4 (AppConfig demo_State)).
Proof.
  intros L endpoint.
  assert (H : In (GoMaintainTunnel (L := L) "sni.example" 30000000000 1242 endpoint tt
                                   1280 1000000000)
                 (socksCmd_Run L (socksCmd_flags L) demo_State 0 0 0)) by in_run.
  split; [exact H|].
  destruct (endpoint_selection L _ _ _ _ _ _ _ _ _ _ _ _ H) as (port & _ & _ & Hv4 & _).
  apply Hv4. reflexivity.
Defined.

(** With [--ipv6] the same command dials the IPv6 endpoint. *)
Example endpoint_ipv6 :
  let L := demo_Library false in
  In (GoMaintainTunnel (L := L) "sni.example" 30000000000 1242
                       (mkUDPAddr L (Some "::1") 443) tt 1280 1000000000)
     (socksCmd_Run L (given "ipv6" (BoolValue true) (socksCmd_flags L)) demo_State 0 0 0).
Proof. intros L. in_run. Qed.

(** With [--local-dns] the resolver holds no virtual-stack network. *)
Lemma resolver_construction_witness :
  let L := demo_Library false in
  let flags := given "local-dns" (BoolValue true) (socksCmd_flags L) in
  let dns := ["9.9.9.9"; "149.112.112.112"; "2620:fe::fe"; "2620:fe::9"] in
  let opts := [WithLogger; WithDial (L := L) tt;
               WithResolver (mkTunnelDNSResolver L None dns 2000000000);
               WithAuthMethods "user" "pass"] in
  In (CallNewServer opts) (socksCmd_Run L flags demo_State 0 0 0)
  /\ forall r, In (WithResolver r) opts ->
               resolver_TunNet L r = None /\ resolver_Timeout L r = 2000000000.
Proof.
  intros L flags dns opts.
  assert (H : In (CallNewServer opts) (socksCmd_Run L flags demo_State 0 0 0)) by in_run.
  split; [exact H|].
  destruct (resolver_construction L _ _ _ _ _ _ H)
    as (localDNS & servers & addrs & timeout & la & mtu & dev & net
        & Hl & _ & _ & Ht & _ & _ & Hall).
  vm_compute in Hl. injection Hl as <-.
  vm_compute in Ht. injection Ht as <-.
  intros r Hr. destruct (Hall r Hr) as (Hnet & _ & Htime). split; assumption.
Defined.

(** The test configuration names a user and a password: the server
    authenticates, and a client with a wrong password is turned away. *)
Lemma authentication_configured_witness :
  let L := demo_Library false in
  let dns := ["9.9.9.9"; "149.112.112.112"; "2620:fe::fe"; "2620:fe::9"] in
  let opts := [WithLogger; WithDial (L := L) tt;
               WithResolver (mkTunnelDNSResolver L (Some tt) dns 2000000000);
               WithAuthMethods "user" "pass"] in
  In (CallNewServer opts) (socksCmd_Run L (socksCmd_flags L) demo_State 0 0 0)
  /\ existsb (is_auth L) opts = true
  /\ ServeConn L opts (mkClient true "user" "wrong" "example.com:443") = [Rejected].
Proof.
  intros L dns opts.
  assert (H : In (CallNewServer opts) (socksCmd_Run L (socksCmd_flags L) demo_State 0 0 0))
    by in_run.
  split; [exact H|].
  destruct (authentication_configured L _ _ _ _ _ _ H) as [Hiff Hreject].
  assert (Hu : effective (socksCmd_flags L) demo_State "username"
                         (Username (Socks (AppConfig demo_State))) <> "")
    by (vm_compute; discriminate).
  assert (Hp : effective (socksCmd_flags L) demo_State "password"
                         (Password (Socks (AppConfig demo_State))) <> "")
    by (vm_compute; discriminate).
  split.
  - apply Hiff. split; assumption.
  - destruct (Hreject Hu Hp) as [_ Hbad].
    apply Hbad. right. vm_compute. discriminate.
Defined.

(** With [--mtu 1400] the warning is logged and the stack is constructed
    with MTU 1400. *)
Lemma mtu_warning_only_witness :
  let L := demo_Library false in
  let flags := given "mtu" (IntValue 1400) (socksCmd_flags L) in
  In (LogPrint mtu_warning) (socksCmd_Run L flags demo_State 0 0 0)
  /\ exists localAddresses dnsAddrs,
      In (CallCreateNetTUN localAddresses dnsAddrs 1400)
         (socksCmd_Run L flags demo_State 0 0 0).
Proof.
  intros L flags.
  assert (Hm : GetInt flags "mtu" = Some 1400) by reflexivity.
  assert (Hw : In (LogPrint mtu_warning) (socksCmd_Run L flags demo_State 0 0 0))
    by in_run.
  split; [exact Hw|].
  destruct (mtu_warning_only L flags demo_State 0 0 0 1400 Hm) as (_ & _ & Hgo & _).
  apply Hgo; [lia|exact Hw|vm_compute; discriminate..].
Defined.

(** With the default MTU there is no warning. *)
Example default_mtu_no_warning :
  let L := demo_Library false in
  forallb (fun e => negb (is_mtu_warning L e))
          (socksCmd_Run L (socksCmd_flags L) demo_State 0 0 0) = true.
Proof. vm_compute. reflexivity. Qed.

(** On a library that constructs the stack as the spec describes, [-F -S]
    ends the command at the construction of the stack. *)
Lemma both_families_disabled_witness :
  let L := demo_Library true in
  let flags := given "no-tunnel-ipv4" (BoolValue true)
                 (given "no-tunnel-ipv6" (BoolValue true) (socksCmd_flags L)) in
  honours_NewStack L
  /\ GetBool flags "no-tunnel-ipv4" = Some true
  /\ GetBool flags "no-tunnel-ipv6" = Some true
  /\ forallb (fun e => negb (starts_tunnel_or_proxy L e))
             (socksCmd_Run L flags demo_State 0 0 0) = true.
Proof.
  intros L flags.
  assert (Hspec : honours_NewStack L).
  { intros la da m H.
    change (CreateNetTUN L la da m)
      with (if true && NewStack_fails L la m then None else Some (tt, tt)).
    now rewrite H. }
  assert (H4 : GetBool flags "no-tunnel-ipv4" = Some true) by reflexivity.
  assert (H6 : GetBool flags "no-tunnel-ipv6" = Some true) by reflexivity.
  repeat (split; [assumption|]).
  exact (proj2 (proj2 (both_families_disabled L flags demo_State 0 0 0 Hspec H4 H6))).
Defined.

(** The command itself does not look at the address list: on a library
    whose [CreateNetTUN] takes the empty list, [-F -S] starts the tunnel and
    the proxy. *)
Example lenient_stack_starts_everything :
  let L := demo_Library false in
  let flags := given "no-tunnel-ipv4" (BoolValue true)
                 (given "no-tunnel-ipv6" (BoolValue true) (socksCmd_flags L)) in
  existsb (starts_tunnel_or_proxy L) (socksCmd_Run L flags demo_State 0 0 0) = true.
Proof. vm_compute. reflexivity. Qed.

(** An empty private key: the command prints one message and stops. *)
Lemma malformed_key_material_witness :
  let L := demo_Library false in
  let st := mkState zeroConfig true (one_file "config.json" NoValue) in
  valid_private_key L (PrivateKey (AppConfig st)) = false
  /\ socksCmd_Run L (socksCmd_flags L) st 0 0 0 = [CmdPrint "Failed to get private key"].
Proof.
  intros L st.
  assert (Hbad : valid_private_key L (PrivateKey (AppConfig st)) = false) by reflexivity.
  split; [exact Hbad|].
  destruct (malformed_key_material L zeroConfig (socksCmd_flags L) st 0 0 0 (or_introl Hbad))
    as (_ & _ & _ & msg & Hrun).
  rewrite Hrun. vm_compute in Hrun. symmetry. exact Hrun.
Defined.

(** A configuration file that is not there: [ConfigLoaded] stays false and
    both commands only print. *)
Lemma ConfigLoaded_tracks_LoadConfig_witness :
  let L := demo_Library false in
  let st := mkState zeroConfig false (one_file "other.json" NoValue) in
  let st' := snd (LoadConfig "config.json" st) in
  fst (LoadConfig "config.json" st) = Some failed_to_open_config_file
  /\ ConfigLoaded st' = false
  /\ socksCmd_Run L (socksCmd_flags L) st' 0 0 0 = [CmdPrint config_not_loaded]
  /\ rootCmd_Run L st' true true 0 0 0 = [RootPrint config_not_loaded].
Proof.
  intros L st st'.
  destruct (ConfigLoaded_tracks_LoadConfig L "config.json" st (socksCmd_flags L) 0 0 0
                                           true true)
    as (_ & Hkeep & Hopen & _ & _ & Hruns).
  assert (E : fst (LoadConfig "config.json" st) = Some failed_to_open_config_file)
    by (apply Hopen; reflexivity).
  assert (F : ConfigLoaded st' = false)
    by (unfold st'; rewrite Hkeep; [reflexivity|rewrite E; discriminate]).
  split; [exact E|]. split; [exact F|]. exact (Hruns st' F).
Defined.

(** With a loaded configuration and both proxies enabled, the root command
    starts both and waits. *)
Example rootCmd_starts_services :
  let L := demo_Library false in
  exists events,
    rootCmd_Run L demo_State true true 0 0 0
    = [Go_socksCmd_Run events; Go_httpProxyCmd_Run; Wait].
Proof. intros L. eexists. reflexivity. Qed.

Example rootCmd_nothing_enabled :
  rootCmd_Run (demo_Library false) demo_State false false 0 0 0
  = [RootPrint "No services enabled in config"].
Proof. reflexivity. Qed.

End runs.

(* ===================================================================== *)
(** ** More about [config]: what loading and saving leave alone *)
(* ===================================================================== *)

Module utf8_more.
Import utf8.

Lemma valid_replacement s : valid_from 0 (replacement ++ s) = valid_from 0 s.
Proof. reflexivity. Qed.

(** The size of a rune depends on its own bytes only, and these are
    copied. *)
Lemma rune_size_coerce b t k :
  rune_size (String b t) = S k ->
  rune_size (String b (coerce_from k t)) = S k.
Proof.
  unfold rune_size.
  destruct (between 0 127 b).
  - intros [= <-]. reflexivity.
  - destruct (between 194 223 b).
    + destruct t as [|b1 t1]; [discriminate|].
      destruct (cont b1) eqn:E1; [|discriminate].
      intros [= <-]. cbn [coerce_from]. now rewrite E1.
    + destruct (between 224 239 b).
      * destruct t as [|b1 [|b2 t2]]; try discriminate.
        destruct (_ && _) eqn:E; [|discriminate].
        intros [= <-]. cbn [coerce_from]. now rewrite E.
      * destruct (between 240 244 b); [|discriminate].
        destruct t as [|b1 [|b2 [|b3 t3]]]; try discriminate.
        destruct (_ && _) eqn:E; [|discriminate].
        intros [= <-]. cbn [coerce_from]. now rewrite E.
Qed.

Lemma valid_coerce_from : forall s k, valid_from k (coerce_from k s) = true.
Proof.
  induction s as [|b t IH]; intros k; [destruct k; reflexivity|].
  destruct k as [|k].
  - cbn [coerce_from].
    destruct (rune_size (String b t)) as [|k] eqn:E.
    + rewrite valid_replacement. apply IH.
    + cbn [valid_from]. rewrite (rune_size_coerce _ _ _ E). apply IH.
  - cbn [coerce_from valid_from]. apply IH.
Qed.

(** What is written for a string is well-formed, whatever the string. *)
Lemma coerce_is_valid s : ValidString (coerce s) = true.
Proof. apply valid_coerce_from. Qed.

Lemma map_coerce_is_valid l : forallb ValidString (map coerce l) = true.
Proof.
  induction l as [|s l IH]; [reflexivity|].
  simpl. now rewrite coerce_is_valid, IH.
Qed.

End utf8_more.

Module config_more.
Import json config json_facts utf8_facts utf8_more config_facts.

(** *** The saved error *)

Ltac kept :=
  repeat match goal with
         | |- context [match ?v with _ => _ end] => destruct v
         | |- context [if ?b then _ else _] => destruct b
         end; try reflexivity.

Lemma decode_string_kept path v old e :
  snd (decode_string path v old (Some e)) = Some e.
Proof. unfold decode_string. kept. Qed.

Lemma decode_bool_kept path v old e :
  snd (decode_bool path v old (Some e)) = Some e.
Proof. unfold decode_bool. kept. Qed.

Lemma decode_int64_kept ty path v old e :
  snd (decode_int64 ty path v old (Some e)) = Some e.
Proof. unfold decode_int64. kept. Qed.

Lemma decode_uint16_kept path v old e :
  snd (decode_uint16 path v old (Some e)) = Some e.
Proof. unfold decode_uint16. kept. Qed.

Lemma decode_strings_kept path items :
  forall old e, snd (decode_strings path items old (Some e)) = Some e.
Proof.
  induction items as [|v items IH]; intros old e; [reflexivity|].
  cbn [decode_strings].
  pose proof (decode_string_kept path v (hd "" old) e) as H.
  destruct (decode_string path v (hd "" old) (Some e)) as [s saved1].
  simpl in H. subst saved1.
  specialize (IH (tl old) e).
  destruct (decode_strings path items (tl old) (Some e)) as [l saved2].
  exact IH.
Qed.

Lemma decode_string_slice_kept path v old e :
  snd (decode_string_slice path v old (Some e)) = Some e.
Proof.
  unfold decode_string_slice. destruct v; try reflexivity.
  pose proof (decode_strings_kept path items (default [] old) e) as H.
  destruct (decode_strings path items (default [] old) (Some e)). exact H.
Qed.

Lemma store_ProxyField_kept path f v p e :
  snd (store_ProxyField path f v p (Some e)) = Some e.
Proof.
  destruct f; cbn [store_ProxyField];
    match goal with
    | |- context [decode_string ?a ?b ?c ?d] =>
      pose proof (decode_string_kept a b c e) as H;
        destruct (decode_string a b c d); exact H
    end.
Qed.

Lemma decode_ProxyMembers_kept path members :
  forall p e, snd (decode_ProxyMembers path members p (Some e)) = Some e.
Proof.
  induction members as [|[k v] rest IH]; intros p e; [reflexivity|].
  cbn [decode_ProxyMembers].
  destruct (lookup_field ProxyFields k) as [f|]; [|apply IH].
  pose proof (store_ProxyField_kept path f v p e) as H.
  destruct (store_ProxyField path f v p (Some e)) as [p' saved'].
  simpl in H. subst. apply IH.
Qed.

Lemma decode_ProxyServerConfig_kept path v p e :
  snd (decode_ProxyServerConfig path v p (Some e)) = Some e.
Proof.
  destruct v; try reflexivity. apply decode_ProxyMembers_kept.
Qed.

Lemma store_TunnelField_kept f v t e :
  snd (store_TunnelField f v t (Some e)) = Some e.
Proof.
  destruct t, f; cbn [store_TunnelField];
    match goal with
    | |- context [decode_string ?a ?b ?c ?d] =>
      pose proof (decode_string_kept a b c e) as H;
        destruct (decode_string a b c d); exact H
    | |- context [decode_bool ?a ?b ?c ?d] =>
      pose proof (decode_bool_kept a b c e) as H;
        destruct (decode_bool a b c d); exact H
    | |- context [decode_int64 ?ty ?a ?b ?c ?d] =>
      pose proof (decode_int64_kept ty a b c e) as H;
        destruct (decode_int64 ty a b c d); exact H
    | |- context [decode_uint16 ?a ?b ?c ?d] =>
      pose proof (decode_uint16_kept a b c e) as H;
        destruct (decode_uint16 a b c d); exact H
    | |- context [decode_string_slice ?a ?b ?c ?d] =>
      pose proof (decode_string_slice_kept a b c e) as H;
        destruct (decode_string_slice a b c d); exact H
    end.
Qed.

Lemma decode_TunnelMembers_kept members :
  forall t e, snd (decode_TunnelMembers members t (Some e)) = Some e.
Proof.
  induction members as [|[k v] rest IH]; intros t e; [reflexivity|].
  cbn [decode_TunnelMembers].
  destruct (lookup_field TunnelFields k) as [f|]; [|apply IH].
  pose proof (store_TunnelField_kept f v t e) as H.
  destruct (store_TunnelField f v t (Some e)) as [t' saved'].
  simpl in H. subst. apply IH.
Qed.

Lemma decode_TunnelConfig_kept v t e :
  snd (decode_TunnelConfig v t (Some e)) = Some e.
Proof.
  destruct v; try reflexivity. apply decode_TunnelMembers_kept.
Qed.

Lemma store_ConfigField_kept f v c e :
  snd (store_ConfigField f v c (Some e)) = Some e.
Proof.
  destruct c, f; cbn [store_ConfigField];
    match goal with
    | |- context [decode_string ?a ?b ?c ?d] =>
      pose proof (decode_string_kept a b c e) as H;
        destruct (decode_string a b c d); exact H
    | |- context [decode_ProxyServerConfig ?a ?b ?c ?d] =>
      pose proof (decode_ProxyServerConfig_kept a b c e) as H;
        destruct (decode_ProxyServerConfig a b c d); exact H
    | |- context [decode_TunnelConfig ?b ?c ?d] =>
      pose proof (decode_TunnelConfig_kept b c e) as H;
        destruct (decode_TunnelConfig b c d); exact H
    end.
Qed.

Lemma decode_ConfigMembers_kept members :
  forall c e, snd (decode_ConfigMembers members c (Some e)) = Some e.
Proof.
  induction members as [|[k v] rest IH]; intros c e; [reflexivity|].
  cbn [decode_ConfigMembers].
  destruct (lookup_field ConfigFields k) as [f|]; [|apply IH].
  pose proof (store_ConfigField_kept f v c e) as H.
  destruct (store_ConfigField f v c (Some e)) as [c' saved'].
  simpl in H. subst. apply IH.
Qed.

(** Decoding the members of an object one list after another. *)
Lemma decode_ConfigMembers_app pre post :
  forall c saved,
    decode_ConfigMembers (pre ++ post) c saved
    = decode_ConfigMembers post (fst (decode_ConfigMembers pre c saved))
                           (snd (decode_ConfigMembers pre c saved)).
Proof.
  induction pre as [|[k v] pre IH]; intros c saved; [reflexivity|].
  cbn [app decode_ConfigMembers].
  destruct (lookup_field ConfigFields k) as [f|]; [|apply IH].
  destruct (store_ConfigField f v c saved) as [c' saved']. apply IH.
Qed.

(** Storing into one field leaves the others. *)
Lemma store_ConfigField_other f f' v c saved :
  f <> f' ->
  ConfigField_value f (fst (store_ConfigField f' v c saved)) = ConfigField_value f c.
Proof.
  intros Hne. destruct c, f'; cbn [store_ConfigField];
    match goal with
    | |- context [let '(_, _) := ?d in _] => destruct d
    end; destruct f; try congruence; reflexivity.
Qed.

Lemma decode_ConfigMembers_not_named f members :
  not_named f members ->
  forall c saved,
    ConfigField_value f (fst (decode_ConfigMembers members c saved))
    = ConfigField_value f c.
Proof.
  induction members as [|[k v] rest IH]; intros Hno c saved; [reflexivity|].
  assert (Hrest : not_named f rest).
  { intros k' v' Hin. apply (Hno k' v'). now right. }
  cbn [decode_ConfigMembers].
  destruct (lookup_field ConfigFields k) as [f'|] eqn:E; [|now apply IH].
  pose proof (store_ConfigField_other f f' v c saved) as H.
  destruct (store_ConfigField f' v c saved) as [c' saved'].
  rewrite IH by assumption. apply H.
  intros ->. apply (Hno k v); [now left|exact E].
Qed.

Lemma unknown_members members :
  (forall key v, In (key, v) members -> lookup_field ConfigFields key = None) ->
  forall c saved, decode_ConfigMembers members c saved = (c, saved).
Proof.
  induction members as [|[k v] rest IH]; intros Hno c saved; [reflexivity|].
  cbn [decode_ConfigMembers]. rewrite (Hno k v) by now left.
  apply IH. intros k' v' Hin. apply (Hno k' v'). now right.
Qed.

(** X1.  A configuration file that is a JSON object none of whose keys is
    the name of a field loads: [LoadConfig] returns no error, sets
    [ConfigLoaded], and leaves [AppConfig] as it was. *)
Theorem LoadConfig_unknown_keys :
  forall path st members,
    os_Open path (disk st) = Some (FirstValue (Object members)) ->
    (forall key v, In (key, v) members -> lookup_field ConfigFields key = None) ->
    LoadConfig path st = (None, mkState (AppConfig st) true (disk st)).
Proof.
  intros path st members Hopen Hno. unfold LoadConfig. rewrite Hopen.
  unfold Decode, unmarshal_Config. now rewrite unknown_members.
Qed.

Lemma LoadConfig_unknown_keys_witness :
  let file := FirstValue (Object [("enabled", Bool true); ("comment", Str "x")]) in
  let st := mkState test_Config false (one_file "config.json" file) in
  LoadConfig "config.json" st = (None, mkState test_Config true (disk st)).
Proof.
  intros file st.
  apply (LoadConfig_unknown_keys "config.json" st
           [("enabled", Bool true); ("comment", Str "x")]).
  - reflexivity.
  - intros key v [[= <- <-]|[[= <- <-]|[]]]; reflexivity.
Defined.

(** X2.  [LoadConfig] on a JSON object changes only the fields the object
    names: a top-level field for which the object has no member keeps its
    value, whether the load succeeds or fails. *)
Theorem LoadConfig_keeps_unnamed_field :
  forall f path st members,
    os_Open path (disk st) = Some (FirstValue (Object members)) ->
    not_named f members ->
    ConfigField_value f (AppConfig (snd (LoadConfig path st)))
    = ConfigField_value f (AppConfig st).
Proof.
  intros f path st members Hopen Hno. unfold LoadConfig. rewrite Hopen.
  unfold Decode, unmarshal_Config.
  pose proof (decode_ConfigMembers_not_named f members Hno (AppConfig st) None) as H.
  destruct (decode_ConfigMembers members (AppConfig st) None) as [c [e|]]; exact H.
Qed.

Lemma LoadConfig_keeps_unnamed_field_witness :
  let file := FirstValue (Object [("license", Str "new"); ("id", Number (IntLit false 7))]) in
  let st := mkState test_Config false (one_file "config.json" file) in
  fst (LoadConfig "config.json" st) <> None
  /\ License (AppConfig (snd (LoadConfig "config.json" st))) = "new"
  /\ ConfigField_value FTunnel (AppConfig (snd (LoadConfig "config.json" st)))
     = TunnelConfigField (Tunnel test_Config).
Proof.
  intros file st. split; [discriminate|]. split; [reflexivity|].
  apply (LoadConfig_keeps_unnamed_field FTunnel "config.json" st
           [("license", Str "new"); ("id", Number (IntLit false 7))]).
  - reflexivity.
  - intros key v [[= <- <-]|[[= <- <-]|[]]]; discriminate.
Defined.

Lemma store_string_field f s c saved :
  In f string_fields ->
  ConfigField_value f (fst (store_ConfigField f (Str s) c saved)) = StringField s.
Proof.
  intros Hf. destruct c. simpl in Hf.
  repeat (destruct Hf as [<-|Hf]; [reflexivity|]). destruct Hf.
Qed.

(** X3.  When a JSON object has several members for one string field, the
    last of them is the one that counts: the field ends up with that
    member's string, whatever the members before it, and whatever else the
    members after it set. *)
Theorem LoadConfig_last_member_wins :
  forall f path st pre key s post,
    In f string_fields ->
    os_Open path (disk st) = Some (FirstValue (Object (pre ++ (key, Str s) :: post))) ->
    lookup_field ConfigFields key = Some f ->
    not_named f post ->
    ConfigField_value f (AppConfig (snd (LoadConfig path st))) = StringField s.
Proof.
  intros f path st pre key s post Hf Hopen Hkey Hpost.
  unfold LoadConfig. rewrite Hopen. unfold Decode, unmarshal_Config.
  assert (H : ConfigField_value f
                (fst (decode_ConfigMembers (pre ++ (key, Str s) :: post)
                                           (AppConfig st) None))
              = StringField s).
  { rewrite decode_ConfigMembers_app. cbn [decode_ConfigMembers]. rewrite Hkey.
    pose proof (store_string_field f s
                  (fst (decode_ConfigMembers pre (AppConfig st) None))
                  (snd (decode_ConfigMembers pre (AppConfig st) None)) Hf) as Hs.
    destruct (store_ConfigField f (Str s) _ _) as [c' saved'].
    rewrite decode_ConfigMembers_not_named by assumption. exact Hs. }
  destruct (decode_ConfigMembers _ (AppConfig st) None) as [c [e|]]; exact H.
Qed.

Lemma LoadConfig_last_member_wins_witness :
  let file := FirstValue (Object [("id", Str "first"); ("ID", Str "second");
                                  ("license", Str "l")]) in
  let st := mkState zeroConfig false (one_file "config.json" file) in
  ConfigField_value FID (AppConfig (snd (LoadConfig "config.json" st)))
  = StringField "second".
Proof.
  intros file st.
  apply (LoadConfig_last_member_wins FID "config.json" st
           [("id", Str "first")] "ID" "second" [("license", Str "l")]).
  - simpl. auto 10.
  - reflexivity.
  - reflexivity.
  - intros key v [[= <- <-]|[]]. discriminate.
Defined.

(** X4.  Members added at the end of a configuration file neither repair a
    failing load nor change the error it reports: if decoding an object
    fails with a type error, decoding the object with further members
    appended fails with the same error. *)
Theorem LoadConfig_error_is_first :
  forall path st path' st' pre post e,
    AppConfig st' = AppConfig st ->
    os_Open path (disk st) = Some (FirstValue (Object pre)) ->
    os_Open path' (disk st') = Some (FirstValue (Object (pre ++ post))) ->
    fst (LoadConfig path st) = Some (failed_to_decode_config_file (TypeMismatch e)) ->
    fst (LoadConfig path' st') = Some (failed_to_decode_config_file (TypeMismatch e))
    /\ ConfigLoaded (snd (LoadConfig path' st')) = ConfigLoaded st'.
Proof.
  intros path st path' st' pre post e Hcfg Hopen Hopen' Hfail.
  unfold LoadConfig in *. rewrite Hopen in Hfail. rewrite Hopen'.
  unfold Decode, unmarshal_Config in *. rewrite Hcfg.
  rewrite decode_ConfigMembers_app.
  destruct (decode_ConfigMembers pre (AppConfig st) None) as [c1 [e1|]];
    [|discriminate Hfail].
  injection Hfail as ->. cbn [fst snd].
  pose proof (decode_ConfigMembers_kept post c1 e) as H.
  destruct (decode_ConfigMembers post c1 (Some e)) as [c2 saved2].
  simpl in H. subst saved2. split; reflexivity.
Qed.

Lemma LoadConfig_error_is_first_witness :
  let pre := [("tunnel", Object [("dns_timeout", Str "3s")])] in
  let post := [("tunnel", Object [("dns_timeout", Number (IntLit false 3000000000))]);
               ("id", Bool true)] in
  let st := mkState zeroConfig false (one_file "a.json" (FirstValue (Object pre))) in
  let st' := mkState zeroConfig false
                     (one_file "b.json" (FirstValue (Object (pre ++ post)))) in
  fst (LoadConfig "b.json" st')
  = Some (failed_to_decode_config_file (TypeMismatch dns_timeout_mismatch))
  /\ DNSTimeout (Tunnel (AppConfig (snd (LoadConfig "b.json" st')))) = 3000000000.
Proof.
  intros pre post st st'. split; [|reflexivity].
  exact (proj1 (LoadConfig_error_is_first "a.json" st "b.json" st' pre post
                  dns_timeout_mismatch eq_refl eq_refl eq_refl eq_refl)).
Defined.

(** *** Ranges *)

Lemma decode_int64_fits ty path v old saved :
  fits_int64 old = true -> fits_int64 (fst (decode_int64 ty path v old saved)) = true.
Proof.
  intros H. unfold decode_int64. destruct v as [| |[neg m|]| | |]; try exact H.
  destruct (fits_int64 (int_value neg m)) eqn:E; [exact E|exact H].
Qed.

Lemma decode_uint16_fits path v old saved :
  fits_uint16 old = true -> fits_uint16 (fst (decode_uint16 path v old saved)) = true.
Proof.
  intros H. unfold decode_uint16. destruct v as [| |[[|] m|]| | |]; try exact H.
  destruct (fits_uint16 (Z.of_N m)) eqn:E; [exact E|exact H].
Qed.

Lemma store_TunnelField_in_range f v t saved :
  in_range_TunnelConfig t = true ->
  in_range_TunnelConfig (fst (store_TunnelField f v t saved)) = true.
Proof.
  intros H. unfold in_range_TunnelConfig in H. split_valid H.
  destruct t; cbn [ConnectPort DNSTimeout KeepalivePeriod MTU InitialPacketSize
                   ReconnectDelay ConnectionTimeout IdleTimeout] in *.
  destruct f; cbn [store_TunnelField];
    match goal with
    | |- context [decode_int64 ?ty ?a ?b ?c ?d] =>
      pose proof (decode_int64_fits ty a b c d) as F; destruct (decode_int64 ty a b c d)
    | |- context [decode_uint16 ?a ?b ?c ?d] =>
      pose proof (decode_uint16_fits a b c d) as F; destruct (decode_uint16 a b c d)
    | |- context [let '(_, _) := ?d in _] => destruct d
    end;
    unfold in_range_TunnelConfig;
    cbn [fst ConnectPort DNSTimeout KeepalivePeriod MTU InitialPacketSize
         ReconnectDelay ConnectionTimeout IdleTimeout] in *;
    repeat match goal with
           | H : _ = true |- _ => rewrite H
           | H : ?a = true -> _ |- _ =>
             match goal with H' : a = true |- _ => specialize (H H') end
           end; reflexivity.
Qed.

Lemma decode_TunnelMembers_in_range members :
  forall t saved,
    in_range_TunnelConfig t = true ->
    in_range_TunnelConfig (fst (decode_TunnelMembers members t saved)) = true.
Proof.
  induction members as [|[k v] rest IH]; intros t saved H; [exact H|].
  cbn [decode_TunnelMembers].
  destruct (lookup_field TunnelFields k) as [f|]; [|now apply IH].
  pose proof (store_TunnelField_in_range f v t saved H) as H'.
  destruct (store_TunnelField f v t saved) as [t' saved']. now apply IH.
Qed.

Lemma store_ConfigField_in_range f v c saved :
  in_range_Config c = true ->
  in_range_Config (fst (store_ConfigField f v c saved)) = true.
Proof.
  intros H. destruct c. unfold in_range_Config in *. cbn [Tunnel] in H.
  destruct f; cbn [store_ConfigField];
    try (match goal with
         | |- context [let '(_, _) := ?d in _] => destruct d
         end; exact H).
  unfold decode_TunnelConfig. destruct v; try exact H.
  pose proof (decode_TunnelMembers_in_range members Tunnel0 saved H) as H'.
  destruct (decode_TunnelMembers members Tunnel0 saved). exact H'.
Qed.

Lemma decode_ConfigMembers_in_range members :
  forall c saved,
    in_range_Config c = true ->
    in_range_Config (fst (decode_ConfigMembers members c saved)) = true.
Proof.
  induction members as [|[k v] rest IH]; intros c saved H; [exact H|].
  cbn [decode_ConfigMembers].
  destruct (lookup_field ConfigFields k) as [f|]; [|now apply IH].
  pose proof (store_ConfigField_in_range f v c saved H) as H'.
  destruct (store_ConfigField f v c saved) as [c' saved']. now apply IH.
Qed.

(** X5.  [LoadConfig] never stores a number that the field's Go type cannot
    hold: if the numbers of [AppConfig] are in range before the call they
    are in range after it, whatever the path and whatever the file holds,
    and whether the call succeeds or fails. *)
Theorem LoadConfig_keeps_ranges :
  forall path st,
    in_range_Config (AppConfig st) = true ->
    in_range_Config (AppConfig (snd (LoadConfig path st))) = true.
Proof.
  intros path st H. unfold LoadConfig.
  destruct (os_Open path (disk st)) as [[|v]|]; try exact H.
  unfold Decode, unmarshal_Config. destruct v; try exact H.
  pose proof (decode_ConfigMembers_in_range members (AppConfig st) None H) as H'.
  destruct (decode_ConfigMembers members (AppConfig st) None) as [c [e|]]; exact H'.
Qed.

Lemma LoadConfig_keeps_ranges_witness :
  let file := FirstValue (Object [("tunnel",
                Object [("mtu", Number (IntLit false 9223372036854775808));
                        ("connect_port", Number (IntLit false 8443))])]) in
  let st := mkState test_Config false (one_file "config.json" file) in
  in_range_Config (AppConfig (snd (LoadConfig "config.json" st))) = true
  /\ MTU (Tunnel (AppConfig (snd (LoadConfig "config.json" st)))) = 1280
  /\ ConnectPort (Tunnel (AppConfig (snd (LoadConfig "config.json" st)))) = 8443.
Proof.
  intros file st. split; [|split; reflexivity].
  apply (LoadConfig_keeps_ranges "config.json" st). reflexivity.
Defined.

(** *** Saving *)



(** *** Writing and reading ill-formed strings *)

Lemma decode_reread_string_slice path l old saved :
  decode_string_slice path (encode_string_slice l) old saved
  = (option_map (map utf8.coerce) l, saved).
Proof.
  destruct l as [l|]; simpl; [|reflexivity].
  unfold encode_string. rewrite <- (map_map utf8.coerce Str).
  now rewrite decode_strings_Str.
Qed.

Lemma decode_reread_ProxyServerConfig path p old saved :
  decode_ProxyServerConfig path (encode_ProxyServerConfig p) old saved
  = (reread_ProxyServerConfig p, saved).
Proof. destruct p. reflexivity. Qed.

Lemma decode_reread_TunnelConfig t old saved :
  in_range_TunnelConfig t = true ->
  decode_TunnelConfig (encode_TunnelConfig t) old saved = (reread_TunnelConfig t, saved).
Proof.
  intros H. unfold in_range_TunnelConfig in H. split_valid H.
  destruct t, old; unfold reread_TunnelConfig;
    cbn [ConnectPort DNS DNSTimeout UseIPv6 NoTunnelIPv4 NoTunnelIPv6
         SNIAddress KeepalivePeriod MTU InitialPacketSize ReconnectDelay
         ConnectionTimeout IdleTimeout] in *.
  unfold decode_TunnelConfig, encode_TunnelConfig, encode_bool, encode_int.
  repeat (cbn [decode_TunnelMembers]; find_fields TunnelFields;
          cbn [store_TunnelField];
          first [ rewrite decode_int64_of_int by assumption
                | rewrite decode_uint16_of_int by assumption
                | rewrite decode_reread_string_slice
                | rewrite decode_bool_Bool
                | progress (unfold encode_string; rewrite decode_string_Str) ]).
  reflexivity.
Qed.

Lemma unmarshal_reread_Config c old :
  in_range_Config c = true ->
  unmarshal_Config (encode_Config c) old = (reread_Config c, None).
Proof.
  intros H. unfold in_range_Config in H.
  destruct c, old; unfold reread_Config;
    cbn [PrivateKey EndpointV4 EndpointV6 EndpointPubKey License ID
         AccessToken IPv4 IPv6 Socks HTTP Tunnel] in *.
  unfold unmarshal_Config, encode_Config.
  repeat (cbn [decode_ConfigMembers]; find_fields ConfigFields;
          cbn [store_ConfigField];
          first [ rewrite decode_reread_ProxyServerConfig
                | rewrite decode_reread_TunnelConfig by assumption
                | progress (unfold encode_string; rewrite decode_string_Str) ]).
  reflexivity.
Qed.

Lemma reread_Config_valid c :
  in_range_Config c = true -> valid_Config (reread_Config c) = true.
Proof.
  intros H. unfold in_range_Config, in_range_TunnelConfig in H. split_valid H.
  destruct c as [? ? ? ? ? ? ? ? ? [] [] []].
  unfold valid_Config, valid_ProxyServerConfig, valid_TunnelConfig, reread_Config,
    reread_ProxyServerConfig, reread_TunnelConfig.
  cbn [PrivateKey EndpointV4 EndpointV6 EndpointPubKey License ID AccessToken IPv4 IPv6
       Socks HTTP Tunnel BindAddress Port Username Password ConnectPort DNS DNSTimeout
       UseIPv6 NoTunnelIPv4 NoTunnelIPv6 SNIAddress KeepalivePeriod MTU
       InitialPacketSize ReconnectDelay ConnectionTimeout IdleTimeout] in *.
  rewrite !coerce_is_valid.
  repeat match goal with H : _ = true |- _ => rewrite H; clear H end.
  destruct DNS0 as [l|]; cbn [option_map from_option id];
    [rewrite map_coerce_is_valid|]; reflexivity.
Qed.

Lemma reread_valid_Config c : valid_Config c = true -> reread_Config c = c.
Proof.
  intros H. unfold valid_Config, valid_ProxyServerConfig, valid_TunnelConfig in H.
  destruct c as [? ? ? ? ? ? ? ? ? [] [] []].
  cbn [PrivateKey EndpointV4 EndpointV6 EndpointPubKey License ID AccessToken IPv4 IPv6
       Socks HTTP Tunnel BindAddress Port Username Password ConnectPort DNS DNSTimeout
       UseIPv6 NoTunnelIPv4 NoTunnelIPv6 SNIAddress KeepalivePeriod MTU
       InitialPacketSize ReconnectDelay ConnectionTimeout IdleTimeout] in H.
  repeat match goal with
         | V : _ && _ = true |- _ => apply andb_prop in V as [? ?]
         end.
  unfold reread_Config, reread_ProxyServerConfig, reread_TunnelConfig.
  cbn [PrivateKey EndpointV4 EndpointV6 EndpointPubKey License ID AccessToken IPv4 IPv6
       Socks HTTP Tunnel BindAddress Port Username Password ConnectPort DNS DNSTimeout
       UseIPv6 NoTunnelIPv4 NoTunnelIPv6 SNIAddress KeepalivePeriod MTU
       InitialPacketSize ReconnectDelay ConnectionTimeout IdleTimeout].
  rewrite !coerce_valid by assumption.
  destruct DNS0 as [l|]; cbn [option_map from_option id] in *;
    [rewrite map_coerce_valid by assumption|]; reflexivity.
Qed.

(** X7.  A configuration whose strings are not all well-formed UTF-8 still
    saves and loads, and comes back repaired: if the numbers of [AppConfig]
    are in range and [SaveConfig] returns no error, [LoadConfig] on the same
    path returns no error and leaves the configuration with every ill-formed
    byte replaced by U+FFFD, which is a valid configuration (so
    that saving and loading it again changes nothing more). *)
Theorem saved_configuration_is_repaired :
  forall receiver path st st1 between loaded,
    in_range_Config (AppConfig st) = true ->
    SaveConfig receiver path st = (None, st1) ->
    LoadConfig path (mkState between loaded (disk st1))
    = (None, mkState (reread_Config (AppConfig st)) true (disk st1))
    /\ valid_Config (reread_Config (AppConfig st)) = true
    /\ reread_Config (reread_Config (AppConfig st)) = reread_Config (AppConfig st).
Proof.
  intros receiver path st st1 between loaded Hrange Hsave.
  apply SaveConfig_ok in Hsave as (_ & _ & Hfile).
  pose proof (reread_Config_valid _ Hrange) as Hvalid.
  split; [|split; [exact Hvalid|]].
  - unfold LoadConfig. cbn [disk AppConfig ConfigLoaded]. rewrite Hfile.
    unfold Decode. now rewrite unmarshal_reread_Config.
  - now apply reread_valid_Config.
Qed.

Lemma saved_configuration_is_repaired_witness :
  let st := mkState ill_formed_Config false (one_file "other.json" NoValue) in
  let st1 := snd (SaveConfig zeroConfig "config.json" st) in
  valid_Config ill_formed_Config = false
  /\ fst (LoadConfig "config.json" st1) = None
  /\ License (AppConfig (snd (LoadConfig "config.json" st1))) = utf8.replacement ++ "x".
Proof.
  intros st st1. split; [vm_compute; reflexivity|].
  destruct (saved_configuration_is_repaired zeroConfig "config.json" st st1
              ill_formed_Config false eq_refl eq_refl) as (Hload & _ & _).
  fold st1 in Hload.
  change (mkState ill_formed_Config false (disk st1)) with st1 in Hload.
  rewrite Hload. split; reflexivity.
Defined.

End config_more.

(* ===================================================================== *)
(** ** More about [cmd]: what a serving run is made of *)
(* ===================================================================== *)

Module cmd_more.
Import config pflag cmd pflag_facts cmd_facts.
Local Open Scope list_scope.

Section serving.

Variable L : Library.

(** The source's test for taking a setting from the configuration, in a
    loaded process, is the order of preference. *)
Lemma preferred_code flags name configured flagValue :
  (if true && negb (Changed flags name) && negb (String.eqb configured "")
   then configured else flagValue)
  = preferred flags name configured flagValue.
Proof.
  unfold preferred. destruct (Changed flags name), (String.eqb configured ""); reflexivity.
Qed.

Lemma preferred_size_code flags name configured flagValue :
  (if true && negb (Changed flags name) && negb (configured =? 0)
   then configured else flagValue)
  = preferred_size flags name configured flagValue.
Proof.
  unfold preferred_size. destruct (Changed flags name), (configured =? 0); reflexivity.
Qed.

Lemma inner_v4 off address (l : list (Addr L)) :
  (if negb off
   then match netip_ParseAddr L address with
        | Some v4 => Some ([] ++ [v4])
        | None => None
        end
   else Some []) = Some l ->
  inner_address L off address = Some l.
Proof.
  unfold inner_address. destruct off; cbn [negb]; [trivial|].
  destruct (netip_ParseAddr L address); trivial.
Qed.

Lemma inner_v6 off address (l l0 : list (Addr L)) :
  (if negb off
   then match netip_ParseAddr L address with
        | Some v6 => Some (l ++ [v6])
        | None => None
        end
   else Some l) = Some l0 ->
  exists l6, inner_address L off address = Some l6 /\ l0 = l ++ l6.
Proof.
  unfold inner_address. destruct off; cbn [negb].
  - intros [= <-]. exists []. split; [reflexivity|]. now rewrite app_nil_r.
  - destruct (netip_ParseAddr L address) as [a|]; [|discriminate].
    intros [= <-]. exists [a]. split; reflexivity.
Qed.

(** A run that starts the tunnel or the proxy has read every flag, parsed
    the keys and the addresses, and constructed the stack, and is made of
    the following events in this order. *)
Lemma serving_run flags st a b c :
  existsb (starts_tunnel_or_proxy L) (socksCmd_Run L flags st a b c) = true ->
  exists sni privKey peerPubKey cert tlsConfig keepalive packetSize bind port
         connectPort no4 no6 l4 l6 dnsServers dnsAddrs dnsTimeout localDNS mtu
         delay tcpBuf udpBuf timeout tunDev tunNet,
    ConfigLoaded st = true
    /\ GetString flags "sni-address" = Some sni
    /\ GetEcPrivateKey _ (base64_DecodeString L) (x509_ParseECPrivateKey L)
                       (AppConfig st) st = Ok privKey
    /\ GetEcEndpointPublicKey _ (pem_Decode L) (x509_ParsePKIXPublicKey L)
                              (AppConfig st) st = Ok peerPubKey
    /\ GenerateCert L privKey (PublicKey L privKey) = Some cert
    /\ PrepareTlsConfig L privKey peerPubKey cert sni = Some tlsConfig
    /\ GetDuration flags "keepalive-period" = Some keepalive
    /\ GetUint16 flags "initial-packet-size" = Some packetSize
    /\ GetString flags "bind" = Some bind
    /\ GetString flags "port" = Some port
    /\ GetInt flags "connect-port" = Some connectPort
    /\ GetBool flags "no-tunnel-ipv4" = Some no4
    /\ GetBool flags "no-tunnel-ipv6" = Some no6
    /\ inner_address L no4 (IPv4 (AppConfig st)) = Some l4
    /\ inner_address L no6 (IPv6 (AppConfig st)) = Some l6
    /\ GetStringArray flags "dns" = Some dnsServers
    /\ parse_dns L dnsServers = Some dnsAddrs
    /\ GetDuration flags "dns-timeout" = Some dnsTimeout
    /\ GetBool flags "local-dns" = Some localDNS
    /\ GetInt flags "mtu" = Some mtu
    /\ GetDuration flags "reconnect-delay" = Some delay
    /\ GetInt flags "tcp-buf" = Some tcpBuf
    /\ GetInt flags "udp-buf" = Some udpBuf
    /\ GetDuration flags "timeout" = Some timeout
    /\ CreateNetTUN L (l4 ++ l6) dnsAddrs mtu = Some (tunDev, tunNet)
    /\ let host := preferred flags "bind" (BindAddress (Socks (AppConfig st))) bind in
       let port' := preferred flags "port" (Port (Socks (AppConfig st))) port in
       let opts :=
         server_options L tunNet
           (mkTunnelDNSResolver L (if localDNS then None else Some tunNet)
                                dnsAddrs dnsTimeout)
           (preferred_size flags "tcp-buf" a tcpBuf)
           (preferred_size flags "udp-buf" b udpBuf)
           (preferred_size flags "timeout" c timeout)
           (effective flags st "username" (Username (Socks (AppConfig st))))
           (effective flags st "password" (Password (Socks (AppConfig st)))) in
       socksCmd_Run L flags st a b c
       = [CallGenerateCert; CallPrepareTlsConfig sni]
           ++ (if mtu =? 1280 then [] else [LogPrint mtu_warning])
           ++ [CallCreateNetTUN (l4 ++ l6) dnsAddrs mtu;
               GoMaintainTunnel tlsConfig keepalive packetSize
                                (endpoint_of L flags st connectPort) tunDev mtu delay;
               CallNewServer opts;
               LogPrint ("SOCKS proxy listening on " ++ host ++ ":" ++ port')%string;
               CallListenAndServe "tcp" (JoinHostPort host port')]
           ++ (if ListenAndServe_returns L "tcp" (JoinHostPort host port')
               then [CmdPrint "Failed to start SOCKS proxy"; CallClose tunDev]
               else []).
Proof.
  unfold effective, endpoint_of.
  walk_run (socksCmd_Run L flags st a b c).
  all: intros Hstarts; try discriminate Hstarts; clear Hstarts.
  all: rewrite ?preferred_code, ?preferred_size_code, ?nonempty_or_empty in *.
  all: match goal with
       | E4 : (if negb _ then _ else Some []) = Some _,
         E6 : (if negb _ then _ else Some _) = Some _ |- _ =>
         apply inner_v4 in E4; apply inner_v6 in E6 as (l6 & E6 & ->)
       end.
  all: do 25 eexists.
  all: repeat (split; [first [eassumption|reflexivity]|]).
  all: cbv zeta.
  all: repeat match goal with
              | E : (_ =? 1280) = _ |- _ => rewrite E; clear E
              | E : ListenAndServe_returns _ _ _ = _ |- _ => rewrite E; clear E
              end.
  all: try match goal with
           | |- context [if ?ld then mkTunnelDNSResolver _ _ _ _ else _] => destruct ld
           end.
  all: reflexivity.
Qed.

Lemma starts_In e run :
  In e run -> starts_tunnel_or_proxy L e = true ->
  existsb (starts_tunnel_or_proxy L) run = true.
Proof. intros Hin He. apply existsb_exists. now exists e. Qed.

(** From an event of a serving run to the events of the run, one by one. *)
Ltac serving H Hrun :=
  let Hs := fresh "Hs" in
  pose proof (starts_In _ _ H eq_refl) as Hs;
  apply serving_run in Hs;
  destruct Hs as (sni & privKey & peerPubKey & cert & tlsConfig & keepalive
                  & packetSize & bind & port & connectPort & no4 & no6 & l4 & l6
                  & dnsServers & dnsAddrs & dnsTimeout & localDNS & mtu0 & delay0
                  & tcpBuf & udpBuf & timeout & tunDev0 & tunNet
                  & Hloaded & Hsni & Hpriv & Hpub & Hcert & Htls & Hka & Hps & Hbind
                  & Hport & Hcp & Hno4 & Hno6 & Hl4 & Hl6 & Hdns & Hparse & Hdt & Hld
                  & Hmtu & Hdelay & Htcp & Hudp & Hto & Htun & Hrun);
  cbv zeta in Hrun; rewrite Hrun in H;
  destruct (mtu0 =? 1280);
  destruct (ListenAndServe_returns L "tcp" _);
  simpl in H;
  repeat (destruct H as [H|H]; try discriminate H);
  try contradiction.

(** X8.  The address the proxy listens on is made by [net.JoinHostPort] of
    the bind address and the port, each taken in this order of preference:
    the flag when the command line gave it, else the configured value when
    it is not empty, else the flag's default; the network is [tcp]. *)
Theorem listen_address :
  forall flags st a b c network addr,
    In (CallListenAndServe network addr) (socksCmd_Run L flags st a b c) ->
    exists bind port,
      GetString flags "bind" = Some bind
      /\ GetString flags "port" = Some port
      /\ network = "tcp"
      /\ addr = JoinHostPort
                  (preferred flags "bind" (BindAddress (Socks (AppConfig st))) bind)
                  (preferred flags "port" (Port (Socks (AppConfig st))) port).
Proof.
  intros flags st a b c network addr H. serving H Hrun.
  all: injection H as <- <-; exists bind, port; repeat split; assumption.
Qed.

Lemma effective_preferred flags st name configured v :
  ConfigLoaded st = true ->
  GetString flags name = Some v ->
  effective flags st name configured = preferred flags name configured v.
Proof.
  intros Hl Hv. unfold effective, flag_from_config, preferred. rewrite Hl.
  destruct (Changed flags name); cbn [negb andb]; [now rewrite Hv|].
  destruct (String.eqb configured ""); cbn [negb]; [now rewrite Hv|].
  unfold GetString in *. rewrite lookup_Set_eq.
  destruct (flags !! name) as [[[] ?]|]; try discriminate. reflexivity.
Qed.

(** X9.  The user name and the password the server checks are taken in the
    same order of preference (flag given on the command line, else non-empty
    configured value, else the flag's default), and the server checks
    credentials exactly when both come out non-empty. *)
Theorem credentials_precedence :
  forall flags st a b c opts flagUser flagPassword,
    In (CallNewServer opts) (socksCmd_Run L flags st a b c) ->
    GetString flags "username" = Some flagUser ->
    GetString flags "password" = Some flagPassword ->
    let u := preferred flags "username" (Username (Socks (AppConfig st))) flagUser in
    let p := preferred flags "password" (Password (Socks (AppConfig st))) flagPassword in
    credentials L opts
    = if negb (String.eqb u "") && negb (String.eqb p "") then Some (u, p) else None.
Proof.
  intros flags st a b c opts fu fp H Hu Hp. serving H Hrun.
  all: injection H as <-; cbv zeta;
       rewrite server_options_credentials,
         (effective_preferred _ _ _ _ _ Hloaded Hu),
         (effective_preferred _ _ _ _ _ Hloaded Hp);
       reflexivity.
Qed.

(** The buffer pools and the time-out among the options. *)
Lemma server_options_pools tunNet r tcpBuf udpBuf timeout u p :
  let opts := server_options L tunNet r tcpBuf udpBuf timeout u p in
  (forall n, In (WithBufferPool n) opts <-> n = tcpBuf /\ 0 < tcpBuf /\ tcpBuf = udpBuf)
  /\ (forall n, In (WithBufferPoolTCP n) opts
                <-> n = tcpBuf /\ 0 < tcpBuf /\ tcpBuf <> udpBuf)
  /\ (forall n, In (WithBufferPoolUDP n) opts
                <-> n = udpBuf /\ 0 < udpBuf /\ tcpBuf <> udpBuf)
  /\ (forall t, In (WithTimeout t) opts <-> t = timeout /\ 0 < timeout).
Proof.
  intros opts. subst opts. unfold server_options.
  destruct (Z.ltb_spec 0 tcpBuf), (Z.ltb_spec 0 udpBuf), (Z.eqb_spec tcpBuf udpBuf),
    (Z.ltb_spec 0 timeout);
    cbn [andb];
    destruct (negb (String.eqb u "") && negb (String.eqb p ""));
    repeat split; intros; simpl in *;
      repeat match goal with
             | H : _ \/ _ |- _ => destruct H
             | H : _ /\ _ |- _ => destruct H
             | H : False |- _ => destruct H
             | H : _ = _ |- _ => first [discriminate H | injection H as <-]
             end;
      subst; try lia; auto 10.
Qed.

(** X10.  The sizes of the TCP and UDP buffers are the flags [tcp-buf] and
    [udp-buf] unless the command line left a flag alone and the
    configuration gives a non-zero size.  The server gets one shared buffer
    pool when the two sizes are equal and positive, and otherwise a TCP pool
    for a positive TCP size and a UDP pool for a positive UDP size; it gets
    no pool for a size that is zero or negative. *)
Theorem buffer_pools :
  forall flags st a b c opts,
    In (CallNewServer opts) (socksCmd_Run L flags st a b c) ->
    exists flagTCP flagUDP,
      GetInt flags "tcp-buf" = Some flagTCP
      /\ GetInt flags "udp-buf" = Some flagUDP
      /\ let tcpBuf := preferred_size flags "tcp-buf" a flagTCP in
         let udpBuf := preferred_size flags "udp-buf" b flagUDP in
         (forall n, In (WithBufferPool n) opts
                    <-> n = tcpBuf /\ 0 < tcpBuf /\ tcpBuf = udpBuf)
         /\ (forall n, In (WithBufferPoolTCP n) opts
                       <-> n = tcpBuf /\ 0 < tcpBuf /\ tcpBuf <> udpBuf)
         /\ (forall n, In (WithBufferPoolUDP n) opts
                       <-> n = udpBuf /\ 0 < udpBuf /\ tcpBuf <> udpBuf).
Proof.
  intros flags st a b c opts H. serving H Hrun.
  all: injection H as <-; exists tcpBuf, udpBuf;
       (split; [assumption|]); (split; [assumption|]);
       match goal with
       | |- context [server_options L ?n ?r ?t ?u ?to ?us ?pw] =>
         destruct (server_options_pools n r t u to us pw) as (P1 & P2 & P3 & _)
       end;
       cbv zeta; split; [exact P1|split; [exact P2|exact P3]].
Qed.

(** X11.  The server gets a dial time-out exactly when the time-out that
    results from the flag [timeout] and the configuration is positive, and
    then it is that time-out. *)
Theorem dial_timeout :
  forall flags st a b c opts,
    In (CallNewServer opts) (socksCmd_Run L flags st a b c) ->
    exists flagTimeout,
      GetDuration flags "timeout" = Some flagTimeout
      /\ forall t, In (WithTimeout t) opts
                   <-> t = preferred_size flags "timeout" c flagTimeout
                       /\ 0 < preferred_size flags "timeout" c flagTimeout.
Proof.
  intros flags st a b c opts H. serving H Hrun.
  all: injection H as <-; exists timeout; (split; [assumption|]);
       match goal with
       | |- context [server_options L ?n ?r ?t ?u ?to ?us ?pw] =>
         destruct (server_options_pools n r t u to us pw) as (_ & _ & _ & P4)
       end;
       exact P4.
Qed.

Lemma server_options_dial tunNet r tcpBuf udpBuf timeout u p :
  In (WithDial tunNet) (server_options L tunNet r tcpBuf udpBuf timeout u p)
  /\ forall n, In (WithDial n) (server_options L tunNet r tcpBuf udpBuf timeout u p)
               -> n = tunNet.
Proof.
  unfold server_options.
  repeat match goal with
         | |- context [if ?x then _ else _] => destruct x
         end;
    (split; [simpl; auto|]);
    intros n H; simpl in H;
    repeat (destruct H as [H|H]; try discriminate; try (now injection H));
    destruct H.
Qed.

(** X12.  The server dials through the virtual stack: its one dial hook is
    the network of the stack that the same run constructed, from the
    addresses and with the MTU that the run passed to [CreateNetTUN]. *)
Theorem dial_through_stack :
  forall flags st a b c opts,
    In (CallNewServer opts) (socksCmd_Run L flags st a b c) ->
    exists localAddresses dnsAddrs mtu tunDev tunNet,
      In (CallCreateNetTUN localAddresses dnsAddrs mtu) (socksCmd_Run L flags st a b c)
      /\ CreateNetTUN L localAddresses dnsAddrs mtu = Some (tunDev, tunNet)
      /\ In (WithDial tunNet) opts
      /\ forall n, In (WithDial n) opts -> n = tunNet.
Proof.
  intros flags st a b c opts H.
  pose proof H as Hin. serving H Hrun.
  all: injection H as <-; exists (l4 ++ l6), dnsAddrs, mtu0, tunDev0, tunNet;
       (split; [rewrite Hrun; apply in_or_app; right;
                apply in_or_app; right; apply in_or_app; left; now left|]);
       (split; [assumption|]);
       apply server_options_dial.
Qed.

(** X13.  The tunnel is started on the device of the stack that the run
    constructed, with the MTU the stack was constructed with, which is the
    flag [mtu], and with the keep-alive period, the initial packet size and
    the reconnect delay of the flags. *)
Theorem tunnel_parameters :
  forall flags st a b c tlsConfig keepalive packetSize endpoint tunDev mtu delay,
    In (GoMaintainTunnel tlsConfig keepalive packetSize endpoint tunDev mtu delay)
       (socksCmd_Run L flags st a b c) ->
    GetDuration flags "keepalive-period" = Some keepalive
    /\ GetUint16 flags "initial-packet-size" = Some packetSize
    /\ GetDuration flags "reconnect-delay" = Some delay
    /\ GetInt flags "mtu" = Some mtu
    /\ exists localAddresses dnsAddrs tunNet,
        In (CallCreateNetTUN localAddresses dnsAddrs mtu) (socksCmd_Run L flags st a b c)
        /\ CreateNetTUN L localAddresses dnsAddrs mtu = Some (tunDev, tunNet).
Proof.
  intros flags st a b c tlsConfig0 keepalive0 packetSize0 endpoint tunDev mtu delay H.
  pose proof H as Hin. serving H Hrun.
  all: injection H as <- <- <- <- <- <- <-;
       repeat (split; [assumption|]);
       exists (l4 ++ l6), dnsAddrs, tunNet;
       (split; [rewrite Hrun; apply in_or_app; right;
                apply in_or_app; right; apply in_or_app; left; now left|]);
       assumption.
Qed.

(** X14.  The TLS configuration the tunnel is started with is built from the
    stored private key, the stored endpoint public key, a certificate
    generated for that private key and its own public half, and the server
    name of the flag [sni-address]. *)
Theorem tunnel_TLS_configuration :
  forall flags st a b c tlsConfig keepalive packetSize endpoint tunDev mtu delay,
    In (GoMaintainTunnel tlsConfig keepalive packetSize endpoint tunDev mtu delay)
       (socksCmd_Run L flags st a b c) ->
    exists sni privKey peerPubKey cert,
      GetString flags "sni-address" = Some sni
      /\ GetEcPrivateKey _ (base64_DecodeString L) (x509_ParseECPrivateKey L)
                         (AppConfig st) st = Ok privKey
      /\ GetEcEndpointPublicKey _ (pem_Decode L) (x509_ParsePKIXPublicKey L)
                                (AppConfig st) st = Ok peerPubKey
      /\ GenerateCert L privKey (PublicKey L privKey) = Some cert
      /\ PrepareTlsConfig L privKey peerPubKey cert sni = Some tlsConfig.
Proof.
  intros flags st a b c tlsConfig0 keepalive0 packetSize0 endpoint tunDev mtu delay H.
  serving H Hrun.
  all: injection H as <- <- <- <- <- <- <-;
       exists sni, privKey, peerPubKey, cert; repeat split; assumption.
Qed.


(** *** The addresses of the stack *)

(** The loop over the DNS servers parses every one of them, in order. *)
Lemma parse_dns_Forall2 dnsServers :
  forall dnsAddrs,
    parse_dns L dnsServers = Some dnsAddrs
    <-> Forall2 (fun s a => netip_ParseAddr L s = Some a) dnsServers dnsAddrs.
Proof.
  induction dnsServers as [|s rest IH]; intros dnsAddrs; cbn [parse_dns].
  - split; [intros [= <-]; constructor|intros H; inversion H; reflexivity].
  - destruct (netip_ParseAddr L s) as [a|] eqn:E.
    + destruct (parse_dns L rest) as [addrs|].
      * split.
        -- intros [= <-]. constructor; [exact E|]. now apply IH.
        -- intros H. inversion H as [|? a' ? addrs' Ha Hrest]; subst.
           apply IH in Hrest. congruence.
      * split; [discriminate|].
        intros H. inversion H as [|? a' ? addrs' Ha Hrest]; subst.
        apply IH in Hrest. discriminate.
    + split; [discriminate|].
      intros H. inversion H; subst. congruence.
Qed.

Lemma parse_dns_all dnsServers dnsAddrs s :
  parse_dns L dnsServers = Some dnsAddrs -> In s dnsServers ->
  netip_ParseAddr L s <> None.
Proof.
  intros H. apply parse_dns_Forall2 in H.
  induction H as [|s' a' ? ? Hs _ IH]; intros Hin; [destruct Hin|].
  destruct Hin as [<-|Hin]; [congruence|now apply IH].
Qed.

(** What the run has found when it calls [CreateNetTUN]. *)
Lemma stack_construction flags st a b c localAddresses dnsAddrs mtu :
  In (CallCreateNetTUN localAddresses dnsAddrs mtu) (socksCmd_Run L flags st a b c) ->
  exists no4 no6 l4 l6 dnsServers,
    GetBool flags "no-tunnel-ipv4" = Some no4
    /\ GetBool flags "no-tunnel-ipv6" = Some no6
    /\ inner_address L no4 (IPv4 (AppConfig st)) = Some l4
    /\ inner_address L no6 (IPv6 (AppConfig st)) = Some l6
    /\ localAddresses = l4 ++ l6
    /\ GetStringArray flags "dns" = Some dnsServers
    /\ parse_dns L dnsServers = Some dnsAddrs
    /\ GetInt flags "mtu" = Some mtu.
Proof.
  intros H. run_inversion H.
  all: injection H as <- <- <-.
  all: match goal with
       | E4 : (if negb _ then _ else Some []) = Some _,
         E6 : (if negb _ then _ else Some _) = Some _ |- _ =>
         apply inner_v4 in E4; apply inner_v6 in E6 as (l6 & E6 & ->)
       end.
  all: do 5 eexists; repeat (split; [first [eassumption|reflexivity]|]);
       first [eassumption|reflexivity].
Qed.

(** X16.  The stack is constructed on the inner addresses of the
    configuration, IPv4 before IPv6, each present unless its family is
    switched off by [no-tunnel-ipv4] or [no-tunnel-ipv6]; with the DNS
    servers of the flag [dns], all of them, parsed, in the order given; and
    with the MTU of the flag [mtu]. *)
Theorem stack_addresses :
  forall flags st a b c localAddresses dnsAddrs mtu,
    In (CallCreateNetTUN localAddresses dnsAddrs mtu) (socksCmd_Run L flags st a b c) ->
    exists no4 no6 l4 l6 dnsServers,
      GetBool flags "no-tunnel-ipv4" = Some no4
      /\ GetBool flags "no-tunnel-ipv6" = Some no6
      /\ inner_address L no4 (IPv4 (AppConfig st)) = Some l4
      /\ inner_address L no6 (IPv6 (AppConfig st)) = Some l6
      /\ localAddresses = l4 ++ l6
      /\ GetStringArray flags "dns" = Some dnsServers
      /\ Forall2 (fun s a => netip_ParseAddr L s = Some a) dnsServers dnsAddrs
      /\ GetInt flags "mtu" = Some mtu.
Proof.
  intros flags st a b c localAddresses dnsAddrs mtu H.
  apply stack_construction in H
    as (no4 & no6 & l4 & l6 & ds & H4 & H6 & Hl4 & Hl6 & Hla & Hds & Hparse & Hmtu).
  exists no4, no6, l4, l6, ds. repeat (split; [assumption|]).
  split; [now apply parse_dns_Forall2|assumption].
Qed.

(** X17.  An address that does not parse stops the command before the
    stack: if the inner IPv4 or IPv6 address is needed and does not parse, or
    one of the DNS servers does not parse, the run neither constructs the
    stack nor starts the tunnel or the proxy. *)
Theorem unparsable_address_stops :
  forall flags st a b c,
    (GetBool flags "no-tunnel-ipv4" = Some false
     /\ netip_ParseAddr L (IPv4 (AppConfig st)) = None)
    \/ (GetBool flags "no-tunnel-ipv6" = Some false
        /\ netip_ParseAddr L (IPv6 (AppConfig st)) = None)
    \/ (exists dnsServers s,
          GetStringArray flags "dns" = Some dnsServers
          /\ In s dnsServers /\ netip_ParseAddr L s = None) ->
    forallb (fun e => negb (is_CreateNetTUN L e || starts_tunnel_or_proxy L e))
            (socksCmd_Run L flags st a b c) = true.
Proof.
  intros flags st a b c Hbad.
  apply forallb_forall. intros e Hin.
  destruct (is_CreateNetTUN L e || starts_tunnel_or_proxy L e) eqn:He; [|reflexivity].
  exfalso.
  assert (Hstack : exists la da m,
             In (CallCreateNetTUN la da m) (socksCmd_Run L flags st a b c)).
  { apply orb_true_iff in He as [He|He].
    - destruct e; try discriminate He. eauto.
    - pose proof (starts_In _ _ Hin He) as Hs. apply serving_run in Hs.
      destruct Hs as (sni & privKey & peerPubKey & cert & tlsConfig & keepalive
                      & packetSize & bind & port & connectPort & no4 & no6 & l4 & l6
                      & dnsServers & dnsAddrs & dnsTimeout & localDNS & mtu0 & delay0
                      & tcpBuf & udpBuf & timeout & tunDev0 & tunNet
                      & Hloaded & Hsni & Hpriv & Hpub & Hcert & Htls & Hka & Hps
                      & Hbind & Hport & Hcp & Hno4 & Hno6 & Hl4 & Hl6 & Hdns & Hparse
                      & Hdt & Hld & Hmtu & Hdelay & Htcp & Hudp & Hto & Htun & Hrun).
      cbv zeta in Hrun. rewrite Hrun.
      exists (l4 ++ l6), dnsAddrs, mtu0.
      apply in_or_app; right; apply in_or_app; right; apply in_or_app; left; now left. }
  destruct Hstack as (la & da & m & Hstack).
  apply stack_construction in Hstack
    as (no4 & no6 & l4 & l6 & ds & H4 & H6 & Hl4 & Hl6 & _ & Hds & Hparse & _).
  destruct Hbad as [[Hf Hp]|[[Hf Hp]|(ds' & s & Hds' & Hs & Hp)]].
  - rewrite Hf in H4. injection H4 as <-.
    unfold inner_address in Hl4. rewrite Hp in Hl4. discriminate.
  - rewrite Hf in H6. injection H6 as <-.
    unfold inner_address in Hl6. rewrite Hp in Hl6. discriminate.
  - rewrite Hds' in Hds. injection Hds as <-.
    exact (parse_dns_all _ _ _ Hparse Hs Hp).
Qed.

(** *** The flags the command registers *)

Lemma GetString_registered f g name :
  same_flags f g -> flag_kind f name = Some KString -> GetString g name <> None.
Proof.
  intros Hs Hk. specialize (Hs name). rewrite Hk in Hs.
  unfold flag_kind, GetString in *.
  destruct (g !! name) as [[[] ?]|]; discriminate.
Qed.

Lemma GetInt_registered f g name :
  same_flags f g -> flag_kind f name = Some KInt -> GetInt g name <> None.
Proof.
  intros Hs Hk. specialize (Hs name). rewrite Hk in Hs.
  unfold flag_kind, GetInt in *.
  destruct (g !! name) as [[[] ?]|]; discriminate.
Qed.

Lemma GetBool_registered f g name :
  same_flags f g -> flag_kind f name = Some KBool -> GetBool g name <> None.
Proof.
  intros Hs Hk. specialize (Hs name). rewrite Hk in Hs.
  unfold flag_kind, GetBool in *.
  destruct (g !! name) as [[[] ?]|]; discriminate.
Qed.

Lemma GetDuration_registered f g name :
  same_flags f g -> flag_kind f name = Some KDuration -> GetDuration g name <> None.
Proof.
  intros Hs Hk. specialize (Hs name). rewrite Hk in Hs.
  unfold flag_kind, GetDuration in *.
  destruct (g !! name) as [[[] ?]|]; discriminate.
Qed.

Lemma GetUint16_registered f g name :
  same_flags f g -> flag_kind f name = Some KUint16 -> GetUint16 g name <> None.
Proof.
  intros Hs Hk. specialize (Hs name). rewrite Hk in Hs.
  unfold flag_kind, GetUint16 in *.
  destruct (g !! name) as [[[] ?]|]; discriminate.
Qed.

Lemma GetStringArray_registered f g name :
  same_flags f g -> flag_kind f name = Some KStringArray ->
  GetStringArray g name <> None.
Proof.
  intros Hs Hk. specialize (Hs name). rewrite Hk in Hs.
  unfold flag_kind, GetStringArray in *.
  destruct (g !! name) as [[[] ?]|]; discriminate.
Qed.

Lemma no_flag_message flags st a b c :
  same_flags (socksCmd_flags L) flags ->
  forallb (fun e => negb (is_flag_message L e)) (socksCmd_Run L flags st a b c) = true.
Proof.
  intros Hsame.
  walk_run (socksCmd_Run L flags st a b c).
  all: try reflexivity.
  all: exfalso.
  all: match goal with
       | E : GetString _ ?n = None |- _ =>
         exact (GetString_registered _ _ n Hsame eq_refl E)
       | E : GetInt _ ?n = None |- _ =>
         exact (GetInt_registered _ _ n Hsame eq_refl E)
       | E : GetBool _ ?n = None |- _ =>
         exact (GetBool_registered _ _ n Hsame eq_refl E)
       | E : GetDuration _ ?n = None |- _ =>
         exact (GetDuration_registered _ _ n Hsame eq_refl E)
       | E : GetUint16 _ ?n = None |- _ =>
         exact (GetUint16_registered _ _ n Hsame eq_refl E)
       | E : GetStringArray _ ?n = None |- _ =>
         exact (GetStringArray_registered _ _ n Hsame eq_refl E)
       end.
Qed.

(** X18.  [init] registers every flag that [socksCmd.Run] reads, with the
    type [Run] reads it with: on the flags of [socksCmd], whatever values a
    command line has given them, no run ends with one of the messages for a
    flag that cannot be read. *)
Theorem registered_flags_are_read :
  forall flags st a b c,
    same_flags (socksCmd_flags L) flags ->
    forallb (fun e => negb (is_flag_message L e)) (socksCmd_Run L flags st a b c) = true.
Proof.
  intros flags st a b c Hsame. now apply no_flag_message.
Qed.

(** *** What the command reads of the state *)

(** X19.  [socksCmd.Run] reads of the state only [ConfigLoaded] and, of
    [AppConfig], the two keys, the two endpoint addresses, the two inner
    addresses and the SOCKS section: two states that agree on these give the
    same run, whatever their licence, device id, access token, HTTP section,
    tunnel section and files. *)
Theorem Run_reads_only :
  forall flags st st' a b c,
    ConfigLoaded st' = ConfigLoaded st ->
    PrivateKey (AppConfig st') = PrivateKey (AppConfig st) ->
    EndpointPubKey (AppConfig st') = EndpointPubKey (AppConfig st) ->
    EndpointV4 (AppConfig st') = EndpointV4 (AppConfig st) ->
    EndpointV6 (AppConfig st') = EndpointV6 (AppConfig st) ->
    IPv4 (AppConfig st') = IPv4 (AppConfig st) ->
    IPv6 (AppConfig st') = IPv6 (AppConfig st) ->
    Socks (AppConfig st') = Socks (AppConfig st) ->
    socksCmd_Run L flags st' a b c = socksCmd_Run L flags st a b c.
Proof.
  intros flags [[] ? ?] [[] ? ?] a b c.
  cbn [AppConfig ConfigLoaded PrivateKey EndpointV4 EndpointV6 EndpointPubKey
       IPv4 IPv6 Socks].
  intros -> -> -> -> -> -> -> ->. reflexivity.
Qed.

(** *** The root command *)

(** X20.  With the configuration loaded, [rootCmd.Run] starts the SOCKS
    command on its own default flags exactly when the SOCKS proxy is
    enabled, and the HTTP proxy exactly when that is enabled; it waits
    exactly when it has started one of them, and says that no service is
    enabled exactly when it has started none.  A SOCKS command started this
    way, on flags that nothing has parsed, gets past the configuration check
    and every flag it reads. *)
Theorem rootCmd_Run_services :
  forall st socksEnabled httpEnabled a b c,
    ConfigLoaded st = true ->
    let events := rootCmd_Run L st socksEnabled httpEnabled a b c in
    (In (Go_socksCmd_Run (socksCmd_Run L (socksCmd_flags L) st a b c)) events
     <-> socksEnabled = true)
    /\ existsb (is_Go_socksCmd_Run L) events = socksEnabled
    /\ (In Go_httpProxyCmd_Run events <-> httpEnabled = true)
    /\ (In Wait events <-> socksEnabled = true \/ httpEnabled = true)
    /\ (In (RootPrint "No services enabled in config") events
        <-> socksEnabled = false /\ httpEnabled = false)
    /\ (forall run, In (Go_socksCmd_Run run) events ->
                    run <> [CmdPrint config_not_loaded]
                    /\ forallb (fun e => negb (is_flag_message L e)) run = true).
Proof.
  intros st se he a b c Hl events. subst events.
  assert (Hpast : socksCmd_Run L (socksCmd_flags L) st a b c
                  <> [CmdPrint config_not_loaded]
                  /\ forallb (fun e => negb (is_flag_message L e))
                             (socksCmd_Run L (socksCmd_flags L) st a b c) = true).
  { split; [|apply no_flag_message; intros name; reflexivity].
    walk_run (socksCmd_Run L (socksCmd_flags L) st a b c); discriminate. }
  unfold rootCmd_Run. rewrite Hl.
  remember (socksCmd_Run L (socksCmd_flags L) st a b c) as run.
  destruct se, he; cbn [negb app In existsb is_Go_socksCmd_Run orb];
    (split; [|split; [|split; [|split; [|split]]]]);
    try (intros run' Hin;
         repeat match goal with
                | H : _ \/ _ |- _ => destruct H
                | H : False |- _ => destruct H
                end;
         try discriminate;
         match goal with H : Go_socksCmd_Run _ = Go_socksCmd_Run _ |- _ =>
                         injection H as <-; exact Hpast end);
    try reflexivity;
    split; intros;
      repeat match goal with
             | H : _ \/ _ |- _ => destruct H
             | H : _ /\ _ |- _ => destruct H
             | H : False |- _ => destruct H
             end;
      try discriminate; auto 10.
Qed.

(** X21.  [rootCmd.PersistentPreRun] on the flags of [rootCmd], whatever
    value the command line gave [config]: it does not end the process; with
    an empty path it leaves the state alone and logs nothing; with any other
    path the state is the one [LoadConfig] leaves, and its two lines are
    logged exactly when [LoadConfig] returns an error, which does not stop
    the command: [rootCmd.Run] then runs, and prints that the configuration
    is not loaded if it still is not. *)
Theorem PersistentPreRun_loads :
  forall flags st socksEnabled httpEnabled a b c,
    same_flags rootCmd_flags flags ->
    exists configPath log st',
      GetString flags "config" = Some configPath
      /\ rootCmd_PersistentPreRun flags st = (log, Some st')
      /\ (configPath = "" -> st' = st /\ log = [])
      /\ (configPath <> "" ->
          st' = snd (LoadConfig configPath st)
          /\ (fst (LoadConfig configPath st) = None -> log = [])
          /\ (forall err, fst (LoadConfig configPath st) = Some err ->
                          log = [Printf_config_file_not_found err;
                                 Printf_you_may_only_use_the_register_command]))
      /\ (ConfigLoaded st' = false ->
          rootCmd_Run L st' socksEnabled httpEnabled a b c
          = [RootPrint config_not_loaded]).
Proof.
  intros flags st se he a b c Hsame.
  pose proof (GetString_registered rootCmd_flags flags "config" Hsame eq_refl) as Hc.
  unfold rootCmd_PersistentPreRun.
  destruct (GetString flags "config") as [configPath|]; [clear Hc|congruence].
  assert (Hrun : forall st', ConfigLoaded st' = false ->
                             rootCmd_Run L st' se he a b c = [RootPrint config_not_loaded]).
  { intros st' H. unfold rootCmd_Run. now rewrite H. }
  exists configPath.
  destruct (String.eqb_spec configPath "") as [->|Hne]; cbn [negb].
  - exists [], st. repeat split; try congruence. apply Hrun.
  - destruct (LoadConfig configPath st) as [[err|] st'] eqn:E.
    + eexists _, st'. split; [reflexivity|]. split; [reflexivity|].
      split; [congruence|]. split; [|apply Hrun].
      intros _. cbn [fst snd]. split; [reflexivity|]. split; [discriminate|].
      now intros err' [= <-].
    + exists [], st'. split; [reflexivity|]. split; [reflexivity|].
      split; [congruence|]. split; [|apply Hrun].
      intros _. cbn [fst snd]. split; [reflexivity|]. split; [reflexivity|discriminate].
Qed.

End serving.

(** *** On the concrete library *)

Ltac find_event := vm_compute; repeat first [left; reflexivity | right].

(** [--port 9050] beats the configured port; the configured bind address
    beats the default. *)
Lemma listen_address_witness :
  let L := demo_Library false in
  let flags := given "port" (StringValue "9050") (socksCmd_flags L) in
  In (CallListenAndServe (L := L) "tcp" "0.0.0.0:9050")
     (socksCmd_Run L flags demo_State 0 0 0)
  /\ exists bind port, GetString flags "bind" = Some bind
                       /\ GetString flags "port" = Some port.
Proof.
  intros L flags.
  assert (H : In (CallListenAndServe (L := L) "tcp" "0.0.0.0:9050")
                 (socksCmd_Run L flags demo_State 0 0 0)) by find_event.
  split; [exact H|].
  destruct (listen_address L _ _ _ _ _ _ _ H) as (bind & port & Hb & Hp & _).
  exists bind, port. split; assumption.
Defined.

(** [--username cli] beats the configured user; the configured password is
    used. *)
Lemma credentials_precedence_witness :
  let L := demo_Library false in
  let flags := given "username" (StringValue "cli") (socksCmd_flags L) in
  let dns := ["9.9.9.9"; "149.112.112.112"; "2620:fe::fe"; "2620:fe::9"] in
  let opts := [WithLogger; WithDial (L := L) tt;
               WithResolver (mkTunnelDNSResolver L (Some tt) dns 2000000000);
               WithAuthMethods "cli" "pass"] in
  In (CallNewServer opts) (socksCmd_Run L flags demo_State 0 0 0)
  /\ credentials L opts = Some ("cli", "pass").
Proof.
  intros L flags dns opts.
  assert (H : In (CallNewServer opts) (socksCmd_Run L flags demo_State 0 0 0))
    by find_event.
  split; [exact H|].
  rewrite (credentials_precedence L flags demo_State 0 0 0 opts "cli" "" H eq_refl eq_refl).
  reflexivity.
Defined.

(** Equal configured buffer sizes give one shared pool. *)
Lemma buffer_pools_witness :
  let L := demo_Library false in
  let dns := ["9.9.9.9"; "149.112.112.112"; "2620:fe::fe"; "2620:fe::9"] in
  let opts := [WithLogger; WithDial (L := L) tt;
               WithResolver (mkTunnelDNSResolver L (Some tt) dns 2000000000);
               WithBufferPool 4096; WithAuthMethods "user" "pass"] in
  In (CallNewServer opts) (socksCmd_Run L (socksCmd_flags L) demo_State 4096 4096 0)
  /\ ~ In (WithBufferPoolTCP 4096) opts.
Proof.
  intros L dns opts.
  assert (H : In (CallNewServer opts)
                 (socksCmd_Run L (socksCmd_flags L) demo_State 4096 4096 0))
    by find_event.
  split; [exact H|].
  destruct (buffer_pools L _ _ _ _ _ _ H) as (t & u & Ht & Hu & _ & P2 & _).
  vm_compute in Ht. injection Ht as <-. vm_compute in Hu. injection Hu as <-.
  intros Hin. apply P2 in Hin as (_ & _ & Hne). apply Hne. reflexivity.
Defined.

(** A configured time-out of five seconds is passed on. *)
Lemma dial_timeout_witness :
  let L := demo_Library false in
  let dns := ["9.9.9.9"; "149.112.112.112"; "2620:fe::fe"; "2620:fe::9"] in
  let opts := [WithLogger; WithDial (L := L) tt;
               WithResolver (mkTunnelDNSResolver L (Some tt) dns 2000000000);
               WithTimeout 5000000000; WithAuthMethods "user" "pass"] in
  In (CallNewServer opts) (socksCmd_Run L (socksCmd_flags L) demo_State 0 0 5000000000)
  /\ forall t, In (WithTimeout t) opts -> t = 5000000000.
Proof.
  intros L dns opts.
  assert (H : In (CallNewServer opts)
                 (socksCmd_Run L (socksCmd_flags L) demo_State 0 0 5000000000))
    by find_event.
  split; [exact H|].
  destruct (dial_timeout L _ _ _ _ _ _ H) as (t0 & Ht & P).
  vm_compute in Ht. injection Ht as <-.
  intros t Hin. apply P in Hin as [-> _]. reflexivity.
Defined.

Lemma dial_through_stack_witness :
  let L := demo_Library false in
  let dns := ["9.9.9.9"; "149.112.112.112"; "2620:fe::fe"; "2620:fe::9"] in
  let opts := [WithLogger; WithDial (L := L) tt;
               WithResolver (mkTunnelDNSResolver L (Some tt) dns 2000000000);
               WithAuthMethods "user" "pass"] in
  In (CallNewServer opts) (socksCmd_Run L (socksCmd_flags L) demo_State 0 0 0)
  /\ exists localAddresses dnsAddrs mtu,
      In (CallCreateNetTUN localAddresses dnsAddrs mtu)
         (socksCmd_Run L (socksCmd_flags L) demo_State 0 0 0).
Proof.
  intros L dns opts.
  assert (H : In (CallNewServer opts) (socksCmd_Run L (socksCmd_flags L) demo_State 0 0 0))
    by find_event.
  split; [exact H|].
  destruct (dial_through_stack L _ _ _ _ _ _ H) as (la & da & m & dev & net & Hin & _).
  exists la, da, m. exact Hin.
Defined.

Lemma tunnel_parameters_witness :
  let L := demo_Library false in
  let flags := given "mtu" (IntValue 1400) (socksCmd_flags L) in
  In (GoMaintainTunnel (L := L) "sni.example" 30000000000 1242
                       (mkUDPAddr L (Some "127.0.0.1") 443) tt 1400 1000000000)
     (socksCmd_Run L flags demo_State 0 0 0)
  /\ GetInt flags "mtu" = Some 1400.
Proof.
  intros L flags.
  assert (H : In (GoMaintainTunnel (L := L) "sni.example" 30000000000 1242
                                   (mkUDPAddr L (Some "127.0.0.1") 443) tt 1400
                                   1000000000)
                 (socksCmd_Run L flags demo_State 0 0 0)) by find_event.
  split; [exact H|].
  destruct (tunnel_parameters L _ _ _ _ _ _ _ _ _ _ _ _ H) as (_ & _ & _ & Hm & _).
  exact Hm.
Defined.

Lemma tunnel_TLS_configuration_witness :
  let L := demo_Library false in
  In (GoMaintainTunnel (L := L) "sni.example" 30000000000 1242
                       (mkUDPAddr L (Some "127.0.0.1") 443) tt 1280 1000000000)
     (socksCmd_Run L (socksCmd_flags L) demo_State 0 0 0)
  /\ exists privKey peerPubKey cert,
      PrepareTlsConfig L privKey peerPubKey cert "sni.example" = Some "sni.example".
Proof.
  intros L.
  assert (H : In (GoMaintainTunnel (L := L) "sni.example" 30000000000 1242
                                   (mkUDPAddr L (Some "127.0.0.1") 443) tt 1280
                                   1000000000)
                 (socksCmd_Run L (socksCmd_flags L) demo_State 0 0 0)) by find_event.
  split; [exact H|].
  destruct (tunnel_TLS_configuration L _ _ _ _ _ _ _ _ _ _ _ _ H)
    as (sni & privKey & peerPubKey & cert & Hsni & _ & _ & _ & Htls).
  vm_compute in Hsni. injection Hsni as <-.
  exists privKey, peerPubKey, cert. exact Htls.
Defined.


(** With [--no-tunnel-ipv6] the stack has the IPv4 address alone. *)
Lemma stack_addresses_witness :
  let L := demo_Library false in
  let flags := given "no-tunnel-ipv6" (BoolValue true) (socksCmd_flags L) in
  let dns := ["9.9.9.9"; "149.112.112.112"; "2620:fe::fe"; "2620:fe::9"] in
  In (CallCreateNetTUN (L := L) ["172.16.0.2"] dns 1280)
     (socksCmd_Run L flags demo_State 0 0 0)
  /\ exists l4 l6, inner_address L false "172.16.0.2" = Some l4
                   /\ inner_address L true "2606::1" = Some l6
                   /\ ["172.16.0.2"] = l4 ++ l6.
Proof.
  intros L flags dns.
  assert (H : In (CallCreateNetTUN (L := L) ["172.16.0.2"] dns 1280)
                 (socksCmd_Run L flags demo_State 0 0 0)) by find_event.
  split; [exact H|].
  destruct (stack_addresses L _ _ _ _ _ _ _ _ H)
    as (no4 & no6 & l4 & l6 & ds & H4 & H6 & Hl4 & Hl6 & Hla & _).
  vm_compute in H4. injection H4 as <-. vm_compute in H6. injection H6 as <-.
  exists l4, l6. repeat split; assumption.
Defined.

(** An empty DNS server on the command line: the stack is not constructed. *)
Lemma unparsable_address_stops_witness :
  let L := demo_Library false in
  let flags := given "dns" (StringArrayValue ["9.9.9.9"; ""]) (socksCmd_flags L) in
  forallb (fun e => negb (is_CreateNetTUN L e || starts_tunnel_or_proxy L e))
          (socksCmd_Run L flags demo_State 0 0 0) = true.
Proof.
  intros L flags.
  apply (unparsable_address_stops L flags demo_State 0 0 0).
  right. right. exists ["9.9.9.9"; ""], "".
  split; [reflexivity|]. split; [simpl; auto|reflexivity].
Defined.

Lemma same_flags_given (f : FlagSet) name v v' ch :
  f !! name = Some (mkFlag v' ch) -> kind_of v = kind_of v' ->
  same_flags f (given name v f).
Proof.
  intros Hf Hk other. unfold flag_kind, given.
  destruct (decide (name = other)) as [<-|Hne].
  - rewrite lookup_insert_eq, Hf. simpl. now rewrite Hk.
  - now rewrite lookup_insert_ne.
Qed.

Lemma registered_flags_are_read_witness :
  let L := demo_Library false in
  let flags := given "mtu" (IntValue 1400) (socksCmd_flags L) in
  same_flags (socksCmd_flags L) flags
  /\ forallb (fun e => negb (is_flag_message L e))
             (socksCmd_Run L flags demo_State 0 0 0) = true.
Proof.
  intros L flags.
  assert (Hs : same_flags (socksCmd_flags L) flags).
  { apply (same_flags_given _ "mtu" (IntValue 1400) (IntValue 1280) false); reflexivity. }
  split; [exact Hs|].
  exact (registered_flags_are_read L flags demo_State 0 0 0 Hs).
Defined.

(** Another licence, another tunnel section, other files: the same run. *)
Lemma Run_reads_only_witness :
  let L := demo_Library false in
  let c := AppConfig demo_State in
  let st' := mkState (mkConfig (PrivateKey c) (EndpointV4 c) (EndpointV6 c)
                               (EndpointPubKey c) "another licence" "another id"
                               "another token" (IPv4 c) (IPv6 c) (Socks c)
                               zeroProxy zeroTunnel)
                     true (one_file "elsewhere.json" (FirstValue json.Null)) in
  socksCmd_Run L (socksCmd_flags L) st' 0 0 0
  = socksCmd_Run L (socksCmd_flags L) demo_State 0 0 0.
Proof.
  intros L c st'.
  apply (Run_reads_only L (socksCmd_flags L) demo_State st' 0 0 0); reflexivity.
Defined.

Lemma rootCmd_Run_services_witness :
  let L := demo_Library false in
  In (Go_socksCmd_Run (socksCmd_Run L (socksCmd_flags L) demo_State 0 0 0))
     (rootCmd_Run L demo_State true false 0 0 0)
  /\ ~ In Go_httpProxyCmd_Run (rootCmd_Run L demo_State true false 0 0 0).
Proof.
  intros L.
  destruct (rootCmd_Run_services L demo_State true false 0 0 0 eq_refl)
    as (Hsocks & _ & Hhttp & _ & _ & _).
  split; [now apply Hsocks|].
  intros Hin. apply Hhttp in Hin. discriminate Hin.
Defined.

(** A configuration file that is not there: two lines in the log, and the
    root command then only prints. *)
Lemma PersistentPreRun_loads_witness :
  let L := demo_Library false in
  let flags := given "config" (StringValue "missing.json") rootCmd_flags in
  let st := mkState zeroConfig false (one_file "other.json" NoValue) in
  same_flags rootCmd_flags flags
  /\ exists log, rootCmd_PersistentPreRun flags st = (log, Some st)
                 /\ length log = 2%nat
                 /\ rootCmd_Run L st true true 0 0 0 = [RootPrint config_not_loaded].
Proof.
  intros L flags st.
  assert (Hs : same_flags rootCmd_flags flags).
  { apply (same_flags_given _ "config" _ (StringValue "config.json") false); reflexivity. }
  split; [exact Hs|].
  destruct (PersistentPreRun_loads L flags st true true 0 0 0 Hs)
    as (path & log & st' & Hp & Hpre & _ & Hload & Hrun).
  vm_compute in Hp. injection Hp as <-.
  destruct (Hload ltac:(discriminate)) as (Hst & _ & Hlog).
  specialize (Hlog _ eq_refl).
  assert (E : st' = st) by (rewrite Hst; reflexivity).
  subst st' log.
  eexists. split; [exact Hpre|]. split; [reflexivity|].
  apply Hrun. reflexivity.
Defined.

End cmd_more.
